(** * Article scraper: extraction, bounded dispatch, normalisation, storage

    A shallow embedding of [main.py] (UniversalWebScraper, TextProcessor,
    DatabaseManager, ArticleProcessor) and of [db_viewer.py]
    (DatabaseViewer.search_articles), with the properties of the
    specification stated and proved over it.

    Python [str] values are modelled as [string]; a character is a code
    point below 256.  Python [int] values are modelled as [Z]. *)

From Stdlib Require Import String Ascii List ZArith Lia Bool Arith.
Import ListNotations.
Set Warnings "-register-all".
Open Scope string_scope.
Open Scope Z_scope.

(** ** Python string primitives *)

Module Str.

(** [str.isspace] on one character: TAB..CR, FS..US, SPACE, NEL, NBSP.
    The regular expression class [\s] on [str] patterns and [str.strip]
    use the same predicate. *)
Definition isspace (c : ascii) : bool :=
  let n := nat_of_ascii c in
  (((9 <=? n) && (n <=? 13)) || ((28 <=? n) && (n <=? 32))
   || (n =? 133) || (n =? 160))%nat.

(** [str.lower] on one character: A-Z and the Latin-1 capitals. *)
Definition lower_char (c : ascii) : ascii :=
  let n := nat_of_ascii c in
  if (((65 <=? n) && (n <=? 90))
      || ((192 <=? n) && (n <=? 222) && negb (n =? 215)))%nat
  then ascii_of_nat (n + 32) else c.

Fixpoint lower (s : string) : string :=
  match s with
  | EmptyString => EmptyString
  | String c s' => String (lower_char c) (lower s')
  end.

(** [len(s)] *)
Definition len (s : string) : Z := Z.of_nat (String.length s).

(** Truth value of a string: [if s] holds when [s] is not empty. *)
Definition truthy (s : string) : bool :=
  match s with EmptyString => false | String _ _ => true end.

Fixpoint take (n : nat) (s : string) : string :=
  match n, s with
  | S k, String c s' => String c (take k s')
  | _, _ => EmptyString
  end.

(** [s[:n]] for a literal bound [n >= 0]. *)
Definition slice_to (n : Z) (s : string) : string := take (Z.to_nat n) s.

Fixpoint lstrip (s : string) : string :=
  match s with
  | EmptyString => EmptyString
  | String c s' => if isspace c then lstrip s' else s
  end.

Fixpoint rstrip (s : string) : string :=
  match s with
  | EmptyString => EmptyString
  | String c s' =>
      match rstrip s' with
      | EmptyString => if isspace c then EmptyString else String c EmptyString
      | r => String c r
      end
  end.

(** [s.strip()] *)
Definition strip (s : string) : string := rstrip (lstrip s).

(** [re.sub(r'[class]+', r, s)] for a one-character replacement [r]:
    every maximal run of characters of the class becomes one [r].
    [in_run] tells whether the previous character was in the class. *)
Fixpoint sub_run (p : ascii -> bool) (r : ascii) (in_run : bool) (s : string)
  : string :=
  match s with
  | EmptyString => EmptyString
  | String c s' =>
      if p c
      then if in_run then sub_run p r true s'
           else String r (sub_run p r true s')
      else String c (sub_run p r false s')
  end.

Definition space : ascii := " "%char.
Definition newline : ascii := "010"%char.
Definition is_newline (c : ascii) : bool := Ascii.eqb c newline.

(** [re.sub(r'\s+', ' ', s)] *)
Definition sub_spaces (s : string) : string := sub_run isspace space false s.

(** [re.sub(r'\n+', '\n', s)] *)
Definition sub_newlines (s : string) : string :=
  sub_run is_newline newline false s.

(** [c in s] for a character [c]. *)
Fixpoint has_char (c : ascii) (s : string) : bool :=
  match s with
  | EmptyString => false
  | String d s' => Ascii.eqb c d || has_char c s'
  end.

(** [re.search('[set]', s)]: some character of [s] lies in [set]. *)
Fixpoint search_class (set : string) (s : string) : bool :=
  match s with
  | EmptyString => false
  | String c s' => has_char c set || search_class set s'
  end.

(** [sep.join(l)] *)
Fixpoint join (sep : string) (l : list string) : string :=
  match l with
  | [] => EmptyString
  | [x] => x
  | x :: rest => x ++ sep ++ join sep rest
  end.

(** [s.startswith(p)] *)
Definition startswith (p s : string) : bool := String.prefix p s.

(** [sub in s]: [sub] occurs in [s] as a contiguous substring. *)
Fixpoint contains (sub s : string) : bool :=
  String.prefix sub s
  || match s with
     | EmptyString => false
     | String _ s' => contains sub s'
     end.

(** [s.split()]: the maximal runs of non-whitespace characters. [cur] is
    the run being read. *)
Fixpoint split_ws_from (cur : string) (s : string) : list string :=
  match s with
  | EmptyString => if truthy cur then [cur] else []
  | String c s' =>
      if isspace c
      then if truthy cur then cur :: split_ws_from EmptyString s'
           else split_ws_from EmptyString s'
      else split_ws_from (cur ++ String c EmptyString) s'
  end.

Definition split_ws (s : string) : list string := split_ws_from EmptyString s.

End Str.

(** ** The document tree of the markup library

    What [BeautifulSoup(html, 'html.parser')] builds: strings and tags
    with a name, attributes and children.  A document is the list of the
    root's children.  A string is of the plain class ([Text]) unless it was
    read inside a [script], [style], [template], [rt] or [rp] element:
    then it is of that element's own class ([Special], with the name of
    the innermost such element around it).  Comments and declarations are
    not part of the model. *)

Inductive node : Type :=
| Text (s : string)
| Special (container : string) (s : string)
| Tag (name : string) (attrs : list (string * string)) (children : list node).

Definition soup : Type := list node.

Module Bs4.

Definition tag_name (n : node) : string :=
  match n with
  | Text _ | Special _ _ => EmptyString
  | Tag nm _ _ => nm
  end.

Fixpoint lookup (k : string) (l : list (string * string)) : option string :=
  match l with
  | [] => None
  | (k', v) :: rest => if String.eqb k k' then Some v else lookup k rest
  end.

(** [tag.get(key, default)] *)
Definition get (n : node) (key default : string) : string :=
  match n with
  | Text _ | Special _ _ => default
  | Tag _ attrs _ =>
      match lookup key attrs with Some v => v | None => default end
  end.

(** The elements whose strings are of a class of their own. *)
Definition string_containers : list string :=
  ["rt"; "rp"; "style"; "script"; "template"].

(** The strings of one class below a node, in document order: the plain
    ones for [None], the ones of a container's class for its name. *)
Fixpoint strings_of (kind : option string) (n : node) : list string :=
  match n with
  | Text s => match kind with None => [s] | Some _ => [] end
  | Special c s =>
      match kind with
      | Some k => if String.eqb k c then [s] else []
      | None => []
      end
  | Tag _ _ cs => flat_map (strings_of kind) cs
  end.

(** The class of strings a tag reads: its own when it is a container,
    the plain one otherwise. *)
Definition interesting (name : string) : option string :=
  if existsb (String.eqb name) string_containers then Some name else None.

(** The strings [get_text] reads below a node. *)
Definition strings (n : node) : list string :=
  match n with
  | Text s | Special _ s => [s]
  | Tag nm _ _ => strings_of (interesting nm) n
  end.

(** [tag.get_text()] *)
Definition get_text (n : node) : string := Str.join "" (strings n).

(** The strings kept under [strip=True]: each is stripped, and the ones
    that become empty are left out. *)
Definition stripped_strings (n : node) : list string :=
  filter Str.truthy (map Str.strip (strings n)).

(** [tag.get_text(separator=sep, strip=True)] *)
Definition get_text_strip (sep : string) (n : node) : string :=
  Str.join sep (stripped_strings n).

(** [soup.get_text()] on the document. *)
Definition soup_text (d : soup) : string :=
  Str.join "" (flat_map (strings_of None) d).

(** The tags of a subtree, the node itself first, in document order. *)
Fixpoint tags (n : node) : list node :=
  match n with
  | Text _ | Special _ _ => []
  | Tag _ _ cs => n :: flat_map tags cs
  end.

Definition all_tags (d : soup) : list node := flat_map tags d.

(** [soup.find(name)] *)
Definition find (d : soup) (name : string) : option node :=
  List.find (fun n => String.eqb (tag_name n) name) (all_tags d).

(** [soup.find(name, attrs={key: value})] and the keyword form
    [soup.find(name, key=value)]. *)
Definition find_attr (d : soup) (name key value : string) : option node :=
  List.find
    (fun n => String.eqb (tag_name n) name
              && match n with
                 | Tag _ attrs _ =>
                     match lookup key attrs with
                     | Some v => String.eqb v value
                     | None => false
                     end
                 | Text _ | Special _ _ => false
                 end)
    (all_tags d).

(** [soup.find_all(name)] *)
Definition find_all (d : soup) (name : string) : list node :=
  filter (fun n => String.eqb (tag_name n) name) (all_tags d).

(** The selectors the program passes to [soup.select]. *)
Inductive selector : Type :=
| SelTag (name : string)                 (* article *)
| SelAttrContains (attr sub : string)    (* [class*="content"] *)
| SelAttrEq (attr value : string)        (* [rel="author"] *)
| SelClass (cls : string).               (* .content *)

(** The attributes the parser keeps as whitespace-separated lists, of the
    two the program selects on: [class] on every tag, [rel] on [a], [link]
    and [area]. *)
Definition multi_valued (name attr : string) : bool :=
  String.eqb attr "class"
  || (String.eqb attr "rel"
      && existsb (String.eqb name) ["a"; "link"; "area"]).

(** What an attribute selector compares: the items of a list joined by
    one space, any other value as it is written. *)
Definition attr_value (n : node) (attr : string) : option string :=
  match n with
  | Text _ | Special _ _ => None
  | Tag nm attrs _ =>
      match lookup attr attrs with
      | Some v =>
          Some (if multi_valued nm attr
                then Str.join " " (Str.split_ws v)
                else v)
      | None => None
      end
  end.

Definition matches (sel : selector) (n : node) : bool :=
  match sel with
  | SelTag name => String.eqb (tag_name n) name
  | SelAttrContains attr sub =>
      match attr_value n attr with
      | Some v => Str.contains sub v
      | None => false
      end
  | SelAttrEq attr value =>
      match attr_value n attr with
      | Some v => String.eqb v value
      | None => false
      end
  | SelClass cls =>
      match n with
      | Text _ | Special _ _ => false
      | Tag _ attrs _ =>
          match lookup "class" attrs with
          | Some v => existsb (String.eqb cls) (Str.split_ws v)
          | None => false
          end
      end
  end.

(** [soup.select(selector)] *)
Definition select (d : soup) (sel : selector) : list node :=
  filter (matches sel) (all_tags d).

(** [for tag in soup(names): tag.decompose()]: every tag with one of the
    names leaves the tree, with everything below it. *)
Fixpoint decompose (names : list string) (n : node) : list node :=
  match n with
  | Text _ | Special _ _ => [n]
  | Tag nm attrs cs =>
      if existsb (String.eqb nm) names then []
      else [Tag nm attrs (flat_map (decompose names) cs)]
  end.

Definition decompose_all (names : list string) (d : soup) : soup :=
  flat_map (decompose names) d.

End Bs4.

(** ** Exceptions and results *)

Inductive exn : Type :=
| TimeoutError                 (* asyncio.TimeoutError *)
| ClientError                  (* aiohttp.ClientError, decoding errors, ... *)
| ValueError (msg : string)
| OperationalError             (* sqlite3.OperationalError *)
| CancelledError.              (* a BaseException that is no Exception *)

(** [isinstance(e, Exception)] *)
Definition is_Exception (e : exn) : bool :=
  match e with CancelledError => false | _ => true end.

Definition is_TimeoutError (e : exn) : bool :=
  match e with TimeoutError => true | _ => false end.

(** A call either returns a value or raises. *)
Inductive result (A : Type) : Type :=
| Return (a : A)
| Raise (e : exn).
Arguments Return {A} a.
Arguments Raise {A} e.

(** ** What the program takes from outside

    The markup parser and the URL parser are library code; the network is
    the environment.  The program is stated over any of them.  The markup
    parser is taken on the markup it accepts: [BeautifulSoup] is the tree
    it builds, and a markup it rejects is not covered. *)

Record response : Type := {
  status : Z;
  text : result string          (* await response.text() *)
}.

(** What [urlparse(url)] gives the program: the [netloc] of the result,
    or the [ValueError] of a URL it refuses. *)
Inductive parsed : Type :=
| Netloc (netloc : string)
| Invalid (msg : string).

Class Library : Type := {
  BeautifulSoup : string -> soup;       (* BeautifulSoup(html, 'html.parser') *)
  urlparse_netloc : string -> parsed    (* urlparse(url).netloc *)
}.

Class Network : Type := {
  session_get : string -> result response
}.

(** The article dictionary; [summary] is the key added by the workflow. *)
Record article : Type := {
  title : string;
  author : string;
  content : string;
  summary : option string;
  source_url : string
}.

(** ** UniversalWebScraper *)

Section UniversalWebScraper.
Context {lib : Library} {net : Network}.

(** The text a title candidate offers. *)
Definition candidate_title (candidate : node) : string :=
  if String.eqb (Bs4.tag_name candidate) "meta"
  then Str.strip (Bs4.get candidate "content" "")
  else Str.strip (Bs4.get_text candidate).

Definition title_candidates (d : soup) : list (option node) :=
  [ Bs4.find d "h1";
    Bs4.find d "title";
    Bs4.find_attr d "meta" "property" "og:title";
    Bs4.find_attr d "meta" "name" "twitter:title";
    Bs4.find d "h2" ].

(** The loop over the candidates: the first with more than 3 characters. *)
Fixpoint first_title (candidates : list (option node)) : option string :=
  match candidates with
  | [] => None
  | None :: rest => first_title rest
  | Some candidate :: rest =>
      let title := candidate_title candidate in
      if Str.truthy title && (3 <? Str.len title)
      then Some (Str.slice_to 200 title)
      else first_title rest
  end.

(** [urlparse] is called after the loop, when no candidate was taken;
    what it raises leaves the function. *)
Definition _extract_title (d : soup) (url : string) : result string :=
  match first_title (title_candidates d) with
  | Some title => Return title
  | None =>
      match urlparse_netloc url with
      | Netloc netloc => Return ("Article from " ++ netloc)
      | Invalid msg => Raise (ValueError msg)
      end
  end.

Definition author_selectors : list Bs4.selector :=
  [ Bs4.SelAttrContains "class" "author";
    Bs4.SelAttrContains "class" "byline";
    Bs4.SelAttrContains "class" "writer";
    Bs4.SelAttrEq "rel" "author";
    Bs4.SelClass "author-name";
    Bs4.SelClass "byline";
    Bs4.SelClass "post-author";
    Bs4.SelClass "author";
    Bs4.SelClass "writer";
    Bs4.SelClass "by-author" ].

(** The characters of the class the author pattern searches for; the last
    one is the double quote. *)
Definition disallowed : string :=
  "<>@#$%^&*()+=[]{}|\:;'?,./" ++ String "034"%char EmptyString.

(** A meta tag's author: its stripped content when non-empty and shorter
    than 100. *)
Definition meta_author (m : option node) : option string :=
  match m with
  | Some tag =>
      let author := Str.strip (Bs4.get tag "content" "") in
      if Str.truthy author && (Str.len author <? 100)
      then Some author else None
  | None => None
  end.

(** The inner loop over the elements one selector matched. *)
Fixpoint first_author (elements : list node) : option string :=
  match elements with
  | [] => None
  | element :: rest =>
      let author := Str.strip (Bs4.get_text element) in
      if Str.truthy author && (Str.len author <? 100) && (2 <? Str.len author)
      then if negb (Str.search_class disallowed author)
           then Some author
           else first_author rest
      else first_author rest
  end.

(** The outer loop over the selectors. *)
Fixpoint author_by_selectors (d : soup) (selectors : list Bs4.selector)
  : option string :=
  match selectors with
  | [] => None
  | sel :: rest =>
      match first_author (Bs4.select d sel) with
      | Some author => Some author
      | None => author_by_selectors d rest
      end
  end.

Definition _extract_author (d : soup) : string :=
  match meta_author (Bs4.find_attr d "meta" "name" "author") with
  | Some author => author
  | None =>
      match meta_author (Bs4.find_attr d "meta" "property" "article:author") with
      | Some author => author
      | None =>
          match author_by_selectors d author_selectors with
          | Some author => author
          | None => "Unknown"
          end
      end
  end.

Definition unwanted_tags : list string :=
  ["script"; "style"; "nav"; "header"; "footer"; "aside"; "advertisement"].

Definition content_selectors : list Bs4.selector :=
  [ Bs4.SelTag "article";
    Bs4.SelAttrContains "class" "content";
    Bs4.SelAttrContains "class" "post-content";
    Bs4.SelAttrContains "class" "entry-content";
    Bs4.SelAttrContains "class" "article-content";
    Bs4.SelAttrContains "class" "post-body";
    Bs4.SelAttrContains "class" "story-body";
    Bs4.SelAttrContains "class" "article-body";
    Bs4.SelTag "main";
    Bs4.SelClass "content";
    Bs4.SelClass "post";
    Bs4.SelClass "article";
    Bs4.SelClass "story" ].

(** The text a content element offers. *)
Definition element_text (element : node) : string :=
  Bs4.get_text_strip " " element.

(** The inner loop; the state is [(best_content, max_length)]. *)
Fixpoint scan_elements (elements : list node) (best : string * Z)
  : string * Z :=
  match elements with
  | [] => best
  | element :: rest =>
      let text := element_text element in
      if (snd best <? Str.len text) && (100 <? Str.len text)
      then scan_elements rest (text, Str.len text)
      else scan_elements rest best
  end.

(** The outer loop over the content selectors. *)
Fixpoint scan_selectors (d : soup) (selectors : list Bs4.selector)
  (best : string * Z) : string * Z :=
  match selectors with
  | [] => best
  | sel :: rest => scan_selectors d rest (scan_elements (Bs4.select d sel) best)
  end.

(** [best_content] when the selector pass ends. *)
Definition best_candidate (d : soup) : string :=
  fst (scan_selectors d content_selectors (EmptyString, 0)).

Definition paragraph_text (d : soup) : string :=
  Str.join " "
    (filter Str.truthy (map (Bs4.get_text_strip "") (Bs4.find_all d "p"))).

(** Fallback: all paragraph text. *)
Definition paragraph_fallback (d : soup) (best_content : string) : string :=
  if negb (Str.truthy best_content) || (Str.len best_content <? 200)
  then if Str.len best_content <? Str.len (paragraph_text d)
       then paragraph_text d else best_content
  else best_content.

(** Final fallback: all text of the body. *)
Definition body_fallback (d : soup) (best_content : string) : string :=
  if negb (Str.truthy best_content) || (Str.len best_content <? 100)
  then match Bs4.find d "body" with
       | Some body => Bs4.get_text_strip " " body
       | None => best_content
       end
  else best_content.

(** [best_content] after the selector pass and the two fallbacks. *)
Definition resolve_content (d : soup) : string :=
  let d := Bs4.decompose_all unwanted_tags d in
  body_fallback d (paragraph_fallback d (best_candidate d)).

Definition _extract_main_content (d : soup) : string :=
  let best_content := resolve_content d in
  if Str.truthy best_content
  then Str.slice_to 10000 best_content
  else "No content extracted".

Definition _clean_url (url : string) : string :=
  if negb (Str.startswith "http://" url || Str.startswith "https://" url)
  then "https://" ++ url
  else url.

(** The two [except] clauses of [scrape_url]: a timeout and any other
    [Exception] are logged and become [None]; anything else propagates. *)
Definition scrape_except (e : exn) : result (option article) :=
  if is_TimeoutError e then Return None
  else if is_Exception e then Return None
  else Raise e.

Definition scrape_url (url : string) : result (option article) :=
  let url := _clean_url url in
  match session_get url with
  | Raise e => scrape_except e
  | Return resp =>
      if negb (status resp =? 200) then Return None
      else
        match text resp with
        | Raise e => scrape_except e
        | Return html =>
            let d := BeautifulSoup html in
            match _extract_title d url with
            | Raise e => scrape_except e
            | Return title =>
                let author := _extract_author d in
                let content := _extract_main_content d in
                if negb (Str.truthy content) || (Str.len content <? 50)
                then Return None
                else Return (Some {| title := title;
                                     author := author;
                                     content := content;
                                     summary := None;
                                     source_url := url |})
            end
        end
  end.

End UniversalWebScraper.

(** ** The bounded dispatcher: [scrape_multiple_urls]

    Every URL becomes a task running
    [async with semaphore: return await self.scrape_url(url)].
    A task waits at the semaphore, holds one of its slots while its fetch
    and extraction run, and gives the slot back when it ends.  The
    semaphore is its counter: acquiring needs a positive counter and
    takes one from it, releasing adds one. *)

Inductive task : Type :=
| Queued (url : string)                      (* waiting at the semaphore *)
| InFlight (url : string)                    (* inside [async with] *)
| Finished (r : result (option article)).    (* returned or raised *)

Record dispatch : Type := {
  value : Z;                (* the semaphore's counter *)
  tasks : list task         (* one task per URL, in the order of [urls] *)
}.

(** What a call produces: a value, an exception, or no answer at all. *)
Inductive outcome (A : Type) : Type :=
| Returns (a : A)
| Raises (e : exn)
| Hangs.
Arguments Returns {A} a.
Arguments Raises {A} e.
Arguments Hangs {A}.

Section Dispatcher.
Context {lib : Library} {net : Network}.

(** [tasks = [scrape_with_semaphore(url) for url in urls]] under a fresh
    [asyncio.Semaphore(max_concurrent)]. *)
Definition init (max_concurrent : Z) (urls : list string) : dispatch :=
  {| value := max_concurrent; tasks := map Queued urls |}.

(** One move of the event loop: a waiting task acquires a slot, or a
    running task ends and releases its slot.  Any task may move; the
    order is the environment's. *)
Inductive step : dispatch -> dispatch -> Prop :=
| step_acquire v before url after :
    0 < v ->
    step {| value := v; tasks := before ++ Queued url :: after |}
         {| value := v - 1; tasks := before ++ InFlight url :: after |}
| step_release v before url after :
    step {| value := v; tasks := before ++ InFlight url :: after |}
         {| value := v + 1;
            tasks := before ++ Finished (scrape_url url) :: after |}.

Inductive steps : dispatch -> dispatch -> Prop :=
| steps_refl s : steps s s
| steps_next s1 s2 s3 : steps s1 s2 -> step s2 s3 -> steps s1 s3.

(** The number of tasks that hold a slot. *)
Fixpoint in_flight (ts : list task) : Z :=
  match ts with
  | [] => 0
  | InFlight _ :: rest => 1 + in_flight rest
  | _ :: rest => in_flight rest
  end.

Fixpoint queued (ts : list task) : Z :=
  match ts with
  | [] => 0
  | Queued _ :: rest => 1 + queued rest
  | _ :: rest => queued rest
  end.

(** [asyncio.gather] with [return_exceptions=True]: ready when
    every task has ended; the results come in the order of the tasks and
    an exception is a result like any other. *)
Fixpoint gathered (ts : list task) : option (list (result (option article))) :=
  match ts with
  | [] => Some []
  | Finished r :: rest =>
      match gathered rest with
      | Some rs => Some (r :: rs)
      | None => None
      end
  | _ :: rest => None
  end.

(** The loop over [results]: dictionaries are kept, exceptions are
    logged, everything else is passed over. *)
Fixpoint collect (results : list (result (option article))) : list article :=
  match results with
  | [] => []
  | Return (Some a) :: rest => a :: collect rest
  | Return None :: rest => collect rest
  | Raise _ :: rest => collect rest
  end.

(** A schedule to run the model with: the first waiting task starts when
    a slot is free, otherwise the first running task ends. *)
Fixpoint start_first (ts : list task) : option (list task) :=
  match ts with
  | [] => None
  | Queued url :: rest => Some (InFlight url :: rest)
  | t :: rest =>
      match start_first rest with
      | Some rest' => Some (t :: rest')
      | None => None
      end
  end.

Fixpoint finish_first (ts : list task) : option (list task) :=
  match ts with
  | [] => None
  | InFlight url :: rest => Some (Finished (scrape_url url) :: rest)
  | t :: rest =>
      match finish_first rest with
      | Some rest' => Some (t :: rest')
      | None => None
      end
  end.

Definition next (s : dispatch) : option dispatch :=
  let finish :=
    match finish_first (tasks s) with
    | Some ts => Some {| value := value s + 1; tasks := ts |}
    | None => None
    end in
  if 0 <? value s
  then match start_first (tasks s) with
       | Some ts => Some {| value := value s - 1; tasks := ts |}
       | None => finish
       end
  else finish.

(** Run the loop until [gather] is ready.  [None]: no task can move and
    some have not ended, or the fuel is spent. *)
Fixpoint run (fuel : nat) (s : dispatch)
  : option (list (result (option article))) :=
  match gathered (tasks s) with
  | Some results => Some results
  | None =>
      match fuel with
      | O => None
      | S fuel' =>
          match next s with
          | Some s' => run fuel' s'
          | None => None
          end
      end
  end.

(** [asyncio.Semaphore(value)] refuses a negative value.  Each task moves
    twice, so twice the number of tasks is fuel enough. *)
Definition scrape_multiple_urls (urls : list string) (max_concurrent : Z)
  : outcome (list article) :=
  if max_concurrent <? 0
  then Raises (ValueError "Semaphore initial value must be >= 0")
  else match run (2 * List.length urls) (init max_concurrent urls) with
       | Some results => Returns (collect results)
       | None => Hangs
       end.

(** The record of a URL that succeeded. *)
Definition succeeded (url : string) : option article :=
  match scrape_url url with
  | Return (Some a) => Some a
  | _ => None
  end.

Fixpoint successes (urls : list string) : list article :=
  match urls with
  | [] => []
  | url :: rest =>
      match succeeded url with
      | Some a => a :: successes rest
      | None => successes rest
      end
  end.

Definition succeeds (url : string) : bool :=
  match succeeded url with Some _ => true | None => false end.

(** A task of the table is the task of its URL, at one of its stages. *)
Definition follows (url : string) (t : task) : Prop :=
  t = Queued url \/ t = InFlight url \/ t = Finished (scrape_url url).

End Dispatcher.

(** ** TextProcessor *)

Section TextProcessor.
Context {lib : Library}.

Definition preprocess_text (text : string) : string :=
  if negb (Str.truthy text) then EmptyString
  else
    (* Remove HTML tags *)
    let text := Bs4.soup_text (BeautifulSoup text) in
    (* Normalize whitespace *)
    let text := Str.sub_spaces text in
    let text := Str.strip text in
    (* Remove extra newlines *)
    let text := Str.sub_newlines text in
    (* Convert to lowercase *)
    Str.lower text.

End TextProcessor.

(** ** DatabaseManager and ArticleProcessor *)

Inductive level : Type := INFO | WARNING | ERROR.

(** A log line: its level and its message up to the first interpolated
    value. *)
Definition log_line : Type := (level * string)%type.

(** The storage engine, the summarisation service and the source scrapers
    answer as the environment decides. *)
Class Services : Type := {
  database : Type;
  (* INSERT INTO articles (title, author, content, summary, source_url);
     the new row's id and the database after the commit *)
  sqlite_insert :
    database -> string * string * string * string * string ->
    result (Z * database);
  (* self.summarizer; None without an API key *)
  summarizer : option (string -> result string);
  (* WebScraper.scrape_articles(source, limit) *)
  scrape_articles : string -> Z -> result (list article)
}.

Section ArticleProcessor.
Context {lib : Library} {svc : Services}.

(** The state the workflow threads: the database and the log. *)
Record world : Type := {
  db : database;
  log : list log_line
}.

Definition logger (l : level) (msg : string) (w : world) : world :=
  {| db := db w; log := log w ++ [(l, msg)] |}.

(** [data.get(key, '')] on the optional key. *)
Definition get_default (v : option string) : string :=
  match v with Some s => s | None => EmptyString end.

(** [DatabaseManager.store_article]: an [Exception] is logged and raised
    again. *)
Definition store_article (w : world) (data : article) : result Z * world :=
  match sqlite_insert (db w)
          (title data, author data, content data,
           get_default (summary data), source_url data) with
  | Return (article_id, db') =>
      (Return article_id,
       logger INFO "Stored article with ID: " {| db := db'; log := log w |})
  | Raise e =>
      if is_Exception e
      then (Raise e, logger ERROR "Error storing article: " w)
      else (Raise e, w)
  end.

Definition set_content (a : article) (c : string) : article :=
  {| title := title a; author := author a; content := c;
     summary := summary a; source_url := source_url a |}.

Definition set_summary (a : article) (s : string) : article :=
  {| title := title a; author := author a; content := content a;
     summary := Some s; source_url := source_url a |}.

(** The summary step of the loop body. *)
Definition summarize (w : world) (a : article) : result article * world :=
  let clean_content := content a in
  match summarizer with
  | Some summarize_text =>
      if Str.truthy clean_content
      then match summarize_text clean_content with
           | Return s => (Return (set_summary a s), w)
           | Raise e =>
               if is_Exception e
               then (Return (set_summary a "Summary generation failed"),
                     logger ERROR "Error generating summary: " w)
               else (Raise e, w)
           end
      else (Return (set_summary a "No summary available"), w)
  | None => (Return (set_summary a "No summary available"), w)
  end.

(** The body of the loop inside its [try]: preprocess, summarise, store. *)
Definition process_article (w : world) (a : article) : result Z * world :=
  let a := set_content a (preprocess_text (content a)) in
  match summarize w a with
  | (Raise e, w1) => (Raise e, w1)
  | (Return a1, w1) =>
      match store_article w1 a1 with
      | (Return article_id, w2) =>
          (Return article_id, logger INFO "Processed article: " w2)
      | (Raise e, w2) => (Raise e, w2)
      end
  end.

(** [for article in articles: try: ... except Exception: log; continue] *)
Fixpoint process_loop (articles : list article) (w : world)
  (article_ids : list Z) : result (list Z) * world :=
  match articles with
  | [] => (Return article_ids, w)
  | a :: rest =>
      match process_article w a with
      | (Return article_id, w') =>
          process_loop rest w' (article_ids ++ [article_id])
      | (Raise e, w') =>
          if is_Exception e
          then process_loop rest (logger ERROR "Error processing article '" w')
                 article_ids
          else (Raise e, w')
      end
  end.

Definition process_articles (source : string) (limit : Z) (w : world)
  : result (list Z) * world :=
  match scrape_articles source limit with
  | Return articles =>
      process_loop articles (logger INFO "Scraped " w) []
  | Raise e =>
      if is_Exception e
      then (Return [], logger ERROR "Error in process_articles: " w)
      else (Raise e, w)
  end.

End ArticleProcessor.

(** ** DatabaseViewer.search_articles *)

Module Viewer.

(** A row of the [articles] table; [author] and [summary] may be NULL. *)
Record row : Type := {
  id : Z;
  title : string;
  author : option string;
  content : string;
  summary : option string;
  source_url : string;
  created_at : string
}.

Inductive column : Type := ColTitle | ColAuthor | ColContent | ColSummary.

Definition column_value (c : column) (r : row) : option string :=
  match c with
  | ColTitle => Some (title r)
  | ColAuthor => author r
  | ColContent => Some (content r)
  | ColSummary => summary r
  end.

(** [SELECT * FROM articles WHERE c1 LIKE ? OR ... ORDER BY created_at DESC]
    with its parameters: each column of the WHERE clause with the pattern
    bound to its placeholder. *)
Definition statement : Type := list (column * string).

(** The engine's LIKE folds the case of the ASCII letters only. *)
Definition fold_char (c : ascii) : ascii :=
  let n := nat_of_ascii c in
  if ((65 <=? n) && (n <=? 90))%nat then ascii_of_nat (n + 32) else c.

Fixpoint fold (s : string) : string :=
  match s with
  | EmptyString => EmptyString
  | String c s' => String (fold_char c) (fold s')
  end.

(** [s LIKE pattern]: [%] stands for any run of characters, [_] for any
    one character, any other character for itself up to ASCII case. *)
Fixpoint like (pattern s : string) : bool :=
  match pattern with
  | EmptyString => negb (Str.truthy s)
  | String p pattern' =>
      if Ascii.eqb p "%"%char
      then (fix any (t : string) : bool :=
              like pattern' t
              || match t with
                 | EmptyString => false
                 | String _ t' => any t'
                 end) s
      else
        match s with
        | EmptyString => false
        | String c s' =>
            (Ascii.eqb p "_"%char || Ascii.eqb (fold_char p) (fold_char c))
            && like pattern' s'
        end
  end.

(** A NULL value makes LIKE NULL, which a WHERE clause takes as false. *)
Definition where_matches (st : statement) (r : row) : bool :=
  existsb (fun cp =>
             match column_value (fst cp) r with
             | Some v => like (snd cp) v
             | None => false
             end) st.

(** ORDER BY created_at DESC, as an insertion sort on the timestamps. *)
Fixpoint insert_desc (r : row) (l : list row) : list row :=
  match l with
  | [] => [r]
  | r' :: rest =>
      if String.leb (created_at r') (created_at r)
      then r :: l
      else r' :: insert_desc r rest
  end.

Fixpoint order_desc (l : list row) : list row :=
  match l with
  | [] => []
  | r :: rest => insert_desc r (order_desc rest)
  end.

(** [cursor.execute(sql, params)] then [cursor.fetchall()] *)
Definition execute (table : list row) (st : statement) : list row :=
  order_desc (filter (where_matches st) table).

(** [f'%{query}%'] *)
Definition pattern_of (query : string) : string := "%" ++ query ++ "%".

(** The result and the statements that were executed. *)
Definition search_articles (table : list row) (query field : string)
  : result (list row) * list statement :=
  let p := pattern_of query in
  let st : option statement :=
    if String.eqb field "all"
    then Some [(ColTitle, p); (ColAuthor, p); (ColContent, p); (ColSummary, p)]
    else if String.eqb field "title" then Some [(ColTitle, p)]
    else if String.eqb field "author" then Some [(ColAuthor, p)]
    else if String.eqb field "content" then Some [(ColContent, p)]
    else if String.eqb field "summary" then Some [(ColSummary, p)]
    else None in
  match st with
  | Some st => (Return (execute table st), [st])
  | None => (Raise (ValueError ("Invalid field: " ++ field)), [])
  end.

(** The columns a recognised field searches. *)
Definition searched (field : string) : list column :=
  if String.eqb field "all"
  then [ColTitle; ColAuthor; ColContent; ColSummary]
  else if String.eqb field "title" then [ColTitle]
  else if String.eqb field "author" then [ColAuthor]
  else if String.eqb field "content" then [ColContent]
  else if String.eqb field "summary" then [ColSummary]
  else [].

Definition recognised (field : string) : bool :=
  existsb (String.eqb field) ["all"; "title"; "author"; "content"; "summary"].

Definition has_wildcard (query : string) : bool :=
  Str.has_char "%"%char query || Str.has_char "_"%char query.

End Viewer.

(** ** A model of the libraries on a fragment

    An instance of [Library] to run the program on concrete pages: the
    markup parser on character data, the character references [&lt;]
    [&gt;] [&amp;] [&quot;], start tags with attributes, end tags and
    declarations, with script and style elements that hold no markup; the
    URL parser on [scheme://netloc/path?query#fragment]. *)

Module HtmlParser.

Inductive token : Type :=
| TData (s : string)
| TStart (name : string) (attrs : list (string * string))
| TEnd (name : string).

(** The text before the first [c] and the text after it. *)
Fixpoint split_char (c : ascii) (s : string) : option (string * string) :=
  match s with
  | EmptyString => None
  | String d s' =>
      if Ascii.eqb c d then Some (EmptyString, s')
      else match split_char c s' with
           | Some (a, b) => Some (String d a, b)
           | None => None
           end
  end.

(** The character data up to the next [<]. *)
Fixpoint span_data (s : string) : string * string :=
  match s with
  | EmptyString => (EmptyString, EmptyString)
  | String c s' =>
      if Ascii.eqb c "<"%char then (EmptyString, s)
      else let (a, b) := span_data s' in (String c a, b)
  end.

(** Character references become their characters; [skip] counts the
    characters of a reference still to pass over. *)
Fixpoint unescape_from (skip : nat) (s : string) : string :=
  match s with
  | EmptyString => EmptyString
  | String c s' =>
      match skip with
      | S k => unescape_from k s'
      | O =>
          if String.prefix "&lt;" s then String "<"%char (unescape_from 3 s')
          else if String.prefix "&gt;" s
               then String ">"%char (unescape_from 3 s')
          else if String.prefix "&amp;" s
               then String "&"%char (unescape_from 4 s')
          else if String.prefix "&quot;" s
               then String "034"%char (unescape_from 5 s')
          else String c (unescape_from 0 s')
      end
  end.

Definition unescape (s : string) : string := unescape_from 0 s.

Definition is_letter (c : ascii) : bool :=
  let n := nat_of_ascii c in
  (((65 <=? n) && (n <=? 90)) || ((97 <=? n) && (n <=? 122)))%nat.

(** The tag name: up to the first whitespace or slash. *)
Fixpoint span_name (s : string) : string * string :=
  match s with
  | EmptyString => (EmptyString, EmptyString)
  | String c s' =>
      if Str.isspace c || Ascii.eqb c "/"%char then (EmptyString, s)
      else let (a, b) := span_name s' in (String c a, b)
  end.

(** Attributes form a dictionary: a later value replaces an earlier one. *)
Fixpoint dict_set (k v : string) (l : list (string * string))
  : list (string * string) :=
  match l with
  | [] => [(k, v)]
  | (k', v') :: rest =>
      if String.eqb k k' then (k, v) :: rest else (k', v') :: dict_set k v rest
  end.

Inductive attr_state : Type :=
| Between                                         (* before a name *)
| InName (n : string)
| AfterEq (n : string)
| InValue (quote : option ascii) (n v : string).

Definition snoc (s : string) (c : ascii) : string := s ++ String c EmptyString.

Definition put (n v : string) (acc : list (string * string))
  : list (string * string) :=
  dict_set (Str.lower n) (unescape v) acc.

Fixpoint attrs_from (st : attr_state) (acc : list (string * string))
  (s : string) : list (string * string) :=
  match s with
  | EmptyString =>
      match st with
      | Between => acc
      | InName n => put n EmptyString acc
      | AfterEq n => put n EmptyString acc
      | InValue _ n v => put n v acc
      end
  | String c s' =>
      match st with
      | Between =>
          if Str.isspace c || Ascii.eqb c "/"%char
          then attrs_from Between acc s'
          else attrs_from (InName (String c EmptyString)) acc s'
      | InName n =>
          if Ascii.eqb c "="%char then attrs_from (AfterEq n) acc s'
          else if Str.isspace c
               then attrs_from Between (put n EmptyString acc) s'
          else attrs_from (InName (snoc n c)) acc s'
      | AfterEq n =>
          if Ascii.eqb c "034"%char || Ascii.eqb c "'"%char
          then attrs_from (InValue (Some c) n EmptyString) acc s'
          else if Str.isspace c then attrs_from (AfterEq n) acc s'
          else attrs_from (InValue None n (String c EmptyString)) acc s'
      | InValue (Some q) n v =>
          if Ascii.eqb c q then attrs_from Between (put n v acc) s'
          else attrs_from (InValue (Some q) n (snoc v c)) acc s'
      | InValue None n v =>
          if Str.isspace c then attrs_from Between (put n v acc) s'
          else attrs_from (InValue None n (snoc v c)) acc s'
      end
  end.

Definition start_tag (body : string) : token :=
  let (name, rest) := span_name body in
  TStart (Str.lower name) (attrs_from Between [] rest).

(** One token per round; the fuel bounds the rounds by the length of the
    input. *)
Fixpoint tokenize (fuel : nat) (s : string) : list token :=
  match fuel with
  | O => []
  | S fuel' =>
      match s with
      | EmptyString => []
      | String c rest =>
          if Ascii.eqb c "<"%char
          then
            match rest with
            | EmptyString => [TData "<"]
            | String d after =>
                if Ascii.eqb d "/"%char
                then match split_char ">"%char after with
                     | Some (name, s') =>
                         TEnd (Str.lower (Str.strip name)) :: tokenize fuel' s'
                     | None => TData "<" :: tokenize fuel' rest
                     end
                else if is_letter d
                then match split_char ">"%char rest with
                     | Some (body, s') => start_tag body :: tokenize fuel' s'
                     | None => TData "<" :: tokenize fuel' rest
                     end
                else if Ascii.eqb d "!"%char || Ascii.eqb d "?"%char
                then match split_char ">"%char after with
                     | Some (_, s') => tokenize fuel' s'
                     | None => TData "<" :: tokenize fuel' rest
                     end
                else TData "<" :: tokenize fuel' rest
            end
          else
            let (data, s') := span_data s in
            TData (unescape data) :: tokenize fuel' s'
      end
  end.

(** Character data that arrives in pieces is one string. *)
Fixpoint merge_data (toks : list token) : list token :=
  match toks with
  | TData a :: rest =>
      match merge_data rest with
      | TData b :: rest' => TData (a ++ b) :: rest'
      | rest' => TData a :: rest'
      end
  | t :: rest => t :: merge_data rest
  | [] => []
  end.

Definition ascii_spaces : string :=
  String " "%char (String "010"%char (String "009"%char
    (String "012"%char (String "013"%char EmptyString)))).

Fixpoint all_in (set s : string) : bool :=
  match s with
  | EmptyString => true
  | String c s' => Str.has_char c set && all_in set s'
  end.

(** A string of ASCII blanks only is kept as one newline or one space,
    unless it stands inside one of the elements that keep their blanks. *)
Definition end_data (s : string) : string :=
  if all_in ascii_spaces s
  then if Str.has_char Str.newline s then String Str.newline EmptyString
       else " "
  else s.

Definition void_tags : list string :=
  ["area"; "base"; "br"; "col"; "embed"; "hr"; "img"; "input"; "keygen";
   "link"; "menuitem"; "meta"; "param"; "source"; "track"; "wbr"].

(** An open element: its name, its attributes, and the children its
    parent had when it opened. *)
Definition frame : Type := (string * list (string * string) * list node)%type.

Fixpoint close_all (stack : list frame) (kids : list node) : soup :=
  match stack with
  | [] => kids
  | (name, attrs, outer) :: rest =>
      close_all rest (outer ++ [Tag name attrs kids])
  end.

(** Close the open elements up to the innermost one called [name]. *)
Fixpoint pop_to (name : string) (stack : list frame) (kids : list node)
  : list frame * list node :=
  match stack with
  | [] => ([], kids)
  | (m, attrs, outer) :: rest =>
      let closed := (outer ++ [Tag m attrs kids])%list in
      if String.eqb m name then (rest, closed) else pop_to name rest closed
  end.

(** The innermost open element that gives its strings a class of their
    own. *)
Fixpoint container_of (stack : list frame) : option string :=
  match stack with
  | [] => None
  | (name, _, _) :: rest =>
      if existsb (String.eqb name) Bs4.string_containers then Some name
      else container_of rest
  end.

Definition preserve_whitespace_tags : list string := ["pre"; "textarea"].

Definition preserved (stack : list frame) : bool :=
  existsb (fun f : frame =>
             existsb (String.eqb (fst (fst f))) preserve_whitespace_tags)
    stack.

Definition string_node (stack : list frame) (s : string) : node :=
  let s := if preserved stack then s else end_data s in
  match container_of stack with
  | Some c => Special c s
  | None => Text s
  end.

Fixpoint build (toks : list token) (stack : list frame) (kids : list node)
  : soup :=
  match toks with
  | [] => close_all stack kids
  | TData s :: rest =>
      build rest stack (kids ++ [string_node stack s])
  | TStart name attrs :: rest =>
      if existsb (String.eqb name) void_tags
      then build rest stack (kids ++ [Tag name attrs []])
      else build rest ((name, attrs, kids) :: stack) []
  | TEnd name :: rest =>
      if existsb (fun f : frame => String.eqb (fst (fst f)) name) stack
      then let (stack', kids') := pop_to name stack kids in
           build rest stack' kids'
      else build rest stack kids
  end.

Definition parse (html : string) : soup :=
  build (merge_data (tokenize (S (String.length html)) html)) [] [].

End HtmlParser.

Module Url.

Definition scheme_char (c : ascii) : bool :=
  let n := nat_of_ascii c in
  (((65 <=? n) && (n <=? 90)) || ((97 <=? n) && (n <=? 122))
   || ((48 <=? n) && (n <=? 57)))%nat
  || Str.has_char c "+-.".

Fixpoint all_scheme (s : string) : bool :=
  match s with
  | EmptyString => true
  | String c s' => scheme_char c && all_scheme s'
  end.

(** The URL after its scheme and colon, when it has a scheme. *)
Definition after_scheme (url : string) : string :=
  match HtmlParser.split_char ":"%char url with
  | Some (String c sch, rest) =>
      if HtmlParser.is_letter c && all_scheme sch then rest else url
  | _ => url
  end.

Fixpoint until_delim (s : string) : string :=
  match s with
  | EmptyString => EmptyString
  | String c s' =>
      if Str.has_char c "/?#" then EmptyString else String c (until_delim s')
  end.

(** The network location: what stands between the two slashes after the
    scheme and the next [/], [?] or [#], with any user information and
    port.  A location with one square bracket and not the other is
    refused; what stands between two brackets is not looked at. *)
Definition netloc (url : string) : parsed :=
  match after_scheme url with
  | String "/" (String "/" rest) =>
      let n := until_delim rest in
      if xorb (Str.has_char "[" n) (Str.has_char "]" n)
      then Invalid "Invalid IPv6 URL"
      else Netloc n
  | _ => Netloc EmptyString
  end.

End Url.

#[export] Instance fragment_library : Library := {
  BeautifulSoup := HtmlParser.parse;
  urlparse_netloc := Url.netloc
}.

(** ** Sample pages and environments *)

Module Samples.

Definition prose : string :=
  "The council voted on Tuesday evening to approve the annual budget after a long debate. Members agreed to fund road repairs and two new libraries while keeping the local tax rate flat. Residents who spoke at the meeting asked for more buses and safer crossings near the schools. It passed nine to two.".

(** A page with a heading, a byline and a content container. *)
Definition page_article : string :=
  "<html><head><title>News</title></head><body><h1>Local Council Approves Budget</h1><span class='post-author'>Jane Doe</span><div class='article-content'>"
  ++ prose ++ "</div></body></html>".

(** A page whose whole text stays under the minimum. *)
Definition page_short : string :=
  "<html><body><p>Too short to keep.</p></body></html>".

(** A page whose author meta tag holds an address. *)
Definition page_meta_author : soup :=
  [Tag "html" []
     [Tag "head" []
        [Tag "meta" [("name", "author"); ("content", "john@example.com")] []];
      Tag "body" [] [Tag "span" [("class", "author")] [Text "Jane Doe"]]]].

Fixpoint replicate (n : nat) (c : ascii) : string :=
  match n with
  | O => EmptyString
  | S k => String c (replicate k c)
  end.



(** A document with nothing in it, and one whose body says what the
    placeholder says. *)
Definition page_empty : soup := [].

Definition page_placeholder : soup :=
  [Tag "html" [] [Tag "body" [] [Text "No content extracted"]]].

(** A page with an empty body. *)
Definition page_blank : string := "<html><body></body></html>".

(** A page with all five title candidates: a heading of two characters
    and a script, a title of one character between blanks, the two meta
    tags and a second-level heading. *)
Definition page_titles : string :=
  "<html><head><title> x </title><meta property='og:title' content='  Council approves budget  '><meta name='twitter:title' content='Budget on Twitter'></head><body><h1>ab<script>var t = 1;</script></h1><h2>Second heading</h2></body></html>".

(** A network that answers six URLs. *)
Definition demo_get (url : string) : result response :=
  if String.eqb url "https://example.com/budget"
  then Return {| status := 200; text := Return page_article |}
  else if String.eqb url "https://example.com/short"
  then Return {| status := 200; text := Return page_short |}
  else if String.eqb url "https://example.com/blank"
  then Return {| status := 200; text := Return page_blank |}
  else if String.eqb url "https://example.com/missing"
  then Return {| status := 404; text := Return EmptyString |}
  else if String.eqb url "https://example.com/slow"
  then Raise TimeoutError
  else if String.eqb url "https://example.com/cancelled"
  then Raise CancelledError
  else Raise ClientError.

#[export] Instance demo_network : Network := { session_get := demo_get }.

(** The record the budget page yields. *)
Definition budget_record : article :=
  {| title := "Local Council Approves Budget";
     author := "Jane Doe";
     content := prose;
     summary := None;
     source_url := "https://example.com/budget" |}.

(** Two storage engines over a list of stored values: one that works and
    one whose file cannot be written. *)
Definition stored : Type :=
  list (Z * (string * string * string * string * string)).

Definition insert_ok (d : stored)
  (v : string * string * string * string * string) : result (Z * stored) :=
  let article_id := Z.of_nat (List.length d) + 1 in
  Return (article_id, (d ++ [(article_id, v)])%list).

Definition insert_readonly (d : stored)
  (v : string * string * string * string * string) : result (Z * stored) :=
  Raise OperationalError.

Definition one_article (source : string) (limit : Z)
  : result (list article) :=
  Return [budget_record].

Definition working_services : Services := {|
  database := stored;
  sqlite_insert := insert_ok;
  summarizer := None;
  scrape_articles := one_article
|}.

Definition readonly_services : Services := {|
  database := stored;
  sqlite_insert := insert_readonly;
  summarizer := None;
  scrape_articles := one_article
|}.

Definition empty_world (svc : Services) (d : @database svc) : @world svc :=
  {| db := d; log := [] |}.

(** The budget record as the workflow hands it to the storage: content
    normalised, no summariser configured. *)
Definition budget_to_store : article :=
  {| title := "Local Council Approves Budget";
     author := "Jane Doe";
     content := Str.lower prose;
     summary := Some "No summary available";
     source_url := "https://example.com/budget" |}.

(** A table with one row. *)
Definition row_abc : Viewer.row :=
  {| Viewer.id := 1;
     Viewer.title := "abc";
     Viewer.author := None;
     Viewer.content := "Some words";
     Viewer.summary := None;
     Viewer.source_url := "https://example.com/abc";
     Viewer.created_at := "2024-01-01 00:00:00" |}.

End Samples.

(** ** Notions the properties are stated with *)


(** [best] is the first text among [texts] that is longer than [bound] and
    as long as any other such text; it is empty when no text is longer
    than [bound]. *)
Definition first_longest_above (bound : Z) (texts : list string)
  (best : string) : Prop :=
  (forall t, In t texts -> Str.len t <= bound \/ Str.len t <= Str.len best)
  /\ ((best = EmptyString /\ forall t, In t texts -> Str.len t <= bound)
      \/ (exists l1 l2,
            texts = (l1 ++ best :: l2)%list
            /\ bound < Str.len best
            /\ forall t, In t l1 -> Str.len t < Str.len best)).

(** The text each title candidate offers, in the order they are tried:
    the stripped text of the first [h1], of the [title] element, the
    stripped [content] attribute of the [og:title] and of the
    [twitter:title] meta tag, and the stripped text of the first [h2];
    [None] where the document has no such element. *)
Definition title_texts (d : soup) : list (option string) :=
  [ option_map (fun t => Str.strip (Bs4.get_text t)) (Bs4.find d "h1");
    option_map (fun t => Str.strip (Bs4.get_text t)) (Bs4.find d "title");
    option_map (fun m => Str.strip (Bs4.get m "content" ""))
      (Bs4.find_attr d "meta" "property" "og:title");
    option_map (fun m => Str.strip (Bs4.get m "content" ""))
      (Bs4.find_attr d "meta" "name" "twitter:title");
    option_map (fun t => Str.strip (Bs4.get_text t)) (Bs4.find d "h2") ].

(** The characters a network location is written with: the printable
    ASCII characters other than the three that end it. *)
Definition netloc_char (c : ascii) : bool :=
  let n := nat_of_ascii c in
  ((32 <? n) && (n <? 127))%nat && negb (Str.has_char c "/?#").

Fixpoint netloc_text (a : string) : bool :=
  match a with
  | EmptyString => true
  | String c a' => netloc_char c && netloc_text a'
  end.

(** What follows the network location: nothing, or a path, a query or a
    fragment. *)
Definition path_like (rest : string) : bool :=
  match rest with
  | EmptyString => true
  | String c _ => Str.has_char c "/?#"
  end.

(** How [urlparse] reads an http or https URL: the network location is
    what stands between the two slashes and the path, as it is written,
    user information and port included, when it holds no square bracket;
    and the URL is refused when it holds one of the two square brackets
    and not the other. *)
Definition reads_netloc (lib : Library) : Prop :=
  forall scheme a rest,
    scheme = "http" \/ scheme = "https" ->
    netloc_text a = true -> path_like rest = true ->
    (Str.has_char "[" a = false -> Str.has_char "]" a = false ->
     urlparse_netloc (scheme ++ "://" ++ a ++ rest) = Netloc a)
    /\ (Str.has_char "[" a <> Str.has_char "]" a ->
        exists msg,
          urlparse_netloc (scheme ++ "://" ++ a ++ rest) = Invalid msg).

(** The candidate a meta tag offers: its stripped [content] attribute. *)
Definition meta_candidate (m : option node) : option string :=
  match m with
  | Some tag => Some (Str.strip (Bs4.get tag "content" ""))
  | None => None
  end.

(** A meta candidate is taken when it is not empty and shorter than 100
    characters. *)
Definition meta_taken (c : option string) (t : string) : Prop :=
  c = Some t /\ t <> EmptyString /\ Str.len t < 100.

(** The texts the byline selectors offer, in the order they are tried. *)
Definition byline_texts (d : soup) : list string :=
  flat_map (fun sel => map (fun e => Str.strip (Bs4.get_text e))
                         (Bs4.select d sel))
    author_selectors.

(** A byline text passes when its length is strictly between 2 and 100 and
    it holds no disallowed character. *)
Definition screened (t : string) : Prop :=
  2 < Str.len t < 100 /\ Str.search_class disallowed t = false.

(** No character that starts markup or a character reference. *)
Definition markup_free (s : string) : bool :=
  negb (Str.has_char "<"%char s) && negb (Str.has_char "&"%char s).

(** What the normaliser needs of the markup parser: a text without markup
    that is not empty and has no blank at either end comes back as the
    text of the document parsed from it. *)
Definition passes_plain_text (lib : Library) : Prop :=
  forall s, markup_free s = true -> Str.strip s = s -> s <> EmptyString ->
            Bs4.soup_text (BeautifulSoup s) = s.

(** Every whitespace character of [s] is a space with no whitespace before
    it; [prev] tells whether a whitespace character comes just before [s]. *)
Fixpoint spaced (prev : bool) (s : string) : bool :=
  match s with
  | EmptyString => true
  | String c s' =>
      if Str.isspace c
      then Ascii.eqb c Str.space && negb prev && spaced true s'
      else spaced false s'
  end.

(** [s] does not start with whitespace. *)
Definition starts_clean (s : string) : bool :=
  match s with
  | EmptyString => true
  | String c _ => negb (Str.isspace c)
  end.

(** The batch of the scenario: ten URLs, two of them timing out. *)
Definition batch : list string :=
  [ "example.com/budget"; "example.com/budget"; "example.com/slow";
    "example.com/budget"; "example.com/budget"; "example.com/budget";
    "example.com/slow"; "example.com/budget"; "example.com/budget";
    "example.com/budget" ].

#[export] Existing Instance Samples.demo_network.

(** ** More of the program *)

(** [l[:n]] on a list, for any integer [n]: a negative [n] counts from
    the end. *)
Definition list_slice_to {A : Type} (n : Z) (l : list A) : list A :=
  if n <? 0
  then firstn (Z.to_nat (Z.of_nat (List.length l) + n)) l
  else firstn (Z.to_nat n) l.

Module Py.

(** [s.split(c)] for a one-character separator: the pieces between the
    separators, empty pieces included. *)
Fixpoint split_on (c : ascii) (s : string) : list string :=
  match s with
  | EmptyString => [EmptyString]
  | String d s' =>
      if Ascii.eqb c d then EmptyString :: split_on c s'
      else match split_on c s' with
           | piece :: rest => String d piece :: rest
           | [] => [String d EmptyString]
           end
  end.

Definition starts_with (p : ascii -> bool) (s : string) : bool :=
  match s with
  | EmptyString => false
  | String c _ => p c
  end.

(** [re.split(r'[class]+', s)]: the pieces between the maximal runs of
    characters of the class, empty pieces at the ends included. *)
Fixpoint re_split (p : ascii -> bool) (s : string) : list string :=
  match s with
  | EmptyString => [EmptyString]
  | String c s' =>
      if p c
      then if starts_with p s' then re_split p s'
           else EmptyString :: re_split p s'
      else match re_split p s' with
           | piece :: rest => String c piece :: rest
           | [] => [String c EmptyString]
           end
  end.

(** The text after the first [c], as [s.split(c, 1)[1]] gives it when [c]
    occurs in [s]. *)
Fixpoint after_first (c : ascii) (s : string) : string :=
  match s with
  | EmptyString => EmptyString
  | String d s' => if Ascii.eqb c d then s' else after_first c s'
  end.

End Py.

(** *** TextProcessor.postprocess_summary *)

Definition is_terminator (c : ascii) : bool := Str.has_char c ".!?".

(** The two whitespace substitutions and the strip in between. *)
Definition squeeze (summary : string) : string :=
  Str.sub_run Str.is_newline Str.space false
    (Str.strip (Str.sub_spaces summary)).

(** [re.split(r'[.!?]+', summary)], each piece stripped, the pieces that
    strip to nothing left out. *)
Definition sentences_of (summary : string) : list string :=
  map Str.strip
    (filter (fun s => Str.truthy (Str.strip s))
       (Py.re_split is_terminator summary)).

(** [if len(sentences) > max_sentences: sentences = sentences[:max_sentences]] *)
Definition limit_sentences (max_sentences : Z) (sentences : list string)
  : list string :=
  if max_sentences <? Z.of_nat (List.length sentences)
  then list_slice_to max_sentences sentences
  else sentences.

Definition postprocess_summary (summary : string) (max_sentences : Z)
  : string :=
  if negb (Str.truthy summary) then EmptyString
  else
    let summary := squeeze summary in
    let sentences := limit_sentences max_sentences (sentences_of summary) in
    match sentences with
    | [] => summary
    | _ => Str.join ". " sentences ++ "."
    end.

(** *** The articles table *)

Module Sqlite.

(** The values of an INSERT: title, author, content, summary, source_url. *)
Definition values : Type := (string * string * string * string * string)%type.

(** The database file: the rows of [articles], the largest id the table
    has ever given out, whether the file can be written, the time the
    engine reads when it inserts the row of a given id, and the error with
    which the engine refuses a row on a file that can be written (a full
    or locked file, a value it cannot store), if it does. *)
Record db : Type := {
  rows : list Viewer.row;
  sequence : Z;
  readonly : bool;
  clock : Z -> string;
  refuses : values -> option exn
}.

Fixpoint max_id (l : list Viewer.row) : Z :=
  match l with
  | [] => 0
  | r :: rest => Z.max (Viewer.id r) (max_id rest)
  end.

(** INTEGER PRIMARY KEY AUTOINCREMENT: one more than the largest id that
    has ever been in the table. *)
Definition next_id (d : db) : Z := Z.max (sequence d) (max_id (rows d)) + 1.

(** INSERT INTO articles (title, author, content, summary, source_url),
    then commit. *)
Definition insert (d : db) (v : values) : result (Z * db) :=
  let '(title, author, content, summary, source_url) := v in
  if readonly d then Raise OperationalError
  else
    match refuses d v with
    | Some e => Raise e
    | None =>
        let article_id := next_id d in
        Return (article_id,
                {| rows := rows d
                           ++ [{| Viewer.id := article_id;
                                  Viewer.title := title;
                                  Viewer.author := Some author;
                                  Viewer.content := content;
                                  Viewer.summary := Some summary;
                                  Viewer.source_url := source_url;
                                  Viewer.created_at := clock d article_id |}];
                   sequence := article_id;
                   readonly := readonly d;
                   clock := clock d;
                   refuses := refuses d |})
    end.

(** SELECT ... FROM articles WHERE id = ?, then fetchone. *)
Definition select_by_id (d : db) (article_id : Z) : option Viewer.row :=
  List.find (fun r => Viewer.id r =? article_id) (rows d).

End Sqlite.

(** The services with the articles table as the database. *)
Definition sqlite_services (summ : option (string -> result string))
  (scrape : string -> Z -> result (list article)) : Services := {|
  database := Sqlite.db;
  sqlite_insert := Sqlite.insert;
  summarizer := summ;
  scrape_articles := scrape
|}.

(** [DatabaseManager.get_summary_by_id]: the row as a dictionary, [None]
    when there is no row. *)
Definition get_summary_by_id (d : Sqlite.db) (article_id : Z)
  : option Viewer.row :=
  Sqlite.select_by_id d article_id.

(** A dictionary of [DatabaseManager.get_all_articles]: a row without its
    content. *)
Record listing : Type := {
  l_id : Z;
  l_title : string;
  l_author : option string;
  l_summary : option string;
  l_source_url : string;
  l_created_at : string
}.

Definition listing_of (r : Viewer.row) : listing :=
  {| l_id := Viewer.id r;
     l_title := Viewer.title r;
     l_author := Viewer.author r;
     l_summary := Viewer.summary r;
     l_source_url := Viewer.source_url r;
     l_created_at := Viewer.created_at r |}.

(** [DatabaseManager.get_all_articles] *)
Definition get_all_articles (d : Sqlite.db) : list listing :=
  map listing_of (Viewer.order_desc (Sqlite.rows d)).

(** [DatabaseViewer.get_article_by_id] *)
Definition get_article_by_id (d : Sqlite.db) (article_id : Z)
  : option Viewer.row :=
  Sqlite.select_by_id d article_id.

(** An empty table that can be written, one that cannot, and the world
    the workflow starts from on each. *)
Definition fresh_db : Sqlite.db :=
  {| Sqlite.rows := [];
     Sqlite.sequence := 0;
     Sqlite.readonly := false;
     Sqlite.clock := fun _ => "2024-01-01 00:00:00";
     Sqlite.refuses := fun _ => None |}.

Definition locked_db : Sqlite.db :=
  {| Sqlite.rows := [];
     Sqlite.sequence := 0;
     Sqlite.readonly := true;
     Sqlite.clock := fun _ => "2024-01-01 00:00:00";
     Sqlite.refuses := fun _ => None |}.

Definition sample_services : Services :=
  sqlite_services None Samples.one_article.

Definition fresh_world : @world sample_services :=
  @Build_world sample_services fresh_db [].

Definition locked_world : @world sample_services :=
  @Build_world sample_services locked_db [].

(** *** WebScraper.scrape_articles *)

(** The scrapers of the named sources answer as their sites decide. *)
Class Adapters : Type := {
  scrape_quotes_toscrape : Z -> result (list article);
  scrape_hackernews_api : Z -> result (list article);
  scrape_reddit_rss : string -> Z -> result (list article)
}.

Module WebScraper.
Section WebScraper.
Context {lib : Library} {net : Network} {adapters : Adapters}.

Definition of_result (r : result (list article)) : outcome (list article) :=
  match r with
  | Return l => Returns l
  | Raise e => Raises e
  end.

(** The body of the [try]. *)
Definition route (source : string) (limit : Z) : outcome (list article) :=
  let source_lower := Str.lower source in
  if String.eqb source_lower "quotes"
  then of_result (scrape_quotes_toscrape limit)
  else if String.eqb source_lower "hackernews"
  then of_result (scrape_hackernews_api limit)
  else if Str.startswith "reddit:" source_lower
  then
    let subreddit :=
      if Str.has_char ":"%char source_lower
      then Py.after_first ":"%char source_lower
      else "news" in
    of_result (scrape_reddit_rss subreddit limit)
  else if Str.startswith "http://" source_lower
          || Str.startswith "https://" source_lower
          || Str.has_char "."%char source
  then
    if Str.has_char ","%char source
    then
      let urls := map Str.strip (Py.split_on ","%char source) in
      scrape_multiple_urls (list_slice_to limit urls) 5
    else
      match scrape_url source with
      | Return (Some a) => Returns [a]
      | Return None => Returns []
      | Raise e => Raises e
      end
  else Returns [].

(** [except Exception]: logged, and the answer is the empty list. *)
Definition scrape_articles (source : string) (limit : Z)
  : outcome (list article) :=
  match route source limit with
  | Raises e => if is_Exception e then Returns [] else Raises e
  | o => o
  end.

End WebScraper.
End WebScraper.

(** Adapters that find nothing, to run the routing with. *)
Definition silent_adapters : Adapters := {|
  scrape_quotes_toscrape := fun _ => Return [];
  scrape_hackernews_api := fun _ => Return [];
  scrape_reddit_rss := fun _ _ => Return []
|}.

(** *** WebScraper.scrape_quotes_toscrape *)

Module Quotes.
Section Quotes.
Context {lib : Library} {net : Network}.

Definition site : string := "http://quotes.toscrape.com".

(** The tags below a tag, itself left out. *)
Definition descendants (n : node) : list node :=
  match n with
  | Text _ | Special _ _ => []
  | Tag _ _ cs => flat_map Bs4.tags cs
  end.

(** The test of [find(name, class_=cls)]: the name, and [cls] among the
    classes. *)
Definition has_class (name cls : string) (n : node) : bool :=
  String.eqb (Bs4.tag_name n) name && Bs4.matches (Bs4.SelClass cls) n.

Definition two_newlines : string :=
  String Str.newline (String Str.newline EmptyString).

(** The body of the loop for one quote. *)
Definition quote_article (quote : node) : option article :=
  let text_elem := List.find (has_class "span" "text") (descendants quote) in
  let author_elem :=
    List.find (has_class "small" "author") (descendants quote) in
  let tag_elems := filter (has_class "a" "tag") (descendants quote) in
  match text_elem, author_elem with
  | Some text_elem, Some author_elem =>
      let text := Bs4.get_text text_elem in
      let author := Bs4.get_text author_elem in
      let tags := map Bs4.get_text tag_elems in
      Some {| title := "Quote by " ++ author;
              author := author;
              content := text ++ two_newlines ++ "Tags: "
                         ++ Str.join ", " tags;
              summary := None;
              source_url := site |}
  | _, _ => None
  end.

Fixpoint quote_articles (quotes : list node) : list article :=
  match quotes with
  | [] => []
  | quote :: rest =>
      match quote_article quote with
      | Some a => a :: quote_articles rest
      | None => quote_articles rest
      end
  end.

Definition quotes_except (e : exn) : result (list article) :=
  if is_Exception e then Return [] else Raise e.

Definition scrape_quotes_toscrape (limit : Z) : result (list article) :=
  match session_get site with
  | Raise e => quotes_except e
  | Return resp =>
      if negb (status resp =? 200) then Return []
      else
        match text resp with
        | Raise e => quotes_except e
        | Return html =>
            let d := BeautifulSoup html in
            let quotes :=
              list_slice_to limit
                (filter (has_class "div" "quote") (Bs4.all_tags d)) in
            Return (quote_articles quotes)
        end
  end.

End Quotes.
End Quotes.

(** A network that serves the quotes site with three quotes, the last
    without an author. *)
Definition quotes_page : string :=
  "<html><body><div class='quote'><span class='text'>Be brief.</span><small class='author'>A. Writer</small><a class='tag'>style</a><a class='tag'>advice</a></div><div class='quote'><span class='text'>Read more.</span><small class='author'>B. Reader</small></div><div class='quote'><span class='text'>Unsigned.</span></div></body></html>".

Definition quotes_network : Network := {|
  session_get := fun url =>
    if String.eqb url Quotes.site
    then Return {| status := 200; text := Return quotes_page |}
    else Raise ClientError
|}.

(** *** Counted runs of the dispatcher *)

Section CountedRuns.
Context {lib : Library} {net : Network}.

(** [moves n s s']: the dispatcher goes from [s] to [s'] in [n] moves. *)
Inductive moves : nat -> dispatch -> dispatch -> Prop :=
| moves_none s : moves 0 s s
| moves_more n s1 s2 s3 : moves n s1 s2 -> step s2 s3 -> moves (S n) s1 s3.

End CountedRuns.

(** A sentence as the summary postprocessor leaves it: not empty, no blank
    at either end, single-spaced, no terminator in it. *)
Definition clean_sentence (s : string) : Prop :=
  s <> EmptyString
  /\ Str.strip s = s
  /\ spaced false s = true
  /\ Str.search_class ".!?" s = false.

(** The sentences of a summary written out: each followed by a full
    stop, with one space between a full stop and the next sentence. *)
Fixpoint sentence_text (l : list string) : string :=
  match l with
  | [] => EmptyString
  | [x] => x ++ "."
  | x :: rest => x ++ ". " ++ sentence_text rest
  end.

(** Unfold the counts and the projections, and leave the arithmetic. *)
Ltac tally := cbn [in_flight queued app tasks value List.length map].
Ltac tally_in_all :=
  cbn [in_flight queued app tasks value List.length map] in *.

(** * Properties *)

(** ** Strings *)

Section StringFacts.

Lemma truthy_true (s : string) : Str.truthy s = true <-> s <> EmptyString.
Proof. destruct s; simpl; split; congruence. Qed.

Lemma len_nonneg (s : string) : 0 <= Str.len s.
Proof. unfold Str.len. lia. Qed.

Lemma len_empty (s : string) : Str.len s = 0 <-> s = EmptyString.
Proof.
  unfold Str.len. destruct s; simpl; split; intros H; try reflexivity;
    try discriminate; lia.
Qed.

Lemma length_take (n : nat) (s : string) :
  String.length (Str.take n s) = Nat.min n (String.length s).
Proof.
  revert s. induction n as [|n IH]; intros [|c s]; simpl; auto.
Qed.

Lemma take_prefix (n : nat) (s : string) :
  String.prefix (Str.take n s) s = true.
Proof.
  revert s. induction n as [|n IH]; intros [|c s]; simpl; auto.
  rewrite IH. destruct (ascii_dec c c); congruence.
Qed.

Lemma len_slice_to (n : Z) (s : string) :
  0 <= n -> Str.len (Str.slice_to n s) = Z.min n (Str.len s).
Proof.
  intros Hn. unfold Str.len, Str.slice_to. rewrite length_take. lia.
Qed.

Lemma slice_to_prefix (n : Z) (s : string) :
  String.prefix (Str.slice_to n s) s = true.
Proof. apply take_prefix. Qed.

End StringFacts.

(** ** Content bounds of a scraped record *)

Section ScrapeUrl.
Context (lib : Library) (net : Network).

Lemma extract_main_content_bound (d : soup) :
  Str.len (_extract_main_content d) <= 10000.
Proof.
  unfold _extract_main_content.
  destruct (Str.truthy (resolve_content d)).
  - rewrite len_slice_to by lia. lia.
  - vm_compute. discriminate.
Qed.

Lemma extract_main_content_short (d : soup) :
  Str.len (resolve_content d) < 50 -> Str.len (_extract_main_content d) < 50.
Proof.
  intros H. unfold _extract_main_content.
  destruct (Str.truthy (resolve_content d)).
  - rewrite len_slice_to by lia. lia.
  - vm_compute. reflexivity.
Qed.

(** What [_extract_title] raises is a [ValueError], which the handler of
    [scrape_url] turns into [None]. *)
Lemma extract_title_raise_caught (d : soup) (url : string) (e : exn) :
  _extract_title d url = Raise e -> scrape_except e = Return None.
Proof.
  unfold _extract_title. destruct (first_title _); [discriminate|].
  destruct (urlparse_netloc url); [discriminate|].
  intros H. injection H as <-. reflexivity.
Qed.

(** C1. A record returned by [scrape_url] carries content that is not
    empty, has at least 50 and at most 10,000 characters; and when the
    page was fetched with status 200 and the content left after the
    selector pass and both fallbacks has fewer than 50 characters,
    [scrape_url] returns [None]. *)
Theorem scrape_url_content_bounds (url : string) :
  (forall r, scrape_url url = Return (Some r) ->
     content r <> EmptyString /\ 50 <= Str.len (content r) <= 10000)
  /\
  (forall resp html,
     session_get (_clean_url url) = Return resp ->
     status resp = 200 ->
     text resp = Return html ->
     Str.len (resolve_content (BeautifulSoup html)) < 50 ->
     scrape_url url = Return None).
Proof.
  split.
  - intros r. unfold scrape_url, scrape_except.
    destruct (session_get (_clean_url url)) as [resp|e].
    + destruct (negb (status resp =? 200)); [discriminate|].
      destruct (text resp) as [html|e].
      * destruct (_extract_title (BeautifulSoup html) (_clean_url url))
          as [t|e] eqn:Htitle;
          [|fold (scrape_except e);
            rewrite (extract_title_raise_caught _ _ _ Htitle); discriminate].
        set (c := _extract_main_content (BeautifulSoup html)).
        destruct (negb (Str.truthy c)) eqn:Ht; simpl; [discriminate|].
        destruct (Str.len c <? 50) eqn:Hl; [discriminate|].
        intros H. injection H as <-. simpl.
        apply negb_false_iff, truthy_true in Ht.
        apply Z.ltb_ge in Hl.
        pose proof (extract_main_content_bound (BeautifulSoup html)).
        fold c in H. auto.
      * destruct (is_TimeoutError e); [discriminate|].
        destruct (is_Exception e); discriminate.
    + destruct (is_TimeoutError e); [discriminate|].
      destruct (is_Exception e); discriminate.
  - intros resp html Hget Hst Htext Hshort. unfold scrape_url.
    rewrite Hget, Hst, Htext. simpl.
    destruct (_extract_title (BeautifulSoup html) (_clean_url url))
      as [t|e] eqn:Htitle;
      [|exact (extract_title_raise_caught _ _ _ Htitle)].
    apply extract_main_content_short in Hshort.
    apply Z.ltb_lt in Hshort. rewrite Hshort.
    rewrite orb_true_r. reflexivity.
Qed.

End ScrapeUrl.

(** C1 at the sample network: the budget page yields its record, within
    the bounds, and the short page yields nothing. *)
Lemma scrape_url_content_bounds_witness :
  (scrape_url "example.com/budget" = Return (Some Samples.budget_record)
   /\ content Samples.budget_record <> EmptyString
   /\ 50 <= Str.len (content Samples.budget_record) <= 10000)
  /\ scrape_url "example.com/short" = Return None.
Proof.
  split.
  - assert (H : scrape_url "example.com/budget"
                = Return (Some Samples.budget_record))
      by (vm_compute; reflexivity).
    split; [exact H|].
    exact (proj1 (scrape_url_content_bounds fragment_library
                    Samples.demo_network "example.com/budget") _ H).
  - apply (proj2 (scrape_url_content_bounds fragment_library
                    Samples.demo_network "example.com/short")
             {| status := 200; text := Return Samples.page_short |}
             Samples.page_short).
    + vm_compute; reflexivity.
    + reflexivity.
    + reflexivity.
    + vm_compute; reflexivity.
Defined.

(** ** The best candidate of the selector pass *)

Section BestCandidate.

Lemma scan_elements_keeps (elements : list node) (b : string)
  (seen : list string) :
  first_longest_above 100 seen b ->
  let r := scan_elements elements (b, Str.len b) in
  first_longest_above 100 (seen ++ map element_text elements) (fst r)
  /\ snd r = Str.len (fst r).
Proof.
  revert b seen. induction elements as [|e rest IH]; intros b seen Hinv.
  - simpl. rewrite app_nil_r. auto.
  - cbn [scan_elements map snd]. set (t := element_text e).
    replace (seen ++ t :: map element_text rest)%list
      with ((seen ++ [t]) ++ map element_text rest)%list
      by (rewrite <- app_assoc; reflexivity).
    destruct Hinv as [Hmax Hfirst].
    destruct ((Str.len b <? Str.len t) && (100 <? Str.len t)) eqn:Hc.
    + apply andb_true_iff in Hc. destruct Hc as [H1 H2].
      apply Z.ltb_lt in H1. apply Z.ltb_lt in H2.
      apply IH. split.
      * intros u Hu. apply in_app_or in Hu. destruct Hu as [Hu|[<-|[]]].
        -- destruct (Hmax u Hu); lia.
        -- lia.
      * right. exists seen, []. repeat split; auto.
        intros u Hu. destruct (Hmax u Hu); lia.
    + apply andb_false_iff in Hc.
      assert (Ht : Str.len t <= 100 \/ Str.len t <= Str.len b).
      { destruct Hc as [Hc|Hc]; apply Z.ltb_ge in Hc; auto. }
      apply IH. split.
      * intros u Hu. apply in_app_or in Hu. destruct Hu as [Hu|[<-|[]]]; auto.
      * destruct Hfirst as [[-> Hall]|(l1 & l2 & -> & Hb & Hl1)].
        -- left. split; auto. intros u Hu. apply in_app_or in Hu.
           destruct Hu as [Hu|[<-|[]]]; auto.
           destruct Ht as [Ht|Ht]; auto. change (Str.len "") with 0 in Ht. lia.
        -- right. exists l1, (l2 ++ [t])%list. repeat split; auto.
           rewrite <- app_assoc. reflexivity.
Qed.

Lemma scan_selectors_keeps (d : soup) (selectors : list Bs4.selector)
  (b : string) (seen : list string) :
  first_longest_above 100 seen b ->
  let r := scan_selectors d selectors (b, Str.len b) in
  first_longest_above 100
    (seen ++ flat_map (fun sel => map element_text (Bs4.select d sel))
               selectors)
    (fst r)
  /\ snd r = Str.len (fst r).
Proof.
  revert b seen. induction selectors as [|sel rest IH]; intros b seen Hinv.
  - simpl. rewrite app_nil_r. auto.
  - cbn [scan_selectors flat_map]. rewrite app_assoc.
    destruct (scan_elements_keeps (Bs4.select d sel) b seen Hinv) as [H1 H2].
    destruct (scan_elements (Bs4.select d sel) (b, Str.len b)) as [b' m'].
    simpl in H1, H2. subst m'. apply IH. exact H1.
Qed.



End BestCandidate.

(** ** Title resolution *)

Section Title.
Context (lib : Library).

Lemma title_accepted (t : string) :
  Str.truthy t && (3 <? Str.len t) = true <-> 4 <= Str.len t.
Proof.
  rewrite andb_true_iff, Z.ltb_lt. split.
  - intros [_ H]. lia.
  - intros H. split; [|lia]. destruct t; [|reflexivity].
    change (Str.len "") with 0 in H. lia.
Qed.

Lemma find_name (d : soup) (name : string) (c : node) :
  Bs4.find d name = Some c -> Bs4.tag_name c = name.
Proof.
  unfold Bs4.find. intros H. apply find_some in H.
  apply String.eqb_eq. exact (proj2 H).
Qed.

Lemma find_attr_name (d : soup) (name key value : string) (c : node) :
  Bs4.find_attr d name key value = Some c -> Bs4.tag_name c = name.
Proof.
  unfold Bs4.find_attr. intros H. apply find_some in H.
  destruct H as [_ H]. apply andb_true_iff in H.
  apply String.eqb_eq. exact (proj1 H).
Qed.

Lemma find_text (d : soup) (name : string) :
  String.eqb name "meta" = false ->
  option_map (fun t => Str.strip (Bs4.get_text t)) (Bs4.find d name)
  = option_map candidate_title (Bs4.find d name).
Proof.
  intros Hname. destruct (Bs4.find d name) as [c|] eqn:H; [|reflexivity].
  cbn [option_map]. unfold candidate_title.
  rewrite (find_name _ _ _ H), Hname. reflexivity.
Qed.

Lemma find_meta (d : soup) (key value : string) :
  option_map (fun m => Str.strip (Bs4.get m "content" ""))
    (Bs4.find_attr d "meta" key value)
  = option_map candidate_title (Bs4.find_attr d "meta" key value).
Proof.
  destruct (Bs4.find_attr d "meta" key value) as [c|] eqn:H; [|reflexivity].
  cbn [option_map]. unfold candidate_title.
  rewrite (find_attr_name _ _ _ _ _ H). reflexivity.
Qed.

(** The loop reads from each candidate the text [title_texts] lists. *)
Lemma title_texts_candidates (d : soup) :
  title_texts d = map (option_map candidate_title) (title_candidates d).
Proof.
  unfold title_texts, title_candidates. cbn [map].
  rewrite !find_text by reflexivity. rewrite !find_meta. reflexivity.
Qed.

Lemma first_title_spec (candidates : list (option node)) :
  let texts := map (option_map candidate_title) candidates in
  match first_title candidates with
  | Some t =>
      exists i t0,
        nth_error texts i = Some (Some t0)
        /\ 4 <= Str.len t0
        /\ (forall j t', (j < i)%nat ->
              nth_error texts j = Some (Some t') -> Str.len t' < 4)
        /\ t = Str.slice_to 200 t0
  | None => forall t, In (Some t) texts -> Str.len t < 4
  end.
Proof.
  induction candidates as [|[c|] rest IH]; cbn [first_title map option_map];
    cbv zeta in *.
  - intros c [].
  - destruct (Str.truthy (candidate_title c) && (3 <? Str.len (candidate_title c)))
      eqn:Hc.
    + apply title_accepted in Hc. exists O, (candidate_title c).
      repeat split; auto. intros j c' Hj. lia.
    + assert (Hshort : Str.len (candidate_title c) < 4).
      { destruct (Z.lt_ge_cases (Str.len (candidate_title c)) 4) as [|Hge];
          auto.
        apply title_accepted in Hge. congruence. }
      destruct (first_title rest).
      * destruct IH as (i & t0 & Hi & Hlen & Hbefore & Ht).
        exists (S i), t0. repeat split; auto.
        intros [|j] t' Hj Hn; cbn [nth_error] in Hn.
        -- injection Hn as <-. exact Hshort.
        -- apply (Hbefore j t'); [lia|exact Hn].
      * intros t' [Heq|Hin]; [injection Heq as <-; exact Hshort|auto].
  - destruct (first_title rest).
    + destruct IH as (i & t0 & Hi & Hlen & Hbefore & Ht).
      exists (S i), t0. repeat split; auto.
      intros [|j] t' Hj Hn; cbn [nth_error] in Hn; [discriminate|].
      apply (Hbefore j t'); [lia|exact Hn].
    + intros t' [Heq|Hin]; [discriminate|auto].
Qed.

(** C3. The title candidates are, in this order, the stripped text of the
    first h1 and of the title element, the stripped content attribute of
    the og:title and of the twitter:title meta tag, and the stripped text
    of the first h2.  The title is the first candidate with at least 4
    characters, cut to its first 200 characters, every earlier candidate
    having fewer than 4.  When no candidate has 4 characters the title is
    [Article from] followed by the network location [urlparse] reads from
    the URL, and the [ValueError] of [urlparse] when it refuses the URL:
    for an http or https URL the location is what stands between the two
    slashes and the path, user information and port included, and a
    location with one square bracket and not the other is refused. *)
Theorem extract_title_resolution (d : soup) (url : string) :
  ((exists i t,
      nth_error (title_texts d) i = Some (Some t)
      /\ 4 <= Str.len t
      /\ (forall j t', (j < i)%nat ->
            nth_error (title_texts d) j = Some (Some t') -> Str.len t' < 4)
      /\ _extract_title d url = Return (Str.slice_to 200 t)
      /\ String.prefix (Str.slice_to 200 t) t = true
      /\ Str.len (Str.slice_to 200 t) = Z.min 200 (Str.len t))
   \/ ((forall t, In (Some t) (title_texts d) -> Str.len t < 4)
       /\ match urlparse_netloc url with
          | Netloc netloc =>
              _extract_title d url = Return ("Article from " ++ netloc)
          | Invalid msg => _extract_title d url = Raise (ValueError msg)
          end))
  /\ (reads_netloc lib ->
      forall scheme a rest,
        scheme = "http" \/ scheme = "https" ->
        netloc_text a = true -> path_like rest = true ->
        url = scheme ++ "://" ++ a ++ rest ->
        (forall t, In (Some t) (title_texts d) -> Str.len t < 4) ->
        (Str.has_char "[" a = false -> Str.has_char "]" a = false ->
         _extract_title d url = Return ("Article from " ++ a))
        /\ (Str.has_char "[" a <> Str.has_char "]" a ->
            exists msg, _extract_title d url = Raise (ValueError msg))).
Proof.
  pose proof (first_title_spec (title_candidates d)) as H. cbv zeta in H.
  rewrite <- title_texts_candidates in H.
  unfold _extract_title. split.
  - destruct (first_title (title_candidates d)) as [t|].
    + left. destruct H as (i & t0 & Hi & Hlen & Hbefore & ->).
      exists i, t0. repeat split; auto.
      * apply slice_to_prefix.
      * apply len_slice_to. lia.
    + right. split; [exact H|]. destruct (urlparse_netloc url); reflexivity.
  - intros Hlaw scheme a rest Hs Ha Hr -> Hnone.
    destruct (first_title (title_candidates d)) as [t|].
    + destruct H as (i & t0 & Hi & Hlen & _).
      apply nth_error_In in Hi. specialize (Hnone _ Hi). lia.
    + destruct (Hlaw scheme a rest Hs Ha Hr) as [Hplain Hbracket]. split.
      * intros H1 H2. rewrite (Hplain H1 H2). reflexivity.
      * intros Hb. destruct (Hbracket Hb) as [msg ->]. exists msg.
        reflexivity.
Qed.

End Title.

(** The URL parser of the samples reads http and https URLs as
    [reads_netloc] says. *)
Lemma until_delim_netloc (a rest : string) :
  netloc_text a = true -> path_like rest = true ->
  Url.until_delim (a ++ rest) = a.
Proof.
  intros Ha Hr. induction a as [|c a IH]; cbn [append].
  - destruct rest as [|c r]; [reflexivity|].
    cbn [path_like] in Hr. cbn [Url.until_delim]. rewrite Hr. reflexivity.
  - cbn [netloc_text] in Ha. apply andb_true_iff in Ha.
    destruct Ha as [Hc Ha]. unfold netloc_char in Hc.
    apply andb_true_iff in Hc. destruct Hc as [_ Hc].
    apply negb_true_iff in Hc.
    cbn [Url.until_delim]. rewrite Hc, (IH Ha). reflexivity.
Qed.

Lemma fragment_reads_netloc : reads_netloc fragment_library.
Proof.
  intros scheme a rest Hs Ha Hr.
  cbn [urlparse_netloc fragment_library]. unfold Url.netloc.
  assert (Hafter : Url.after_scheme (scheme ++ "://" ++ a ++ rest)
                   = "//" ++ a ++ rest)
    by (destruct Hs as [->| ->]; reflexivity).
  rewrite Hafter. cbn [append]. cbv zeta.
  rewrite (until_delim_netloc a rest Ha Hr). split.
  - intros -> ->. reflexivity.
  - intros Hb. exists "Invalid IPv6 URL".
    destruct (Str.has_char "[" a), (Str.has_char "]" a);
      try reflexivity; congruence.
Qed.

(** C3 as stated fails: the title of last resort carries the user
    information and the port of the URL, with the host as it is written,
    not the host; and for a URL that [urlparse] refuses there is no title
    but a [ValueError]. *)
Lemma extract_title_suffix_not_host :
  _extract_title [] "https://user:pw@Example.com:8080/a/b"
  = Return "Article from user:pw@Example.com:8080"
  /\ "Article from user:pw@Example.com:8080" <> "Article from example.com"
  /\ "Article from user:pw@Example.com:8080" <> "Article from Example.com"
  /\ _extract_title [] "https://[bad/x" = Raise (ValueError "Invalid IPv6 URL").
Proof.
  split; [vm_compute; reflexivity|].
  split; [discriminate|]. split; [discriminate|]. vm_compute. reflexivity.
Qed.

(** C3 at a page with all five candidates, where the heading and the
    title element are too short and the og:title meta tag is taken, with
    the blanks around its content stripped; at an empty document and a
    URL with user information and a port; and at a URL with a bracket
    left open. *)
Lemma extract_title_resolution_witness :
  _extract_title (HtmlParser.parse Samples.page_titles)
    "https://example.com/x"
  = Return "Council approves budget"
  /\ _extract_title [] "https://user:pw@Example.com:8080/a/b"
     = Return "Article from user:pw@Example.com:8080"
  /\ exists msg, _extract_title [] "https://[bad/x" = Raise (ValueError msg).
Proof.
  split.
  - assert (Ht : title_texts (HtmlParser.parse Samples.page_titles)
                 = [Some "ab"; Some "x"; Some "Council approves budget";
                    Some "Budget on Twitter"; Some "Second heading"])
      by (vm_compute; reflexivity).
    assert (Hlong : ~ Str.len "Council approves budget" < 4)
      by (vm_compute; discriminate).
    destruct (proj1 (extract_title_resolution fragment_library
                       (HtmlParser.parse Samples.page_titles)
                       "https://example.com/x"))
      as [(i & t & Hi & Hlen & Hbefore & Heq & _)|[Hnone _]].
    + rewrite Ht in Hi, Hbefore.
      destruct i as [|[|[|[|[|i]]]]]; cbn [nth_error] in Hi.
      * injection Hi as <-. exfalso. revert Hlen. vm_compute. auto.
      * injection Hi as <-. exfalso. revert Hlen. vm_compute. auto.
      * injection Hi as <-. rewrite Heq. vm_compute. reflexivity.
      * exfalso. apply Hlong. apply (Hbefore 2%nat); [lia|reflexivity].
      * exfalso. apply Hlong. apply (Hbefore 2%nat); [lia|reflexivity].
      * destruct i; discriminate.
    + exfalso. apply Hlong. apply Hnone. rewrite Ht. cbn [In]. auto.
  - split.
    + apply (proj2 (extract_title_resolution fragment_library []
                      "https://user:pw@Example.com:8080/a/b")
               fragment_reads_netloc "https" "user:pw@Example.com:8080"
               "/a/b").
      * right. reflexivity.
      * reflexivity.
      * reflexivity.
      * reflexivity.
      * intros t H. vm_compute in H.
        decompose [or] H; discriminate || contradiction.
      * reflexivity.
      * reflexivity.
    + apply (proj2 (extract_title_resolution fragment_library []
                      "https://[bad/x")
               fragment_reads_netloc "https" "[bad" "/x").
      * right. reflexivity.
      * reflexivity.
      * reflexivity.
      * reflexivity.
      * intros t H. vm_compute in H.
        decompose [or] H; discriminate || contradiction.
      * vm_compute. discriminate.
Defined.

(** ** Author resolution *)

Section Author.

Lemma meta_author_spec (m : option node) :
  match meta_author m with
  | Some a => meta_taken (meta_candidate m) a
  | None => forall t, ~ meta_taken (meta_candidate m) t
  end.
Proof.
  unfold meta_author, meta_taken, meta_candidate. destruct m as [tag|].
  - set (a := Str.strip (Bs4.get tag "content" "")).
    destruct (Str.truthy a && (Str.len a <? 100)) eqn:Hc.
    + apply andb_true_iff in Hc. destruct Hc as [H1 H2].
      apply truthy_true in H1. apply Z.ltb_lt in H2. auto.
    + intros t (Heq & Hne & Hlt). injection Heq as <-.
      apply truthy_true in Hne. apply Z.ltb_lt in Hlt.
      rewrite Hne, Hlt in Hc. discriminate.
  - intros t (Heq & _). discriminate.
Qed.

Lemma byline_test (a : string) :
  (Str.truthy a && (Str.len a <? 100) && (2 <? Str.len a)
   && negb (Str.search_class disallowed a)) = true <-> screened a.
Proof.
  unfold screened.
  rewrite !andb_true_iff, negb_true_iff, !Z.ltb_lt, truthy_true. split.
  - intros [[[_ H1] H2] H3]. auto with zarith.
  - intros [[H1 H2] H3]. repeat split; auto.
    intros ->. change (Str.len "") with 0 in H1. lia.
Qed.

Lemma first_author_spec (elements : list node) :
  let texts := map (fun e => Str.strip (Bs4.get_text e)) elements in
  match first_author elements with
  | Some a =>
      exists l1 l2, texts = (l1 ++ a :: l2)%list /\ screened a
                    /\ forall t, In t l1 -> ~ screened t
  | None => forall t, In t texts -> ~ screened t
  end.
Proof.
  induction elements as [|e rest IH]; simpl.
  - intros t [].
  - set (a := Str.strip (Bs4.get_text e)).
    assert (Hcase : (Str.truthy a && (Str.len a <? 100) && (2 <? Str.len a)
                     && negb (Str.search_class disallowed a)) = true
                    \/ ~ screened a).
    { destruct (Str.truthy a && (Str.len a <? 100) && (2 <? Str.len a)
                && negb (Str.search_class disallowed a)) eqn:Hc; auto.
      right. intros Hs. apply byline_test in Hs. congruence. }
    destruct Hcase as [Hc|Hno].
    + apply andb_true_iff in Hc as Hc'. destruct Hc' as [H1 H2].
      rewrite H1, H2. apply byline_test in Hc.
      exists [], (map (fun e => Str.strip (Bs4.get_text e)) rest).
      repeat split; try apply Hc. intros t [].
    + assert (Hskip :
        (if Str.truthy a && (Str.len a <? 100) && (2 <? Str.len a)
         then if negb (Str.search_class disallowed a)
              then Some a else first_author rest
         else first_author rest) = first_author rest).
      { destruct (Str.truthy a && (Str.len a <? 100) && (2 <? Str.len a))
          eqn:H1; auto.
        destruct (negb (Str.search_class disallowed a)) eqn:H2; auto.
        exfalso. apply Hno, byline_test. rewrite H1, H2. reflexivity. }
      rewrite Hskip. simpl in IH. destruct (first_author rest) as [b|].
      * destruct IH as (l1 & l2 & Heq & Hs & Hl1).
        exists (a :: l1), l2. rewrite Heq. repeat split; try apply Hs.
        intros t [<-|Hin]; auto.
      * intros t [<-|Hin]; auto.
Qed.

Lemma author_by_selectors_spec (d : soup) (selectors : list Bs4.selector) :
  let texts :=
    flat_map (fun sel => map (fun e => Str.strip (Bs4.get_text e))
                           (Bs4.select d sel)) selectors in
  match author_by_selectors d selectors with
  | Some a =>
      exists l1 l2, texts = (l1 ++ a :: l2)%list /\ screened a
                    /\ forall t, In t l1 -> ~ screened t
  | None => forall t, In t texts -> ~ screened t
  end.
Proof.
  induction selectors as [|sel rest IH]; simpl.
  - intros t [].
  - pose proof (first_author_spec (Bs4.select d sel)) as H. simpl in H.
    destruct (first_author (Bs4.select d sel)) as [a|].
    + destruct H as (l1 & l2 & Heq & Hs & Hl1).
      exists l1, (l2 ++ flat_map
                          (fun sel => map (fun e => Str.strip (Bs4.get_text e))
                                        (Bs4.select d sel)) rest)%list.
      rewrite Heq, <- app_assoc. repeat split; try apply Hs. exact Hl1.
    + simpl in IH. destruct (author_by_selectors d rest) as [b|].
      * destruct IH as (l1 & l2 & Heq & Hs & Hl1).
        exists (map (fun e => Str.strip (Bs4.get_text e)) (Bs4.select d sel)
                ++ l1)%list, l2.
        rewrite Heq, <- app_assoc. repeat split; try apply Hs.
        intros t Hin. apply in_app_or in Hin. destruct Hin; auto.
      * intros t Hin. apply in_app_or in Hin. destruct Hin; auto.
Qed.

(** C4, as the code has it. A candidate of the author meta tag, and after
    it of the article:author meta tag, is taken when it is not empty and
    shorter than 100 characters, with no screen on its characters. When
    neither is taken, the author is the first byline text whose length is
    strictly between 2 and 100 and that holds no disallowed character,
    every byline text with a disallowed character being passed over; when
    no byline text passes, the author is exactly [Unknown]. *)
Theorem extract_author_resolution (d : soup) :
  let m1 := meta_candidate (Bs4.find_attr d "meta" "name" "author") in
  let m2 :=
    meta_candidate (Bs4.find_attr d "meta" "property" "article:author") in
  (forall t, meta_taken m1 t -> _extract_author d = t)
  /\ (forall t, (forall t1, ~ meta_taken m1 t1) -> meta_taken m2 t ->
        _extract_author d = t)
  /\ ((forall t1, ~ meta_taken m1 t1) -> (forall t2, ~ meta_taken m2 t2) ->
      (exists l1 l2,
          byline_texts d = (l1 ++ _extract_author d :: l2)%list
          /\ screened (_extract_author d)
          /\ forall t, In t l1 -> ~ screened t)
      \/ ((forall t, In t (byline_texts d) -> ~ screened t)
          /\ _extract_author d = "Unknown")).
Proof.
  intros m1 m2. unfold _extract_author.
  pose proof (meta_author_spec (Bs4.find_attr d "meta" "name" "author")) as H1.
  pose proof (meta_author_spec
                (Bs4.find_attr d "meta" "property" "article:author")) as H2.
  fold m1 in H1. fold m2 in H2.
  destruct (meta_author (Bs4.find_attr d "meta" "name" "author")) as [a1|].
  - repeat split.
    + intros t (Ht & _). destruct H1 as (Ha & _). congruence.
    + intros t Hno. destruct (Hno a1 H1).
    + intros Hno. destruct (Hno a1 H1).
  - destruct (meta_author (Bs4.find_attr d "meta" "property" "article:author"))
      as [a2|].
    + repeat split.
      * intros t Ht. destruct (H1 t Ht).
      * intros t _ (Ht & _). destruct H2 as (Ha & _). congruence.
      * intros _ Hno. destruct (Hno a2 H2).
    + repeat split.
      * intros t Ht. destruct (H1 t Ht).
      * intros t _ Ht. destruct (H2 t Ht).
      * intros _ _.
        pose proof (author_by_selectors_spec d author_selectors) as H.
        cbv zeta in H. fold (byline_texts d) in H.
        destruct (author_by_selectors d author_selectors) as [a|].
        -- left. exact H.
        -- right. split; [exact H|reflexivity].
Qed.

(** C4 as stated fails: the author meta tag of the sample page holds an
    address, with two disallowed characters, and it is the author. *)
Lemma meta_author_not_screened :
  Str.search_class disallowed "john@example.com" = true
  /\ _extract_author Samples.page_meta_author = "john@example.com".
Proof. split; vm_compute; reflexivity. Qed.

End Author.

(** C4 at the sample page: its author meta tag is taken as it is. *)
Lemma extract_author_resolution_witness :
  meta_taken
    (meta_candidate
       (Bs4.find_attr Samples.page_meta_author "meta" "name" "author"))
    "john@example.com"
  /\ _extract_author Samples.page_meta_author = "john@example.com".
Proof.
  assert (H : meta_taken
                (meta_candidate
                   (Bs4.find_attr Samples.page_meta_author
                      "meta" "name" "author"))
                "john@example.com").
  { split; [vm_compute; reflexivity|]. split; [discriminate|].
    vm_compute; reflexivity. }
  split; [exact H|].
  exact (proj1 (extract_author_resolution Samples.page_meta_author) _ H).
Defined.

(** ** The dispatcher *)

Section DispatcherFacts.
Context (lib : Library) (net : Network).

Lemma in_flight_app (a b : list task) :
  in_flight (a ++ b) = in_flight a + in_flight b.
Proof. induction a as [|[u|u|r] a IH]; tally; lia. Qed.

Lemma queued_app (a b : list task) : queued (a ++ b) = queued a + queued b.
Proof. induction a as [|[u|u|r] a IH]; tally; lia. Qed.

Lemma in_flight_nonneg (ts : list task) : 0 <= in_flight ts.
Proof. induction ts as [|[u|u|r] ts IH]; tally; lia. Qed.

Lemma queued_nonneg (ts : list task) : 0 <= queued ts.
Proof. induction ts as [|[u|u|r] ts IH]; tally; lia. Qed.

Lemma init_in_flight (urls : list string) : in_flight (map Queued urls) = 0.
Proof. induction urls; tally; auto. Qed.

Lemma init_queued (urls : list string) :
  queued (map Queued urls) = Z.of_nat (List.length urls).
Proof. induction urls; tally; lia. Qed.

Lemma init_follows (urls : list string) :
  Forall2 follows urls (map Queued urls).
Proof. induction urls; simpl; constructor; auto. left. reflexivity. Qed.

(** A move changes the stage of one task and nothing else. *)
Lemma step_follows (urls : list string) (s s' : dispatch) :
  Forall2 follows urls (tasks s) -> step s s' ->
  Forall2 follows urls (tasks s').
Proof.
  intros Hf Hstep. destruct Hstep as [v before url after Hv|v before url after];
    simpl in *;
    apply Forall2_app_inv_r in Hf;
    destruct Hf as (l1 & l2 & H1 & H2 & ->);
    inversion H2 as [|u t us ts Hu Hrest]; subst;
    apply Forall2_app; auto; constructor; auto.
  - destruct Hu as [Hu|[Hu|Hu]]; try discriminate.
    injection Hu as <-. right. left. reflexivity.
  - destruct Hu as [Hu|[Hu|Hu]]; try discriminate.
    injection Hu as <-. right. right. reflexivity.
Qed.

(** The counter and the tasks in flight add up to the same number before
    and after a move, and the counter stays at or above zero. *)
Lemma step_slots (s s' : dispatch) :
  step s s' ->
  value s' + in_flight (tasks s') = value s + in_flight (tasks s)
  /\ (0 <= value s -> 0 <= value s').
Proof.
  intros [v before url after Hv|v before url after]; tally;
    rewrite !in_flight_app; tally; split; lia.
Qed.

Lemma steps_invariant (k : Z) (urls : list string) (s : dispatch) :
  0 <= k -> steps (init k urls) s ->
  value s + in_flight (tasks s) = k
  /\ 0 <= value s
  /\ Forall2 follows urls (tasks s).
Proof.
  intros Hk Hsteps.
  remember (init k urls) as s0 eqn:Hs0.
  induction Hsteps as [s|s1 s2 s3 H12 IH H23].
  - subst s. simpl. rewrite init_in_flight. repeat split; try lia.
    apply init_follows.
  - destruct (IH Hs0) as (Hsum & Hpos & Hf).
    destruct (step_slots _ _ H23) as [Hsum' Hpos'].
    repeat split; try lia; auto.
    eapply step_follows; eauto.
Qed.

Lemma gathered_follows (urls : list string) (ts : list task)
  (rs : list (result (option article))) :
  Forall2 follows urls ts -> gathered ts = Some rs ->
  rs = map scrape_url urls.
Proof.
  intros Hf. revert rs. induction Hf as [|u t us ts Hu Hrest IH]; intros rs.
  - simpl. intros H. injection H as <-. reflexivity.
  - simpl. destruct t as [x|x|r]; try discriminate.
    destruct (gathered ts) as [rs'|]; [|discriminate].
    intros H. injection H as <-.
    destruct Hu as [Hu|[Hu|Hu]]; try discriminate.
    injection Hu as ->. simpl. f_equal. apply IH. reflexivity.
Qed.

Lemma collect_results (urls : list string) :
  collect (map scrape_url urls) = successes urls.
Proof.
  induction urls as [|u us IH]; simpl; auto.
  unfold succeeded. destruct (scrape_url u) as [[a|]|e]; simpl; congruence.
Qed.

Lemma successes_count (urls : list string) :
  List.length (successes urls) = List.length (filter succeeds urls).
Proof.
  induction urls as [|u us IH]; [reflexivity|].
  cbn [successes filter].
  change (succeeds u)
    with (match succeeded u with Some _ => true | None => false end).
  destruct (succeeded u); cbn [List.length]; congruence.
Qed.

Lemma start_first_some (ts : list task) :
  0 < queued ts ->
  exists before url after,
    ts = (before ++ Queued url :: after)%list
    /\ start_first ts = Some (before ++ InFlight url :: after)%list.
Proof.
  induction ts as [|t ts IH];
    cbn [queued in_flight start_first finish_first]; [lia|].
  destruct t as [u|u|r]; intros H.
  - exists [], u, ts. split; reflexivity.
  - destruct (IH H) as (b & url & a & -> & ->).
    exists (InFlight u :: b), url, a. split; reflexivity.
  - destruct (IH H) as (b & url & a & -> & ->).
    exists (Finished r :: b), url, a. split; reflexivity.
Qed.

Lemma start_first_none (ts : list task) :
  queued ts = 0 -> start_first ts = None.
Proof.
  induction ts as [|t ts IH]; cbn [queued start_first]; auto.
  pose proof (queued_nonneg ts) as Hq.
  destruct t as [u|u|r]; intros H; try lia; rewrite IH; auto.
Qed.

Lemma finish_first_some (ts : list task) :
  0 < in_flight ts ->
  exists before url after,
    ts = (before ++ InFlight url :: after)%list
    /\ finish_first ts
       = Some (before ++ Finished (scrape_url url) :: after)%list.
Proof.
  induction ts as [|t ts IH];
    cbn [queued in_flight start_first finish_first]; [lia|].
  destruct t as [u|u|r]; intros H.
  - destruct (IH H) as (b & url & a & -> & ->).
    exists (Queued u :: b), url, a. split; reflexivity.
  - exists [], u, ts. split; reflexivity.
  - destruct (IH H) as (b & url & a & -> & ->).
    exists (Finished r :: b), url, a. split; reflexivity.
Qed.

Lemma gathered_none (ts : list task) :
  gathered ts = None -> 0 < queued ts + in_flight ts.
Proof.
  induction ts as [|t ts IH]; cbn [gathered queued in_flight];
    [discriminate|].
  pose proof (queued_nonneg ts) as Hq. pose proof (in_flight_nonneg ts) as Hi.
  destruct t as [u|u|r]; intros H; try lia.
  destruct (gathered ts); [discriminate|]. apply IH. reflexivity.
Qed.

(** With at least one slot, the schedule always finds a move while some
    task has not ended, and every move brings the end nearer. *)
Lemma next_progress (k : Z) (s : dispatch) :
  1 <= k -> value s + in_flight (tasks s) = k -> 0 <= value s ->
  gathered (tasks s) = None ->
  exists s',
    next s = Some s' /\ step s s'
    /\ 2 * queued (tasks s') + in_flight (tasks s')
       < 2 * queued (tasks s) + in_flight (tasks s).
Proof.
  intros Hk Hsum Hpos Hnone. destruct s as [v ts]. cbn [value tasks] in *.
  apply gathered_none in Hnone.
  pose proof (queued_nonneg ts) as Hq. pose proof (in_flight_nonneg ts) as Hi.
  unfold next. cbn [value tasks].
  assert (Hfinish : 0 < in_flight ts ->
    exists s', match finish_first ts with
               | Some ts' => Some {| value := v + 1; tasks := ts' |}
               | None => None
               end = Some s'
               /\ step {| value := v; tasks := ts |} s'
               /\ 2 * queued (tasks s') + in_flight (tasks s')
                  < 2 * queued ts + in_flight ts).
  { intros H. destruct (finish_first_some ts H) as (b & url & a & -> & ->).
    eexists. split; [reflexivity|]. split; [constructor|].
    cbn [tasks]. rewrite !queued_app, !in_flight_app.
    cbn [in_flight queued]. lia. }
  destruct (0 <? v) eqn:Hv.
  - apply Z.ltb_lt in Hv.
    destruct (Z.eq_dec (queued ts) 0) as [Hq0|Hq0].
    + rewrite (start_first_none ts Hq0). apply Hfinish. lia.
    + destruct (start_first_some ts ltac:(lia)) as (b & url & a & -> & ->).
      eexists. split; [reflexivity|]. split; [constructor; exact Hv|].
      cbn [tasks]. rewrite !queued_app, !in_flight_app.
      cbn [in_flight queued]. lia.
  - apply Z.ltb_ge in Hv. apply Hfinish. lia.
Qed.

Lemma run_completes (k : Z) (urls : list string) (fuel : nat) (s : dispatch) :
  1 <= k -> value s + in_flight (tasks s) = k -> 0 <= value s ->
  Forall2 follows urls (tasks s) ->
  2 * queued (tasks s) + in_flight (tasks s) <= Z.of_nat fuel ->
  run fuel s = Some (map scrape_url urls).
Proof.
  intros Hk. revert s.
  induction fuel as [|fuel IH]; intros s Hsum Hpos Hf Hfuel.
  - simpl. destruct (gathered (tasks s)) as [rs|] eqn:Hg.
    + f_equal. eapply gathered_follows; eauto.
    + apply gathered_none in Hg.
      pose proof (queued_nonneg (tasks s)). lia.
  - simpl. destruct (gathered (tasks s)) as [rs|] eqn:Hg.
    + f_equal. eapply gathered_follows; eauto.
    + destruct (next_progress k s Hk Hsum Hpos Hg) as (s' & -> & Hstep & Hlt).
      destruct (step_slots _ _ Hstep) as [Hsum' Hpos'].
      apply IH; auto; try lia.
      eapply step_follows; eauto.
Qed.

(** C5. With at least one slot, the batch scrape returns, and what it
    returns is exactly the records of the URLs that succeeded, in the
    order of the URLs: a URL whose scrape returned [None] or raised adds
    nothing and takes nothing away. The same list comes out of every
    order in which the tasks may run, and it has as many records as there
    are URLs that succeeded. *)
Theorem scrape_multiple_urls_isolated (urls : list string) (k : Z) :
  1 <= k ->
  scrape_multiple_urls urls k = Returns (successes urls)
  /\ (forall s rs,
        steps (init k urls) s -> gathered (tasks s) = Some rs ->
        collect rs = successes urls)
  /\ List.length (successes urls) = List.length (filter succeeds urls).
Proof.
  intros Hk. split; [|split].
  - unfold scrape_multiple_urls.
    destruct (k <? 0) eqn:Hneg; [apply Z.ltb_lt in Hneg; lia|].
    rewrite (run_completes k urls).
    + rewrite collect_results. reflexivity.
    + exact Hk.
    + simpl. rewrite init_in_flight. lia.
    + simpl. lia.
    + apply init_follows.
    + simpl tasks. rewrite init_in_flight, init_queued. lia.
  - intros s rs Hsteps Hg.
    destruct (steps_invariant k urls s ltac:(lia) Hsteps) as (_ & _ & Hf).
    rewrite (gathered_follows urls (tasks s) rs Hf Hg).
    apply collect_results.
  - apply successes_count.
Qed.

(** C6. With a limit of [k] slots, in every state the dispatcher can
    reach at most [k] tasks hold a slot, the counter of the semaphore
    being the number of free slots; and when [k] tasks hold a slot the
    only move is the end of one of them: the waiting tasks stay waiting
    until a slot is given back. *)
Theorem in_flight_bounded (urls : list string) (k : Z) (s : dispatch) :
  0 <= k ->
  steps (init k urls) s ->
  in_flight (tasks s) <= k
  /\ value s = k - in_flight (tasks s)
  /\ (forall s', step s s' -> in_flight (tasks s) = k ->
        in_flight (tasks s') = k - 1
        /\ queued (tasks s') = queued (tasks s)).
Proof.
  intros Hk Hsteps.
  destruct (steps_invariant k urls s Hk Hsteps) as (Hsum & Hpos & _).
  repeat split; try lia.
  - destruct H as [v before url after Hv|v before url after];
      tally_in_all; rewrite !in_flight_app in *; tally_in_all; lia.
  - destruct H as [v before url after Hv|v before url after];
      tally_in_all; rewrite ?queued_app, ?in_flight_app in *;
      tally_in_all; lia.
Qed.

End DispatcherFacts.

(** C5 at the scenario of the specification: ten URLs, three slots, two
    timeouts, eight records. *)
Lemma scrape_multiple_urls_isolated_witness :
  1 <= 3
  /\ scrape_multiple_urls batch 3 = Returns (successes batch)
  /\ List.length (successes batch) = 8%nat.
Proof.
  split; [lia|].
  destruct (scrape_multiple_urls_isolated fragment_library
              Samples.demo_network batch 3 ltac:(lia)) as (H & _ & _).
  split; [exact H|]. vm_compute. reflexivity.
Defined.

(** C6 at a limit of one slot and two URLs, after the first task has
    taken the slot. *)
Lemma in_flight_bounded_witness :
  in_flight [InFlight "a.example"; Queued "b.example"] <= 1.
Proof.
  refine (proj1 (in_flight_bounded fragment_library Samples.demo_network
                   ["a.example"; "b.example"] 1
                   {| value := 0;
                      tasks := [InFlight "a.example"; Queued "b.example"] |}
                   _ _)).
  - lia.
  - eapply steps_next; [apply steps_refl|].
    apply (step_acquire 1 [] "a.example" [Queued "b.example"]). lia.
Defined.

(** ** The text normaliser *)

Section NormalizerFacts.

Lemma isspace_lower (c : ascii) : Str.isspace (Str.lower_char c) = Str.isspace c.
Proof. destruct c as [[] [] [] [] [] [] [] []]; reflexivity. Qed.

Lemma lower_space (c : ascii) : Str.isspace c = true -> Str.lower_char c = c.
Proof.
  destruct c as [[] [] [] [] [] [] [] []]; intros H;
    first [reflexivity | discriminate H].
Qed.

Lemma lower_char_idem (c : ascii) :
  Str.lower_char (Str.lower_char c) = Str.lower_char c.
Proof. destruct c as [[] [] [] [] [] [] [] []]; reflexivity. Qed.

Lemma newline_space (c : ascii) :
  Str.is_newline c = true -> Str.isspace c = true /\ Ascii.eqb c Str.space = false.
Proof.
  unfold Str.is_newline. intros H. apply Ascii.eqb_eq in H. subst c.
  split; reflexivity.
Qed.

Lemma lower_idem (s : string) : Str.lower (Str.lower s) = Str.lower s.
Proof. induction s as [|c s IH]; simpl; [|rewrite lower_char_idem, IH]; auto. Qed.

(** The output of the whitespace substitution is single-spaced. *)
Lemma sub_spaces_spaced (b : bool) (s : string) :
  spaced b (Str.sub_run Str.isspace Str.space b s) = true.
Proof.
  revert b. induction s as [|c s IH]; intros b; simpl; auto.
  destruct (Str.isspace c) eqn:Hc.
  - destruct b; [apply IH|]. simpl. apply IH.
  - simpl. rewrite Hc. apply IH.
Qed.

(** On a single-spaced text the whitespace substitution changes nothing. *)
Lemma spaced_sub_spaces (b : bool) (s : string) :
  spaced b s = true -> Str.sub_run Str.isspace Str.space b s = s.
Proof.
  revert b. induction s as [|c s IH]; intros b; simpl; auto.
  destruct (Str.isspace c) eqn:Hc.
  - intros H. apply andb_true_iff in H. destruct H as [H H3].
    apply andb_true_iff in H. destruct H as [H1 H2].
    apply Ascii.eqb_eq in H1. apply negb_true_iff in H2. subst b.
    rewrite (IH true H3). congruence.
  - intros H. rewrite (IH false H). reflexivity.
Qed.

(** A single-spaced text holds no newline. *)
Lemma spaced_sub_newlines (b b' : bool) (s : string) :
  spaced b s = true -> Str.sub_run Str.is_newline Str.newline b' s = s.
Proof.
  revert b b'. induction s as [|c s IH]; intros b b'; simpl; auto.
  destruct (Str.is_newline c) eqn:Hn.
  - apply newline_space in Hn. destruct Hn as [H1 H2]. rewrite H1, H2.
    discriminate.
  - destruct (Str.isspace c).
    + intros H. apply andb_true_iff in H. destruct H as [_ H].
      rewrite (IH true false H). reflexivity.
    + intros H. rewrite (IH false false H). reflexivity.
Qed.

Lemma spaced_lstrip (b b' : bool) (s : string) :
  spaced b s = true -> spaced b' (Str.lstrip s) = true.
Proof.
  revert b. induction s as [|c s IH]; intros b; simpl; auto.
  destruct (Str.isspace c) eqn:Hc.
  - intros H. apply andb_true_iff in H. destruct H as [_ H]. eapply IH; eauto.
  - simpl. rewrite Hc. auto.
Qed.

Lemma spaced_rstrip (b : bool) (s : string) :
  spaced b s = true -> spaced b (Str.rstrip s) = true.
Proof.
  revert b. induction s as [|c s IH]; intros b; simpl; auto.
  destruct (Str.isspace c) eqn:Hc.
  - intros H. apply andb_true_iff in H. destruct H as [H12 H3].
    specialize (IH true H3). destruct (Str.rstrip s); auto.
    cbn [spaced]. rewrite Hc, H12. exact IH.
  - intros H. specialize (IH false H). destruct (Str.rstrip s).
    + simpl. rewrite Hc. reflexivity.
    + cbn [spaced]. rewrite Hc. exact IH.
Qed.

Lemma lstrip_clean (s : string) : starts_clean (Str.lstrip s) = true.
Proof.
  induction s as [|c s IH]; simpl; auto.
  destruct (Str.isspace c) eqn:Hc; auto. simpl. rewrite Hc. reflexivity.
Qed.

Lemma rstrip_clean (s : string) :
  starts_clean s = true -> starts_clean (Str.rstrip s) = true.
Proof.
  destruct s as [|c s]; simpl; auto. intros H.
  apply negb_true_iff in H. rewrite H.
  destruct (Str.rstrip s); simpl; rewrite H; reflexivity.
Qed.

Lemma clean_lstrip (s : string) : starts_clean s = true -> Str.lstrip s = s.
Proof.
  destruct s as [|c s]; simpl; auto. intros H.
  apply negb_true_iff in H. rewrite H. reflexivity.
Qed.

Lemma rstrip_cons (c : ascii) (s : string) :
  Str.rstrip (String c s)
  = match Str.rstrip s with
    | EmptyString =>
        if Str.isspace c then EmptyString else String c EmptyString
    | r => String c r
    end.
Proof. reflexivity. Qed.

Lemma rstrip_idem (s : string) : Str.rstrip (Str.rstrip s) = Str.rstrip s.
Proof.
  induction s as [|c s IH]; [reflexivity|].
  rewrite (rstrip_cons c s).
  destruct (Str.rstrip s) as [|d r] eqn:Hr.
  - destruct (Str.isspace c) eqn:Hc; [reflexivity|].
    rewrite rstrip_cons. simpl. rewrite Hc. reflexivity.
  - rewrite rstrip_cons, IH. reflexivity.
Qed.

Lemma strip_clean (s : string) : starts_clean (Str.strip s) = true.
Proof. unfold Str.strip. apply rstrip_clean, lstrip_clean. Qed.

Lemma strip_idem (s : string) : Str.strip (Str.strip s) = Str.strip s.
Proof.
  unfold Str.strip at 1. rewrite (clean_lstrip _ (strip_clean s)).
  unfold Str.strip. apply rstrip_idem.
Qed.

Lemma lstrip_lower (s : string) :
  Str.lstrip (Str.lower s) = Str.lower (Str.lstrip s).
Proof.
  induction s as [|c s IH]; simpl; auto.
  rewrite isspace_lower. destruct (Str.isspace c); auto.
Qed.

Lemma rstrip_lower (s : string) :
  Str.rstrip (Str.lower s) = Str.lower (Str.rstrip s).
Proof.
  induction s as [|c s IH]; simpl; auto.
  rewrite IH, isspace_lower.
  destruct (Str.rstrip s); simpl; auto. destruct (Str.isspace c); auto.
Qed.

Lemma strip_lower (s : string) :
  Str.strip (Str.lower s) = Str.lower (Str.strip s).
Proof. unfold Str.strip. rewrite lstrip_lower, rstrip_lower. reflexivity. Qed.

Lemma spaced_lower (b : bool) (s : string) :
  spaced b (Str.lower s) = spaced b s.
Proof.
  revert b. induction s as [|c s IH]; intros b; simpl; auto.
  rewrite isspace_lower. destruct (Str.isspace c) eqn:Hc.
  - rewrite (lower_space c Hc), IH. reflexivity.
  - apply IH.
Qed.

(** The text after the whitespace steps: single-spaced and stripped. *)
Lemma tidy_spaced (g : string) :
  spaced false (Str.strip (Str.sub_spaces g)) = true.
Proof.
  unfold Str.strip, Str.sub_spaces.
  apply spaced_rstrip. eapply spaced_lstrip. apply sub_spaces_spaced.
Qed.

Lemma pipeline_fixed (g : string) :
  let y := Str.lower (Str.sub_newlines (Str.strip (Str.sub_spaces g))) in
  Str.lower (Str.sub_newlines (Str.strip (Str.sub_spaces y))) = y
  /\ Str.strip y = y.
Proof.
  intros y. pose proof (tidy_spaced g) as Hz.
  set (z := Str.strip (Str.sub_spaces g)) in *.
  assert (Hy : y = Str.lower z).
  { unfold y, Str.sub_newlines. rewrite (spaced_sub_newlines _ _ _ Hz).
    reflexivity. }
  assert (Hsp : spaced false y = true) by (rewrite Hy, spaced_lower; exact Hz).
  assert (Hst : Str.strip y = y).
  { rewrite Hy, strip_lower. unfold z. rewrite strip_idem. reflexivity. }
  split; [|exact Hst].
  unfold Str.sub_spaces. rewrite (spaced_sub_spaces _ _ Hsp), Hst.
  unfold Str.sub_newlines. rewrite (spaced_sub_newlines _ _ _ Hsp).
  rewrite Hy. apply lower_idem.
Qed.

(** C7, as the code has it. With a parser that gives markup-free text
    back unchanged, normalising twice is normalising once for every input
    whose normalised text holds neither [<] nor [&]. *)
Theorem preprocess_text_idempotent (lib : Library) (x : string) :
  passes_plain_text lib ->
  markup_free (preprocess_text x) = true ->
  preprocess_text (preprocess_text x) = preprocess_text x.
Proof.
  intros Hlib Hfree.
  destruct (preprocess_text x) as [|c y'] eqn:Hy; [reflexivity|].
  assert (Hst : Str.strip (String c y') = String c y'
                /\ Str.lower (Str.sub_newlines (Str.strip (Str.sub_spaces
                     (String c y')))) = String c y').
  { unfold preprocess_text in Hy.
    destruct (negb (Str.truthy x)); [discriminate|].
    destruct (pipeline_fixed (Bs4.soup_text (BeautifulSoup x))) as [H1 H2].
    cbv zeta in H1, H2. rewrite Hy in H1, H2. auto. }
  destruct Hst as [Hst Hfix].
  unfold preprocess_text at 1. cbn [Str.truthy negb].
  rewrite (Hlib (String c y') Hfree Hst ltac:(discriminate)).
  exact Hfix.
Qed.

(** C7 as stated fails: a text that spells a tag with character
    references normalises to the tag, and the tag normalises away. *)
Lemma preprocess_text_not_idempotent :
  preprocess_text "&lt;p&gt;Hi" = "<p>hi"
  /\ preprocess_text (preprocess_text "&lt;p&gt;Hi") = "hi"
  /\ preprocess_text (preprocess_text "&lt;p&gt;Hi")
     <> preprocess_text "&lt;p&gt;Hi".
Proof.
  split; [vm_compute; reflexivity|].
  split; [vm_compute; reflexivity|].
  vm_compute. discriminate.
Qed.

End NormalizerFacts.

(** ** The library model passes plain text *)

Section FragmentFacts.

Lemma span_data_plain (s : string) :
  Str.has_char "<"%char s = false ->
  HtmlParser.span_data s = (s, EmptyString).
Proof.
  induction s as [|c s IH]; cbn [Str.has_char HtmlParser.span_data]; auto.
  intros H. apply orb_false_iff in H. destruct H as [H1 H2].
  rewrite Ascii.eqb_sym, H1, (IH H2). reflexivity.
Qed.

Lemma prefix_other_head (a c : ascii) (p s : string) :
  a <> c -> String.prefix (String a p) (String c s) = false.
Proof. intros H. simpl. destruct (ascii_dec a c); congruence. Qed.

Lemma unescape_plain (s : string) :
  Str.has_char "&"%char s = false -> HtmlParser.unescape_from 0 s = s.
Proof.
  induction s as [|c s IH];
    cbn [Str.has_char HtmlParser.unescape_from]; auto.
  intros H. apply orb_false_iff in H. destruct H as [H1 H2].
  apply Ascii.eqb_neq in H1.
  rewrite !prefix_other_head by exact H1.
  rewrite (IH H2). reflexivity.
Qed.

Lemma tokenize_end (n : nat) : HtmlParser.tokenize n EmptyString = [].
Proof. destruct n; reflexivity. Qed.

Lemma tokenize_plain (n : nat) (s : string) :
  s <> EmptyString -> markup_free s = true ->
  HtmlParser.tokenize (S n) s = [HtmlParser.TData s].
Proof.
  intros Hne Hfree. unfold markup_free in Hfree.
  apply andb_true_iff in Hfree. destruct Hfree as [Hlt Hamp].
  apply negb_true_iff in Hlt. apply negb_true_iff in Hamp.
  destruct s as [|c s]; [congruence|].
  cbn [HtmlParser.tokenize].
  assert (Hc : Ascii.eqb c "<"%char = false).
  { cbn [Str.has_char] in Hlt. apply orb_false_iff in Hlt.
    destruct Hlt as [H _].
    rewrite Ascii.eqb_sym. exact H. }
  rewrite Hc, (span_data_plain _ Hlt), tokenize_end.
  unfold HtmlParser.unescape. rewrite (unescape_plain _ Hamp). reflexivity.
Qed.

Lemma blank_isspace (c : ascii) :
  Str.has_char c HtmlParser.ascii_spaces = true -> Str.isspace c = true.
Proof.
  destruct c as [[] [] [] [] [] [] [] []]; intros H;
    first [reflexivity | discriminate H].
Qed.

Lemma end_data_clean (s : string) :
  s <> EmptyString -> starts_clean s = true -> HtmlParser.end_data s = s.
Proof.
  destruct s as [|c s]; [congruence|]. intros _ H. simpl in H.
  apply negb_true_iff in H. unfold HtmlParser.end_data.
  cbn [HtmlParser.all_in].
  destruct (Str.has_char c HtmlParser.ascii_spaces) eqn:Hc.
  - apply blank_isspace in Hc. congruence.
  - reflexivity.
Qed.

Lemma fragment_passes_plain_text : passes_plain_text fragment_library.
Proof.
  intros s Hfree Hstrip Hne. cbn [BeautifulSoup fragment_library].
  unfold HtmlParser.parse.
  rewrite (tokenize_plain _ s Hne Hfree).
  cbn [HtmlParser.merge_data HtmlParser.build HtmlParser.close_all app].
  unfold HtmlParser.string_node.
  cbn [HtmlParser.preserved HtmlParser.container_of existsb].
  rewrite end_data_clean;
    [reflexivity | exact Hne | rewrite <- Hstrip; apply strip_clean].
Qed.

End FragmentFacts.

(** C7 at a text with markup and blanks in it. *)
Lemma preprocess_text_idempotent_witness :
  markup_free (preprocess_text "  Hello   <b>World</b> ") = true
  /\ preprocess_text (preprocess_text "  Hello   <b>World</b> ")
     = preprocess_text "  Hello   <b>World</b> ".
Proof.
  assert (H : markup_free (preprocess_text "  Hello   <b>World</b> ") = true)
    by (vm_compute; reflexivity).
  split; [exact H|].
  exact (preprocess_text_idempotent fragment_library _
           fragment_passes_plain_text H).
Defined.

(** ** Storage failures in the workflow *)

Section ProcessArticles.
Context (lib : Library) (svc : Services).

Lemma process_loop_raises (articles : list article) (w w' : world)
  (ids : list Z) (e : exn) :
  process_loop articles w ids = (Raise e, w') -> is_Exception e = false.
Proof.
  revert w ids. induction articles as [|a rest IH]; intros w ids; simpl.
  - discriminate.
  - destruct (process_article w a) as [[article_id|e0] w1].
    + apply IH.
    + destruct (is_Exception e0) eqn:He0.
      * apply IH.
      * intros H. injection H as <- _. exact He0.
Qed.

(** C8, as the code has it. When storing an article fails with an
    [Exception], [store_article] logs it and raises it again, the loop of
    [process_articles] catches it, logs it and goes on with the next
    article, and [process_articles] does not raise it: whatever
    [process_articles] raises is no [Exception]. *)
Theorem store_failure_is_caught :
  (forall w data e w',
     store_article w data = (Raise e, w') -> is_Exception e = true ->
     w' = logger ERROR "Error storing article: " w)
  /\ (forall a rest w ids a1 w1 e w2,
        summarize w (set_content a (preprocess_text (content a)))
        = (Return a1, w1) ->
        store_article w1 a1 = (Raise e, w2) ->
        is_Exception e = true ->
        process_loop (a :: rest) w ids
        = process_loop rest (logger ERROR "Error processing article '" w2) ids)
  /\ (forall source limit w e w',
        process_articles source limit w = (Raise e, w') ->
        is_Exception e = false).
Proof.
  split; [|split].
  - intros w data e w'. unfold store_article.
    destruct (sqlite_insert _ _) as [[article_id db']|e0]; [discriminate|].
    destruct (is_Exception e0) eqn:He0.
    + intros H _. injection H as _ <-. reflexivity.
    + intros H He. injection H as <- _. congruence.
  - intros a rest w ids a1 w1 e w2 Hsum Hstore He.
    cbn [process_loop]. unfold process_article.
    rewrite Hsum, Hstore, He. reflexivity.
  - intros source limit w e w'. unfold process_articles.
    destruct (scrape_articles source limit) as [articles|e0].
    + apply process_loop_raises.
    + destruct (is_Exception e0) eqn:He0; [discriminate|].
      intros H. injection H as <- _. exact He0.
Qed.

End ProcessArticles.

(** C8 as stated fails: with a database that cannot be written, storing
    the budget record raises, and the workflow returns an empty list of
    ids instead of raising. *)
Lemma store_failure_not_propagated :
  fst (@store_article Samples.readonly_services
         (Samples.empty_world Samples.readonly_services [])
         Samples.budget_to_store)
  = Raise OperationalError
  /\ fst (@process_articles fragment_library Samples.readonly_services
            "https://example.com/budget" 5
            (Samples.empty_world Samples.readonly_services []))
     = Return [].
Proof. split; vm_compute; reflexivity. Qed.

(** C8 at the same database: the failure is logged by [store_article] and
    what the workflow may raise is no [Exception]. *)
Lemma store_failure_is_caught_witness :
  snd (@store_article Samples.readonly_services
         (Samples.empty_world Samples.readonly_services [])
         Samples.budget_to_store)
  = logger ERROR "Error storing article: "
      (Samples.empty_world Samples.readonly_services []).
Proof.
  refine (proj1 (store_failure_is_caught fragment_library
                   Samples.readonly_services)
            (Samples.empty_world Samples.readonly_services [])
            Samples.budget_to_store OperationalError _ _ _).
  - vm_compute. reflexivity.
  - reflexivity.
Defined.

(** ** Empty content *)

Section EmptyContent.
Context (lib : Library) (net : Network).

(** C9, as the code has it. For a document whose content is empty after
    the selector pass and both fallbacks, content extraction returns the
    text [No content extracted], 20 characters long, and [scrape_url],
    having fetched the document with status 200, returns [None]. *)
Theorem empty_content_placeholder (d : soup) :
  resolve_content d = EmptyString ->
  _extract_main_content d = "No content extracted"
  /\ Str.len (_extract_main_content d) = 20
  /\ (forall url resp html,
        session_get (_clean_url url) = Return resp ->
        status resp = 200 ->
        text resp = Return html ->
        BeautifulSoup html = d ->
        scrape_url url = Return None).
Proof.
  intros Hempty.
  assert (H : _extract_main_content d = "No content extracted").
  { unfold _extract_main_content. rewrite Hempty. reflexivity. }
  split; [exact H|]. split; [rewrite H; reflexivity|].
  intros url resp html Hget Hst Htext Hd.
  unfold scrape_url. rewrite Hget, Hst, Htext, Hd, H.
  destruct (_extract_title d (_clean_url url)) as [t|e] eqn:Htitle;
    [reflexivity|exact (extract_title_raise_caught _ _ _ _ Htitle)].
Qed.

End EmptyContent.

(** C9 as stated fails: for the empty document content extraction
    returns a text, and it is the text it returns for a page whose body
    holds these words. *)
Lemma empty_content_returns_text :
  resolve_content Samples.page_empty = EmptyString
  /\ _extract_main_content Samples.page_empty = "No content extracted"
  /\ resolve_content Samples.page_placeholder = "No content extracted"
  /\ _extract_main_content Samples.page_placeholder
     = _extract_main_content Samples.page_empty.
Proof. repeat split; vm_compute; reflexivity. Qed.

(** C9 at a page with an empty body, served with status 200. *)
Lemma empty_content_placeholder_witness :
  resolve_content (HtmlParser.parse Samples.page_blank) = EmptyString
  /\ _extract_main_content (HtmlParser.parse Samples.page_blank)
     = "No content extracted"
  /\ scrape_url "example.com/blank" = Return None.
Proof.
  assert (H : resolve_content (HtmlParser.parse Samples.page_blank)
              = EmptyString) by (vm_compute; reflexivity).
  destruct (empty_content_placeholder fragment_library Samples.demo_network
              (HtmlParser.parse Samples.page_blank) H) as (H1 & _ & H3).
  split; [exact H|]. split; [exact H1|].
  apply (H3 "example.com/blank"
           {| status := 200; text := Return Samples.page_blank |}
           Samples.page_blank); reflexivity.
Defined.

(** ** Searching the stored articles *)

Section Search.

Lemma in_insert_desc (r x : Viewer.row) (l : list Viewer.row) :
  In x (Viewer.insert_desc r l) <-> x = r \/ In x l.
Proof.
  induction l as [|r' l IH]; simpl.
  - intuition.
  - destruct (String.leb _ _); simpl; [intuition|]. rewrite IH. intuition.
Qed.

Lemma in_order_desc (x : Viewer.row) (l : list Viewer.row) :
  In x (Viewer.order_desc l) <-> In x l.
Proof.
  induction l as [|r l IH]; simpl; [tauto|].
  rewrite in_insert_desc, IH. intuition.
Qed.

Lemma in_execute (table : list Viewer.row) (st : Viewer.statement)
  (r : Viewer.row) :
  In r (Viewer.execute table st)
  <-> In r table /\ Viewer.where_matches st r = true.
Proof. unfold Viewer.execute. rewrite in_order_desc. apply filter_In. Qed.

Lemma where_matches_columns (cols : list Viewer.column) (p : string)
  (r : Viewer.row) :
  Viewer.where_matches (map (fun c => (c, p)) cols) r = true
  <-> exists c v, In c cols /\ Viewer.column_value c r = Some v
                  /\ Viewer.like p v = true.
Proof.
  unfold Viewer.where_matches. rewrite existsb_exists. split.
  - intros ([c q] & Hin & H). apply in_map_iff in Hin.
    destruct Hin as (c' & Heq & Hc). injection Heq as -> ->. simpl in H.
    destruct (Viewer.column_value c r) as [v|] eqn:Hv; [|discriminate].
    exists c, v. auto.
  - intros (c & v & Hc & Hv & H). exists (c, p). split.
    + apply in_map_iff. exists c. auto.
    + simpl. rewrite Hv. exact H.
Qed.

Lemma search_recognised (table : list Viewer.row) (query field : string) :
  Viewer.recognised field = true ->
  let st := map (fun c => (c, Viewer.pattern_of query)) (Viewer.searched field)
  in Viewer.search_articles table query field
     = (Return (Viewer.execute table st), [st]).
Proof.
  unfold Viewer.recognised, Viewer.search_articles, Viewer.searched.
  cbn [existsb].
  destruct (String.eqb field "all"); [reflexivity|].
  destruct (String.eqb field "title"); [reflexivity|].
  destruct (String.eqb field "author"); [reflexivity|].
  destruct (String.eqb field "content"); [reflexivity|].
  destruct (String.eqb field "summary"); [reflexivity|].
  discriminate.
Qed.

Lemma search_unrecognised (table : list Viewer.row) (query field : string) :
  Viewer.recognised field = false ->
  Viewer.search_articles table query field
  = (Raise (ValueError ("Invalid field: " ++ field)), []).
Proof.
  unfold Viewer.recognised, Viewer.search_articles. cbn [existsb].
  destruct (String.eqb field "all"); [discriminate|].
  destruct (String.eqb field "title"); [discriminate|].
  destruct (String.eqb field "author"); [discriminate|].
  destruct (String.eqb field "content"); [discriminate|].
  destruct (String.eqb field "summary"); [discriminate|].
  reflexivity.
Qed.

Lemma like_percent (p s : string) :
  Viewer.like (String "%"%char p) s
  = Viewer.like p s
    || match s with
       | EmptyString => false
       | String _ s' => Viewer.like (String "%"%char p) s'
       end.
Proof. destruct s; reflexivity. Qed.

Lemma like_char (p c : ascii) (q s : string) :
  Ascii.eqb p "%"%char = false ->
  Viewer.like (String p q) (String c s)
  = (Ascii.eqb p "_"%char
     || Ascii.eqb (Viewer.fold_char p) (Viewer.fold_char c))
    && Viewer.like q s.
Proof. intros H. cbn [Viewer.like]. rewrite H. reflexivity. Qed.

Lemma like_char_empty (p : ascii) (q : string) :
  Ascii.eqb p "%"%char = false -> Viewer.like (String p q) EmptyString = false.
Proof. intros H. cbn [Viewer.like]. rewrite H. reflexivity. Qed.

Lemma like_any (s : string) : Viewer.like "%" s = true.
Proof.
  induction s as [|c s IH]; [reflexivity|].
  rewrite like_percent, IH. apply orb_true_r.
Qed.

Lemma prefix_cons (a c : ascii) (p s : string) :
  String.prefix (String a p) (String c s) = Ascii.eqb a c && String.prefix p s.
Proof.
  simpl. destruct (ascii_dec a c) as [->|Hne].
  - rewrite Ascii.eqb_refl. reflexivity.
  - apply Ascii.eqb_neq in Hne. rewrite Hne. reflexivity.
Qed.

(** A query without wildcards, followed by [%], matches the texts it is a
    prefix of, up to ASCII case. *)
Lemma like_prefix (q s : string) :
  Viewer.has_wildcard q = false ->
  Viewer.like (q ++ "%") s = String.prefix (Viewer.fold q) (Viewer.fold s).
Proof.
  revert s. induction q as [|p q IH]; intros s Hq.
  - cbn [append Viewer.fold]. rewrite like_any. destruct s; reflexivity.
  - unfold Viewer.has_wildcard in Hq. cbn [Str.has_char] in Hq.
    apply orb_false_iff in Hq. destruct Hq as [H1 H2].
    apply orb_false_iff in H1. destruct H1 as [Hp1 Hq1].
    apply orb_false_iff in H2. destruct H2 as [Hp2 Hq2].
    rewrite Ascii.eqb_sym in Hp1. rewrite Ascii.eqb_sym in Hp2.
    assert (Hq : Viewer.has_wildcard q = false)
      by (unfold Viewer.has_wildcard; rewrite Hq1, Hq2; reflexivity).
    cbn [append Viewer.fold]. destruct s as [|c s].
    + rewrite like_char_empty by exact Hp1. reflexivity.
    + rewrite like_char by exact Hp1. rewrite Hp2, (IH s Hq).
      cbn [Viewer.fold]. rewrite prefix_cons. reflexivity.
Qed.

Lemma contains_cons (sub : string) (c : ascii) (s : string) :
  Str.contains sub (String c s)
  = String.prefix sub (String c s) || Str.contains sub s.
Proof. reflexivity. Qed.

(** The pattern of a query without wildcards matches the texts that
    contain the query, up to ASCII case. *)
Lemma like_contains (q s : string) :
  Viewer.has_wildcard q = false ->
  Viewer.like (Viewer.pattern_of q) s
  = Str.contains (Viewer.fold q) (Viewer.fold s).
Proof.
  intros Hq. unfold Viewer.pattern_of. cbn [append].
  induction s as [|c s IH].
  - rewrite like_percent, (like_prefix q _ Hq).
    cbn [Viewer.fold Str.contains]. reflexivity.
  - rewrite like_percent, (like_prefix q _ Hq), IH.
    cbn [Viewer.fold]. rewrite contains_cons. reflexivity.
Qed.

(** C10, as the code has it. A field outside the five raises ValueError
    with no statement executed. For each of the five, one statement is
    executed, and the rows returned are exactly the rows of the table
    with a searched column that matches the LIKE pattern of the query;
    when the query holds neither [%] nor [_], these are the rows where a
    searched column contains the query as a substring up to the case of
    the ASCII letters. *)
Theorem search_articles_fields (table : list Viewer.row)
  (query field : string) :
  (Viewer.recognised field = false ->
   Viewer.search_articles table query field
   = (Raise (ValueError ("Invalid field: " ++ field)), []))
  /\ (Viewer.recognised field = true ->
      exists rows st,
        Viewer.search_articles table query field = (Return rows, [st])
        /\ (forall r,
              In r rows <->
              In r table
              /\ exists c v,
                   In c (Viewer.searched field)
                   /\ Viewer.column_value c r = Some v
                   /\ Viewer.like (Viewer.pattern_of query) v = true)
        /\ (Viewer.has_wildcard query = false ->
            forall r,
              In r rows <->
              In r table
              /\ exists c v,
                   In c (Viewer.searched field)
                   /\ Viewer.column_value c r = Some v
                   /\ Str.contains (Viewer.fold query) (Viewer.fold v) = true)).
Proof.
  split; [apply search_unrecognised|].
  intros Hrec. pose proof (search_recognised table query field Hrec) as H.
  cbv zeta in H. eexists. eexists. split; [exact H|].
  assert (Hrows : forall r,
    In r (Viewer.execute table
            (map (fun c => (c, Viewer.pattern_of query))
               (Viewer.searched field)))
    <-> In r table
        /\ exists c v,
             In c (Viewer.searched field)
             /\ Viewer.column_value c r = Some v
             /\ Viewer.like (Viewer.pattern_of query) v = true).
  { intros r. rewrite in_execute, where_matches_columns. reflexivity. }
  split; [exact Hrows|].
  intros Hq r. rewrite Hrows. split.
  - intros (Hin & c & v & Hc & Hv & Hl). split; [exact Hin|].
    exists c, v. rewrite <- (like_contains query v Hq). auto.
  - intros (Hin & c & v & Hc & Hv & Hl). split; [exact Hin|].
    exists c, v. rewrite (like_contains query v Hq). auto.
Qed.

(** C10 as stated fails: the query [a_c] on the title returns the row
    titled [abc], whose title does not contain [a_c]. *)
Lemma search_matches_wildcard :
  fst (Viewer.search_articles [Samples.row_abc] "a_c" "title")
  = Return [Samples.row_abc]
  /\ Str.contains "a_c" (Viewer.title Samples.row_abc) = false.
Proof. split; vm_compute; reflexivity. Qed.

End Search.

(** C10 at an unknown field and at the title of the sample row. *)
Lemma search_articles_fields_witness :
  Viewer.search_articles [Samples.row_abc] "abc" "body"
  = (Raise (ValueError "Invalid field: body"), [])
  /\ exists rows st,
       Viewer.search_articles [Samples.row_abc] "AB" "title"
       = (Return rows, [st])
       /\ In Samples.row_abc rows.
Proof.
  destruct (search_articles_fields [Samples.row_abc] "abc" "body") as [H1 _].
  split; [exact (H1 eq_refl)|].
  destruct (search_articles_fields [Samples.row_abc] "AB" "title") as [_ H2].
  destruct (H2 eq_refl) as (rows & st & Heq & _ & Hsub).
  exists rows, st. split; [exact Heq|].
  apply (Hsub eq_refl). split; [left; reflexivity|].
  exists Viewer.ColTitle, "abc". repeat split; try reflexivity.
  left. reflexivity.
Defined.

(** ** The scenarios of the specification, run on the model *)

Section Scenarios.

(** A heading, a byline and a content container of 300 characters. *)
Example scenario_article :
  let d := HtmlParser.parse Samples.page_article in
  _extract_title d "https://example.com/budget"
  = Return "Local Council Approves Budget"
  /\ _extract_author d = "Jane Doe"
  /\ _extract_main_content d = Samples.prose
  /\ Str.len Samples.prose = 300.
Proof. repeat split; vm_compute; reflexivity. Qed.

(** No heading, no meta tag, no content container: the paragraphs are the
    content, the title comes from the URL and the author is unknown. *)
Example scenario_paragraphs :
  let d :=
    HtmlParser.parse
      "<html><body><p>One paragraph of plain words to read.</p><p>Another paragraph follows the first one here.</p><p> A third. </p></body></html>" in
  _extract_title d "https://example.com/x"
  = Return "Article from example.com"
  /\ _extract_author d = "Unknown"
  /\ _extract_main_content d
     = "One paragraph of plain words to read. Another paragraph follows the first one here. A third.".
Proof. repeat split; vm_compute; reflexivity. Qed.

(** Each title candidate in its turn: the heading with the blanks around
    it stripped; the title element when the heading is short; the two
    meta tags by their [content] attribute; the second-level heading; a
    heading of more than 200 characters cut to 200; and a script inside
    the heading left out of its text. *)
Example scenario_titles :
  let url := "https://example.com/x" in
  _extract_title
    (HtmlParser.parse "<title>Site</title><h1>  Budget approved
</h1><h2>Other</h2>") url
  = Return "Budget approved"
  /\ _extract_title
       (HtmlParser.parse "<title>The Daily News</title><h1>Ok</h1>") url
     = Return "The Daily News"
  /\ _extract_title
       (HtmlParser.parse
          "<meta name='twitter:title' content='On Twitter'><meta property='og:title' content=' Open Graph '><h2>Second heading</h2>")
       url
     = Return "Open Graph"
  /\ _extract_title
       (HtmlParser.parse
          "<meta name='twitter:title' content='On Twitter'><meta property='og:title' content='og'><h2>Second heading</h2>")
       url
     = Return "On Twitter"
  /\ _extract_title
       (HtmlParser.parse "<title>abc</title><h2>Second heading</h2>") url
     = Return "Second heading"
  /\ _extract_title
       (HtmlParser.parse "<h1>abc<script>var title = 1;</script></h1><title>Page Title</title>")
       url
     = Return "Page Title"
  /\ _extract_title [Tag "h1" [] [Text (Samples.replicate 250 "a"%char)]] url
     = Return (Samples.replicate 200 "a"%char)
  /\ _extract_title
       (HtmlParser.parse "<meta property='og:title'>Words after the tag") url
     = Return "Article from example.com".
Proof. repeat split; vm_compute; reflexivity. Qed.

(** The title of last resort follows the URL as it is written: the user
    information and the port stay, a URL without two slashes has no
    network location, and a bracket left open is an error. *)
Example scenario_netloc :
  _extract_title [] "https://user:pw@Example.com:8080/a/b?q=1"
  = Return "Article from user:pw@Example.com:8080"
  /\ _extract_title [] "http://example.com" = Return "Article from example.com"
  /\ _extract_title [] "mailto:jane@example.com" = Return "Article from "
  /\ _extract_title [] "https://[::1]:8000/x" = Return "Article from [::1]:8000"
  /\ _extract_title [] "https://[bad/x"
     = Raise (ValueError "Invalid IPv6 URL").
Proof. repeat split; vm_compute; reflexivity. Qed.

(** A task that raises what [scrape_url] does not catch is left out like
    one that returned [None]. *)
Example scenario_raised_task :
  scrape_multiple_urls
    ["example.com/cancelled"; "example.com/budget"; "example.com/missing"] 5
  = Returns [Samples.budget_record].
Proof. vm_compute. reflexivity. Qed.

(** Without a slot no task ever starts; a negative limit is refused. *)
Example scenario_no_slot : scrape_multiple_urls batch 0 = Hangs.
Proof. vm_compute. reflexivity. Qed.

Example scenario_negative_limit :
  scrape_multiple_urls batch (-1)
  = Raises (ValueError "Semaphore initial value must be >= 0").
Proof. vm_compute. reflexivity. Qed.

(** With a working database the workflow stores the record and returns
    its id. *)
Example scenario_stored :
  fst (@process_articles fragment_library Samples.working_services
         "https://example.com/budget" 5
         (Samples.empty_world Samples.working_services []))
  = Return [1].
Proof. vm_compute. reflexivity. Qed.

End Scenarios.

(** * Further properties of the program *)

(** ** URLs, authors and content *)

Section ScraperFacts.
Context (lib : Library) (net : Network).

Lemma prefix_append (p s : string) : String.prefix p (p ++ s) = true.
Proof.
  induction p as [|c p IH]; simpl; [destruct s; reflexivity|].
  destruct (ascii_dec c c); congruence.
Qed.

Lemma clean_url_scheme (url : string) :
  Str.startswith "http://" (_clean_url url)
  || Str.startswith "https://" (_clean_url url) = true.
Proof.
  unfold _clean_url.
  destruct (Str.startswith "http://" url || Str.startswith "https://" url)
    eqn:Hs; cbn [negb]; [exact Hs|].
  unfold Str.startswith at 2. rewrite prefix_append. apply orb_true_r.
Qed.

(** X1. A cleaned URL starts with [http://] or [https://], and cleaning
    it again changes nothing. *)
Theorem clean_url_idempotent (url : string) :
  Str.startswith "http://" (_clean_url url)
  || Str.startswith "https://" (_clean_url url) = true
  /\ _clean_url (_clean_url url) = _clean_url url.
Proof.
  pose proof (clean_url_scheme url) as H.
  split; [exact H|].
  unfold _clean_url at 1. rewrite H. reflexivity.
Qed.

Lemma author_len_bounds (d : soup) : 0 < Str.len (_extract_author d) < 100.
Proof.
  unfold _extract_author.
  pose proof (meta_author_spec (Bs4.find_attr d "meta" "name" "author"))
    as H1.
  destruct (meta_author (Bs4.find_attr d "meta" "name" "author")) as [a|].
  { destruct H1 as (_ & Hne & Hlt). pose proof (len_nonneg a).
    assert (Str.len a <> 0) by (rewrite len_empty; exact Hne). lia. }
  pose proof (meta_author_spec
                (Bs4.find_attr d "meta" "property" "article:author")) as H2.
  destruct (meta_author (Bs4.find_attr d "meta" "property" "article:author"))
    as [a|].
  { destruct H2 as (_ & Hne & Hlt). pose proof (len_nonneg a).
    assert (Str.len a <> 0) by (rewrite len_empty; exact Hne). lia. }
  pose proof (author_by_selectors_spec d author_selectors) as H3.
  cbv zeta in H3.
  destruct (author_by_selectors d author_selectors) as [a|].
  - destruct H3 as (_ & _ & _ & [Hlen _] & _). lia.
  - vm_compute. split; reflexivity.
Qed.

(** X2. The author is never empty and always shorter than 100
    characters, whichever strategy gave it. *)
Theorem extract_author_bounds (d : soup) :
  _extract_author d <> EmptyString /\ 0 < Str.len (_extract_author d) < 100.
Proof.
  pose proof (author_len_bounds d) as H. split; [|exact H].
  intros Heq. rewrite Heq in H. change (Str.len "") with 0 in H. lia.
Qed.

Lemma title_len_positive (d : soup) (url t : string) :
  _extract_title d url = Return t -> 0 < Str.len t.
Proof.
  unfold _extract_title.
  pose proof (first_title_spec (title_candidates d)) as H. cbv zeta in H.
  destruct (first_title (title_candidates d)) as [t1|].
  - destruct H as (i & t0 & _ & Hlen & _ & ->). intros Heq.
    injection Heq as <-. rewrite len_slice_to by lia. lia.
  - destruct (urlparse_netloc url); [|discriminate].
    intros Heq. injection Heq as <-.
    unfold Str.len. cbn [append String.length]. lia.
Qed.

(** X3. Content extraction never returns the empty text: it returns the
    placeholder when nothing was found, and otherwise the first 10,000
    characters of what was found. *)
Theorem extract_main_content_never_empty (d : soup) :
  _extract_main_content d <> EmptyString
  /\ ((resolve_content d = EmptyString
       /\ _extract_main_content d = "No content extracted")
      \/ (resolve_content d <> EmptyString
          /\ String.prefix (_extract_main_content d) (resolve_content d) = true
          /\ Str.len (_extract_main_content d)
             = Z.min 10000 (Str.len (resolve_content d)))).
Proof.
  unfold _extract_main_content.
  destruct (resolve_content d) as [|c r] eqn:Hr; cbn [Str.truthy].
  - split; [discriminate|]. left. auto.
  - assert (Hlen : Str.len (Str.slice_to 10000 (String c r))
                   = Z.min 10000 (Str.len (String c r)))
      by (apply len_slice_to; lia).
    split.
    + intros Heq. rewrite Heq in Hlen. change (Str.len "") with 0 in Hlen.
      assert (0 < Str.len (String c r)).
      { unfold Str.len. cbn [String.length]. lia. }
      lia.
    + right. split; [discriminate|]. split; [apply slice_to_prefix|exact Hlen].
Qed.

Lemma best_candidate_long (d : soup) :
  best_candidate d = EmptyString \/ 100 < Str.len (best_candidate d).
Proof.
  unfold best_candidate.
  destruct (scan_selectors_keeps d content_selectors EmptyString []) as [H _].
  { split; [intros t []|]. left. split; [reflexivity|intros t []]. }
  cbn [app] in H. destruct H as [_ [[H _]|(l1 & l2 & _ & H & _)]]; auto.
Qed.

Lemma paragraph_fallback_grows (d : soup) (b : string) :
  Str.len b <= Str.len (paragraph_fallback d b).
Proof.
  unfold paragraph_fallback.
  destruct (negb (Str.truthy b) || (Str.len b <? 200)); [|lia].
  destruct (Str.len b <? Str.len (paragraph_text d)) eqn:H; [|lia].
  apply Z.ltb_lt in H. lia.
Qed.

Lemma body_fallback_keeps (d : soup) (b : string) :
  100 <= Str.len b -> body_fallback d b = b.
Proof.
  intros H. unfold body_fallback.
  assert (Ht : Str.truthy b = true).
  { destruct b; [change (Str.len "") with 0 in H; lia|reflexivity]. }
  rewrite Ht. apply Z.ltb_ge in H. rewrite H. reflexivity.
Qed.

(** X5. The fallbacks never shorten what the selector pass chose, and a
    choice of 200 characters or more is the content as it is. *)
Theorem resolve_content_keeps_best (d : soup) :
  let pruned := Bs4.decompose_all unwanted_tags d in
  Str.len (best_candidate pruned) <= Str.len (resolve_content d)
  /\ (200 <= Str.len (best_candidate pruned) ->
      resolve_content d = best_candidate pruned
      /\ _extract_main_content d = Str.slice_to 10000 (best_candidate pruned)).
Proof.
  intros pruned. unfold resolve_content. fold pruned.
  set (b := best_candidate pruned). split.
  - destruct (best_candidate_long pruned) as [H|H]; fold b in H.
    + rewrite H. change (Str.len "") with 0. apply len_nonneg.
    + pose proof (paragraph_fallback_grows pruned b) as Hg.
      rewrite body_fallback_keeps by lia. exact Hg.
  - intros H.
    assert (Hp : paragraph_fallback pruned b = b).
    { unfold paragraph_fallback.
      assert (Ht : Str.truthy b = true).
      { destruct b; [change (Str.len "") with 0 in H; lia|reflexivity]. }
      rewrite Ht. apply Z.ltb_ge in H. rewrite H. reflexivity. }
    assert (Hr : body_fallback pruned (paragraph_fallback pruned b) = b).
    { rewrite Hp. apply body_fallback_keeps. lia. }
    split; [exact Hr|].
    unfold _extract_main_content, resolve_content. fold pruned. fold b.
    rewrite Hr.
    destruct b; [change (Str.len "") with 0 in H; lia|reflexivity].
Qed.

(** X6. A record returned by [scrape_url] is the extraction of a page
    fetched with status 200: its URL is the cleaned URL, which starts
    with [http://] or [https://]; its title is not empty; its author is
    not empty and shorter than 100 characters; and it has no summary. *)
Theorem scrape_url_record (url : string) (r : article) :
  scrape_url url = Return (Some r) ->
  source_url r = _clean_url url
  /\ Str.startswith "http://" (source_url r)
     || Str.startswith "https://" (source_url r) = true
  /\ 0 < Str.len (title r)
  /\ 0 < Str.len (author r) < 100
  /\ summary r = None
  /\ exists html,
       _extract_title (BeautifulSoup html) (_clean_url url) = Return (title r)
       /\ author r = _extract_author (BeautifulSoup html)
       /\ content r = _extract_main_content (BeautifulSoup html)
       /\ session_get (_clean_url url)
          = Return {| status := 200; text := Return html |}.
Proof.
  unfold scrape_url, scrape_except.
  destruct (session_get (_clean_url url)) as [[st tx]|e]; cbn [status text].
  - destruct (st =? 200) eqn:Hst; cbn [negb]; [|discriminate].
    apply Z.eqb_eq in Hst. subst st.
    destruct tx as [html|e].
    + destruct (_extract_title (BeautifulSoup html) (_clean_url url))
        as [t|e] eqn:Htitle;
        [|fold (scrape_except e);
          rewrite (extract_title_raise_caught _ _ _ _ Htitle); discriminate].
      destruct (negb _ || _); [discriminate|].
      intros H. injection H as <-.
      cbn [source_url summary title author content].
      split; [reflexivity|]. split; [apply clean_url_scheme|].
      split; [exact (title_len_positive _ _ _ Htitle)|].
      split; [apply author_len_bounds|].
      split; [reflexivity|]. exists html. auto.
    + destruct (is_TimeoutError e); [discriminate|].
      destruct (is_Exception e); discriminate.
  - destruct (is_TimeoutError e); [discriminate|].
    destruct (is_Exception e); discriminate.
Qed.

(** X7. [scrape_url] answers [None] to a status other than 200 and to
    any [Exception] of the request or of reading the body; what it raises
    is never an [Exception]. *)
Theorem scrape_url_failures (url : string) :
  (forall resp, session_get (_clean_url url) = Return resp ->
                status resp <> 200 -> scrape_url url = Return None)
  /\ (forall e, session_get (_clean_url url) = Raise e ->
                is_Exception e = true -> scrape_url url = Return None)
  /\ (forall resp e, session_get (_clean_url url) = Return resp ->
                     text resp = Raise e -> is_Exception e = true ->
                     scrape_url url = Return None)
  /\ (forall e, scrape_url url = Raise e -> is_Exception e = false).
Proof.
  unfold scrape_url, scrape_except. repeat split.
  - intros resp -> Hst. apply Z.eqb_neq in Hst. rewrite Hst. reflexivity.
  - intros e -> He. rewrite He. destruct (is_TimeoutError e); reflexivity.
  - intros resp e -> Ht He. rewrite Ht, He.
    destruct (negb (status resp =? 200)); [reflexivity|].
    destruct (is_TimeoutError e); reflexivity.
  - intros e.
    destruct (session_get (_clean_url url)) as [resp|e0].
    + destruct (negb (status resp =? 200)); [discriminate|].
      destruct (text resp) as [html|e0].
      * destruct (_extract_title (BeautifulSoup html) (_clean_url url))
          as [t|e0] eqn:Htitle.
        -- destruct (negb _ || _); discriminate.
        -- fold (scrape_except e0).
           rewrite (extract_title_raise_caught _ _ _ _ Htitle). discriminate.
      * destruct (is_TimeoutError e0); [discriminate|].
        destruct (is_Exception e0) eqn:He0; [discriminate|].
        intros H. injection H as <-. exact He0.
    + destruct (is_TimeoutError e0); [discriminate|].
      destruct (is_Exception e0) eqn:He0; [discriminate|].
      intros H. injection H as <-. exact He0.
Qed.

End ScraperFacts.

(** X5 at the sample page, whose content container holds 300 characters. *)
Lemma resolve_content_keeps_best_witness :
  200 <= Str.len (best_candidate
                    (Bs4.decompose_all unwanted_tags
                       (HtmlParser.parse Samples.page_article)))
  /\ resolve_content (HtmlParser.parse Samples.page_article) = Samples.prose.
Proof.
  assert (H : 200 <= Str.len (best_candidate
                                (Bs4.decompose_all unwanted_tags
                                   (HtmlParser.parse Samples.page_article))))
    by (vm_compute; discriminate).
  split; [exact H|].
  rewrite (proj1 (proj2 (resolve_content_keeps_best
                           (HtmlParser.parse Samples.page_article)) H)).
  vm_compute. reflexivity.
Defined.

(** X6 at the sample network. *)
Lemma scrape_url_record_witness :
  scrape_url "example.com/budget" = Return (Some Samples.budget_record)
  /\ source_url Samples.budget_record = _clean_url "example.com/budget".
Proof.
  assert (H : scrape_url "example.com/budget"
              = Return (Some Samples.budget_record))
    by (vm_compute; reflexivity).
  split; [exact H|].
  exact (proj1 (scrape_url_record fragment_library Samples.demo_network
                  "example.com/budget" Samples.budget_record H)).
Defined.

(** X7 at the sample network: a page that is missing. *)
Lemma scrape_url_failures_witness :
  scrape_url "example.com/missing" = Return None.
Proof.
  apply (proj1 (scrape_url_failures fragment_library Samples.demo_network
                  "example.com/missing")
           {| status := 404; text := Return EmptyString |}).
  - reflexivity.
  - discriminate.
Defined.

(** ** Removing the unwanted elements *)

Section Decompose.

Lemma node_induction (P : node -> Prop) :
  (forall s, P (Text s)) ->
  (forall c s, P (Special c s)) ->
  (forall nm attrs cs, Forall P cs -> P (Tag nm attrs cs)) ->
  forall n, P n.
Proof.
  intros HText HSpecial HTag. fix IH 1. intros [s|c s|nm attrs cs].
  - apply HText.
  - apply HSpecial.
  - apply HTag. induction cs as [|c cs IHcs]; constructor.
    + apply IH.
    + exact IHcs.
Qed.

Lemma decompose_tags (names : list string) (n : node) :
  Forall (fun t => existsb (String.eqb (Bs4.tag_name t)) names = false)
    (flat_map Bs4.tags (Bs4.decompose names n)).
Proof.
  induction n as [s|c s|nm attrs cs IH] using node_induction.
  - constructor.
  - constructor.
  - cbn [Bs4.decompose].
    destruct (existsb (String.eqb nm) names) eqn:Hnm; [constructor|].
    cbn [flat_map Bs4.tags]. rewrite app_nil_r. constructor; [exact Hnm|].
    induction IH as [|c cs Hc _ IHcs]; [constructor|].
    cbn [flat_map]. rewrite flat_map_app. apply Forall_app. auto.
Qed.

Lemma decompose_kept (names : list string) (n : node) :
  Forall (fun t => existsb (String.eqb (Bs4.tag_name t)) names = false)
    (Bs4.tags n) ->
  Bs4.decompose names n = [n].
Proof.
  induction n as [s|c s|nm attrs cs IH] using node_induction;
    [reflexivity|reflexivity|].
  cbn [Bs4.tags Bs4.decompose]. intros H. inversion H as [|t ts Hnm Hcs]; subst.
  cbn [Bs4.tag_name] in Hnm. rewrite Hnm. do 2 f_equal.
  clear H Hnm. induction IH as [|c cs Hc _ IHcs]; [reflexivity|].
  cbn [flat_map] in *. apply Forall_app in Hcs. destruct Hcs as [H1 H2].
  rewrite (Hc H1), (IHcs H2). reflexivity.
Qed.

Lemma decompose_all_kept (names : list string) (d : soup) :
  Forall (fun t => existsb (String.eqb (Bs4.tag_name t)) names = false)
    (Bs4.all_tags d) ->
  Bs4.decompose_all names d = d.
Proof.
  unfold Bs4.all_tags, Bs4.decompose_all.
  induction d as [|n d IH]; [reflexivity|].
  cbn [flat_map]. intros H. apply Forall_app in H. destruct H as [H1 H2].
  rewrite (decompose_kept names n H1), (IH H2). reflexivity.
Qed.

Lemma decompose_all_tags (names : list string) (d : soup) :
  Forall (fun t => existsb (String.eqb (Bs4.tag_name t)) names = false)
    (Bs4.all_tags (Bs4.decompose_all names d)).
Proof.
  unfold Bs4.all_tags, Bs4.decompose_all.
  induction d as [|n d IH]; [constructor|].
  cbn [flat_map]. rewrite flat_map_app. apply Forall_app. split; [|exact IH].
  apply decompose_tags.
Qed.

(** X4. After the unwanted elements are removed no tag of the document
    has one of their names, so a search for such a name finds nothing;
    and removing them again changes nothing. *)
Theorem decompose_all_removes (names : list string) (d : soup) :
  Forall (fun t => existsb (String.eqb (Bs4.tag_name t)) names = false)
    (Bs4.all_tags (Bs4.decompose_all names d))
  /\ Forall (fun nm => Bs4.find_all (Bs4.decompose_all names d) nm = [])
       names
  /\ Bs4.decompose_all names (Bs4.decompose_all names d)
     = Bs4.decompose_all names d.
Proof.
  pose proof (decompose_all_tags names d) as H.
  split; [exact H|]. split; [|apply decompose_all_kept; exact H].
  apply Forall_forall. intros nm Hnm. unfold Bs4.find_all.
  induction H as [|t ts Ht _ IH]; [reflexivity|].
  cbn [filter]. destruct (String.eqb (Bs4.tag_name t) nm) eqn:Heq; [|exact IH].
  apply String.eqb_eq in Heq. subst nm.
  assert (Hin : existsb (String.eqb (Bs4.tag_name t)) names = true).
  { apply existsb_exists. exists (Bs4.tag_name t).
    split; [exact Hnm|apply String.eqb_refl]. }
  congruence.
Qed.

End Decompose.

(** ** Every run of the dispatcher *)

Section DispatcherRuns.
Context (lib : Library) (net : Network).

(** X8. With at least one slot the dispatcher is never stuck: in every
    state it can reach, either all tasks have ended or some task can
    move. *)
Theorem dispatcher_never_stuck (urls : list string) (k : Z) (s : dispatch) :
  1 <= k ->
  steps (init k urls) s ->
  gathered (tasks s) = None ->
  exists s', step s s'.
Proof.
  intros Hk Hsteps Hnone.
  destruct (steps_invariant lib net k urls s ltac:(lia) Hsteps)
    as (Hsum & Hpos & _).
  destruct (next_progress lib net k s Hk Hsum Hpos Hnone) as (s' & _ & H & _).
  exists s'. exact H.
Qed.

Lemma step_measure (s s' : dispatch) :
  step s s' ->
  2 * queued (tasks s') + in_flight (tasks s') + 1
  = 2 * queued (tasks s) + in_flight (tasks s).
Proof.
  intros [v before url after Hv|v before url after]; cbn [tasks];
    rewrite !queued_app, !in_flight_app; cbn [queued in_flight]; lia.
Qed.

(** X9. Every move takes one from twice the number of waiting tasks plus
    the number of running ones: after [n] moves this stands at twice the
    number of URLs less [n], so no run has more than two moves per URL. *)
Theorem dispatcher_moves_bounded (urls : list string) (k : Z) (n : nat)
  (s : dispatch) :
  moves n (init k urls) s ->
  Z.of_nat n + 2 * queued (tasks s) + in_flight (tasks s)
  = 2 * Z.of_nat (List.length urls)
  /\ (n <= 2 * List.length urls)%nat.
Proof.
  intros Hm.
  assert (H : Z.of_nat n + 2 * queued (tasks s) + in_flight (tasks s)
              = 2 * Z.of_nat (List.length urls)).
  { remember (init k urls) as s0 eqn:Hs0.
    induction Hm as [s|n s1 s2 s3 H12 IH H23].
    - subst s. cbn [init tasks]. rewrite init_queued, init_in_flight. lia.
    - specialize (IH Hs0). apply step_measure in H23. lia. }
  split; [exact H|].
  pose proof (queued_nonneg (tasks s)). pose proof (in_flight_nonneg (tasks s)).
  lia.
Qed.

Lemma gathered_queued (url : string) (urls : list string) :
  gathered (map Queued (url :: urls)) = None.
Proof. reflexivity. Qed.

Lemma finish_first_queued (urls : list string) :
  finish_first (map Queued urls) = None.
Proof.
  induction urls as [|u us IH]; [reflexivity|].
  cbn [map finish_first]. rewrite IH. reflexivity.
Qed.

(** X10. An empty batch returns the empty list under any limit that is
    not negative. With a limit of zero and at least one URL no task can
    ever move, and the batch scrape never returns. *)
Theorem scrape_multiple_urls_edges :
  (forall k, 0 <= k -> scrape_multiple_urls [] k = Returns [])
  /\ (forall url urls,
        scrape_multiple_urls (url :: urls) 0 = Hangs
        /\ forall s, ~ step (init 0 (url :: urls)) s).
Proof.
  split.
  - intros k Hk. unfold scrape_multiple_urls.
    apply Z.ltb_ge in Hk. rewrite Hk. reflexivity.
  - intros url urls. split.
    + unfold scrape_multiple_urls. change (0 <? 0) with false. cbv iota.
      destruct (2 * List.length (url :: urls))%nat as [|fuel] eqn:Hfuel;
        [cbn in Hfuel; discriminate|].
      cbn [run init tasks]. rewrite gathered_queued.
      unfold next, init. cbn [value tasks].
      change (0 <? 0) with false. cbv iota.
      rewrite finish_first_queued. reflexivity.
    + intros s Hstep. remember (init 0 (url :: urls)) as s0 eqn:Hs0.
      destruct Hstep as [v before u after Hv|v before u after];
        pose proof (f_equal value Hs0) as Hvalue;
        pose proof (f_equal tasks Hs0) as Htasks;
        cbn [value tasks init] in Hvalue, Htasks.
      * lia.
      * apply (f_equal in_flight) in Htasks.
        rewrite in_flight_app, init_in_flight in Htasks.
        cbn [in_flight] in Htasks.
        pose proof (in_flight_nonneg before).
        pose proof (in_flight_nonneg after). lia.
Qed.

End DispatcherRuns.

(** X8 at one slot and one URL, before any move. *)
Lemma dispatcher_never_stuck_witness :
  exists s', step (init 1 ["a.example"]) s'.
Proof.
  apply (dispatcher_never_stuck fragment_library Samples.demo_network
           ["a.example"] 1 (init 1 ["a.example"])).
  - lia.
  - apply steps_refl.
  - reflexivity.
Defined.

(** X9 after the first move of two URLs under one slot. *)
Lemma dispatcher_moves_bounded_witness : (1 <= 2 * 2)%nat.
Proof.
  refine (proj2 (dispatcher_moves_bounded fragment_library
                   Samples.demo_network ["a.example"; "b.example"] 1 1
                   {| value := 0;
                      tasks := [InFlight "a.example"; Queued "b.example"] |}
                   _)).
  eapply moves_more; [apply moves_none|].
  apply (step_acquire 1 [] "a.example" [Queued "b.example"]). lia.
Defined.

(** ** The shape of normalised text *)

Section NormalForm.
Context (lib : Library).

(** X11. Normalised text has no blank at either end, every whitespace
    character in it is one space between two other characters, and
    lowering its case changes nothing. *)
Theorem preprocess_text_normal_form (x : string) :
  Str.strip (preprocess_text x) = preprocess_text x
  /\ spaced false (preprocess_text x) = true
  /\ Str.lower (preprocess_text x) = preprocess_text x.
Proof.
  unfold preprocess_text.
  destruct (negb (Str.truthy x)); [repeat split|].
  set (g := Bs4.soup_text (BeautifulSoup x)).
  pose proof (tidy_spaced g) as Hz.
  destruct (pipeline_fixed g) as [_ Hstrip]. cbv zeta in Hstrip.
  split; [exact Hstrip|]. split.
  - unfold Str.sub_newlines. rewrite (spaced_sub_newlines _ _ _ Hz).
    rewrite spaced_lower. exact Hz.
  - apply lower_idem.
Qed.

End NormalForm.

(** ** Summaries *)

Section Summaries.

Lemma terminator_not_space (c : ascii) :
  is_terminator c = true -> Str.isspace c = false.
Proof.
  destruct c as [[] [] [] [] [] [] [] []]; intros H;
    first [reflexivity | discriminate H].
Qed.

Lemma spaced_no_newline (r : ascii) (b b' : bool) (s : string) :
  spaced b s = true -> Str.sub_run Str.is_newline r b' s = s.
Proof.
  revert b b'. induction s as [|c s IH]; intros b b'; simpl; auto.
  destruct (Str.is_newline c) eqn:Hn.
  - apply newline_space in Hn. destruct Hn as [H1 H2]. rewrite H1, H2.
    discriminate.
  - destruct (Str.isspace c).
    + intros H. apply andb_true_iff in H. destruct H as [_ H].
      rewrite (IH true false H). reflexivity.
    + intros H. rewrite (IH false false H). reflexivity.
Qed.

Lemma squeeze_spaced (s : string) :
  spaced false (squeeze s) = true /\ Str.strip (squeeze s) = squeeze s.
Proof.
  unfold squeeze. pose proof (tidy_spaced s) as H.
  rewrite (spaced_no_newline _ _ _ _ H). split; [exact H|apply strip_idem].
Qed.

Lemma squeeze_fixed (t : string) :
  spaced false t = true -> Str.strip t = t -> squeeze t = t.
Proof.
  intros Hs Ht. unfold squeeze, Str.sub_spaces.
  rewrite (spaced_sub_spaces _ _ Hs), Ht. apply (spaced_no_newline _ _ _ _ Hs).
Qed.

Lemma re_split_cons (p : ascii -> bool) (s : string) :
  exists h tl, Py.re_split p s = h :: tl.
Proof.
  induction s as [|c s IH]; cbn [Py.re_split]; [eauto|].
  destruct IH as (h & tl & ->).
  destruct (p c); [destruct (Py.starts_with p s)|]; eauto.
Qed.

Lemma re_split_no_terminator (s : string) :
  Forall (fun x => Str.search_class ".!?" x = false)
    (Py.re_split is_terminator s).
Proof.
  induction s as [|c s IH]; cbn [Py.re_split].
  - constructor; [reflexivity|constructor].
  - destruct (is_terminator c) eqn:Hc.
    + destruct (Py.starts_with is_terminator s); [exact IH|].
      constructor; [reflexivity|exact IH].
    + destruct (Py.re_split is_terminator s) as [|h tl].
      * constructor; [|constructor]. cbn [Str.search_class].
        unfold is_terminator in Hc. rewrite Hc. reflexivity.
      * inversion IH as [|x l Hh Htl]; subst. constructor; [|exact Htl].
        cbn [Str.search_class]. unfold is_terminator in Hc.
        rewrite Hc, Hh. reflexivity.
Qed.

Lemma re_split_starts (p : ascii -> bool) (s : string) :
  Py.starts_with p s = true -> exists tl, Py.re_split p s = EmptyString :: tl.
Proof.
  induction s as [|c s IH]; cbn [Py.starts_with Py.re_split]; [discriminate|].
  intros Hc. rewrite Hc.
  destruct (Py.starts_with p s) eqn:Hs; [apply IH; reflexivity|eauto].
Qed.

Lemma spaced_weaken (b : bool) (s : string) :
  spaced b s = true -> spaced false s = true.
Proof.
  destruct s as [|c s]; cbn [spaced]; auto.
  destruct (Str.isspace c); auto.
  intros H. apply andb_true_iff in H. destruct H as [H H3].
  apply andb_true_iff in H. destruct H as [H1 _]. rewrite H1, H3. reflexivity.
Qed.

Lemma re_split_spaced (b : bool) (s : string) :
  spaced b s = true ->
  exists h tl,
    Py.re_split is_terminator s = h :: tl
    /\ spaced b h = true
    /\ Forall (fun x => spaced false x = true) tl.
Proof.
  revert b. induction s as [|c s IH]; intros b; cbn [Py.re_split spaced].
  - intros _. exists EmptyString, []. auto.
  - destruct (is_terminator c) eqn:Hc.
    + rewrite (terminator_not_space c Hc). intros H.
      destruct (IH false H) as (h & tl & Heq & Hh & Htl).
      destruct (Py.starts_with is_terminator s) eqn:Hs.
      * destruct (re_split_starts _ _ Hs) as (tl' & Heq').
        rewrite Heq' in Heq. injection Heq as <- <-.
        exists EmptyString, tl'. rewrite Heq'. auto.
      * exists EmptyString, (h :: tl). rewrite Heq. auto.
    + destruct (Str.isspace c) eqn:Hsp.
      * intros H. apply andb_true_iff in H. destruct H as [H12 H3].
        destruct (IH true H3) as (h & tl & -> & Hh & Htl).
        exists (String c h), tl. cbn [spaced]. rewrite Hsp, H12, Hh. auto.
      * intros H. destruct (IH false H) as (h & tl & -> & Hh & Htl).
        exists (String c h), tl. cbn [spaced]. rewrite Hsp, Hh. auto.
Qed.

Lemma search_lstrip (set s : string) :
  Str.search_class set s = false ->
  Str.search_class set (Str.lstrip s) = false.
Proof.
  induction s as [|c s IH]; cbn [Str.lstrip]; auto.
  destruct (Str.isspace c); auto.
  cbn [Str.search_class]. intros H. apply orb_false_iff in H. apply IH, H.
Qed.

Lemma search_rstrip (set s : string) :
  Str.search_class set s = false ->
  Str.search_class set (Str.rstrip s) = false.
Proof.
  induction s as [|c s IH]; [auto|]. rewrite rstrip_cons.
  cbn [Str.search_class]. intros H. apply orb_false_iff in H.
  destruct H as [Hc Hs]. specialize (IH Hs).
  destruct (Str.rstrip s) as [|d r].
  - destruct (Str.isspace c); [reflexivity|].
    cbn [Str.search_class]. rewrite Hc. reflexivity.
  - change (Str.search_class set (String c (String d r)))
      with (Str.has_char c set || Str.search_class set (String d r)).
    rewrite Hc, IH. reflexivity.
Qed.

Lemma sentences_clean (t : string) :
  spaced false t = true -> Forall clean_sentence (sentences_of t).
Proof.
  intros Ht. apply Forall_forall. intros y Hy. unfold sentences_of in Hy.
  apply in_map_iff in Hy. destruct Hy as (x & <- & Hx).
  apply filter_In in Hx. destruct Hx as [Hin Htruthy].
  assert (Hsp : spaced false x = true).
  { destruct (re_split_spaced false t Ht) as (h & tl & Heq & Hh & Htl).
    rewrite Heq in Hin. destruct Hin as [<-|Hin]; [exact Hh|].
    rewrite Forall_forall in Htl. apply Htl, Hin. }
  assert (Hno : Str.search_class ".!?" x = false).
  { pose proof (re_split_no_terminator t) as H.
    rewrite Forall_forall in H. apply H, Hin. }
  repeat split.
  - apply truthy_true. exact Htruthy.
  - apply strip_idem.
  - unfold Str.strip. apply spaced_rstrip.
    apply (spaced_lstrip false false). exact Hsp.
  - unfold Str.strip. apply search_rstrip, search_lstrip. exact Hno.
Qed.

Lemma limit_firstn (m : Z) (l : list string) :
  0 <= m -> limit_sentences m l = firstn (Z.to_nat m) l.
Proof.
  intros Hm. unfold limit_sentences, list_slice_to.
  destruct (m <? Z.of_nat (List.length l)) eqn:Hlt.
  - apply Z.ltb_ge in Hm. rewrite Hm. reflexivity.
  - apply Z.ltb_ge in Hlt. symmetry. apply firstn_all2. lia.
Qed.

Lemma limit_short (m : Z) (l : list string) :
  Z.of_nat (List.length l) <= m -> limit_sentences m l = l.
Proof.
  intros H. unfold limit_sentences. apply Z.ltb_ge in H. rewrite H.
  reflexivity.
Qed.

Lemma forall_firstn (P : string -> Prop) (n : nat) (l : list string) :
  Forall P l -> Forall P (firstn n l).
Proof.
  revert l. induction n as [|n IH]; intros l Hl; [constructor|].
  destruct Hl as [|x l Hx Hl]; constructor; auto.
Qed.

Lemma limit_facts (m : Z) (l : list string) :
  0 <= m -> Forall clean_sentence l ->
  Forall clean_sentence (limit_sentences m l)
  /\ Z.of_nat (List.length (limit_sentences m l)) <= m.
Proof.
  intros Hm Hl. rewrite (limit_firstn m l Hm). split.
  - apply forall_firstn. exact Hl.
  - rewrite length_firstn. lia.
Qed.

Lemma str_app_assoc (a b c : string) : (a ++ b) ++ c = a ++ (b ++ c).
Proof. induction a as [|x a IH]; simpl; congruence. Qed.

Lemma sentence_text_join (l : list string) :
  l <> [] -> Str.join ". " l ++ "." = sentence_text l.
Proof.
  induction l as [|x l IH]; [congruence|]. intros _.
  destruct l as [|y l]; [reflexivity|].
  change (Str.join ". " (x :: y :: l))
    with (x ++ ". " ++ Str.join ". " (y :: l)).
  change (sentence_text (x :: y :: l))
    with (x ++ ". " ++ sentence_text (y :: l)).
  rewrite <- IH by discriminate.
  rewrite !str_app_assoc. reflexivity.
Qed.

Lemma spaced_append (b : bool) (x : string) (c : ascii) (u : string) :
  Str.isspace c = false ->
  spaced b (x ++ String c u) = spaced b x && spaced false u.
Proof.
  intros Hc. revert b. induction x as [|d x IH]; intros b; cbn [append spaced].
  - rewrite Hc. reflexivity.
  - destruct (Str.isspace d); rewrite IH; [|reflexivity].
    rewrite !andb_assoc. reflexivity.
Qed.

Lemma spaced_flag (b : bool) (s : string) :
  starts_clean s = true -> spaced b s = spaced false s.
Proof.
  destruct s as [|c s]; cbn [starts_clean spaced]; auto.
  intros H. apply negb_true_iff in H. rewrite H. reflexivity.
Qed.

Lemma clean_starts (x : string) : clean_sentence x -> starts_clean x = true.
Proof. intros (_ & H & _). rewrite <- H. apply strip_clean. Qed.

Lemma starts_clean_append (x u : string) :
  x <> EmptyString -> starts_clean x = true -> starts_clean (x ++ u) = true.
Proof. destruct x; [congruence|auto]. Qed.

Lemma sentence_text_spaced (l : list string) :
  Forall clean_sentence l -> l <> [] ->
  spaced false (sentence_text l) = true
  /\ starts_clean (sentence_text l) = true.
Proof.
  induction l as [|x l IH]; [congruence|]. intros Hl _.
  inversion Hl as [|x' l' Hx Hrest]; subst.
  pose proof (clean_starts x Hx) as Hstart.
  destruct Hx as (Hne & Hstrip & Hsp & Hno).
  destruct l as [|y l].
  - cbn [sentence_text]. split.
    + rewrite spaced_append by reflexivity. rewrite Hsp. reflexivity.
    + apply starts_clean_append; assumption.
  - change (sentence_text (x :: y :: l))
      with (x ++ String "." (String " " (sentence_text (y :: l)))).
    destruct (IH Hrest ltac:(discriminate)) as [IH1 IH2]. split.
    + rewrite spaced_append by reflexivity. rewrite Hsp.
      cbn [spaced andb]. change (Str.isspace " ") with true. cbv iota.
      rewrite (spaced_flag true _ IH2), IH1. reflexivity.
    + apply starts_clean_append; assumption.
Qed.

Lemma rstrip_end (c : ascii) (s : string) :
  Str.isspace c = false ->
  Str.rstrip (s ++ String c EmptyString) = s ++ String c EmptyString.
Proof.
  intros Hc. induction s as [|d s IH]; cbn [append].
  - rewrite rstrip_cons. cbn [Str.rstrip]. rewrite Hc. reflexivity.
  - rewrite rstrip_cons, IH. destruct s; reflexivity.
Qed.

Lemma re_split_sentence (x u : string) :
  Str.search_class ".!?" x = false ->
  Py.starts_with is_terminator u = false ->
  Py.re_split is_terminator (x ++ String "." u)
  = x :: Py.re_split is_terminator u.
Proof.
  intros Hx Hu. induction x as [|d x IH]; cbn [append Py.re_split].
  - change (is_terminator ".") with true. cbv iota. rewrite Hu. reflexivity.
  - cbn [Str.search_class] in Hx. apply orb_false_iff in Hx.
    destruct Hx as [Hd Hx]. unfold is_terminator at 1. rewrite Hd.
    rewrite (IH Hx). reflexivity.
Qed.

Lemma sentences_of_sentence (x u : string) :
  clean_sentence x ->
  Py.starts_with is_terminator u = false ->
  sentences_of (x ++ String "." u) = x :: sentences_of u.
Proof.
  intros (Hne & Hstrip & _ & Hno) Hu. unfold sentences_of.
  rewrite (re_split_sentence x u Hno Hu). cbn [filter]. rewrite Hstrip.
  apply truthy_true in Hne. rewrite Hne. cbn [map]. rewrite Hstrip.
  reflexivity.
Qed.

Lemma sentences_of_space (r : string) :
  sentences_of (String " " r) = sentences_of r.
Proof.
  unfold sentences_of. cbn [Py.re_split].
  change (is_terminator " ") with false. cbv iota.
  destruct (re_split_cons is_terminator r) as (h & tl & ->).
  cbn [filter].
  assert (H : Str.strip (String " " h) = Str.strip h) by reflexivity.
  rewrite H. destruct (Str.truthy (Str.strip h)); cbn [map]; rewrite ?H;
    reflexivity.
Qed.

Lemma sentences_of_text (l : list string) :
  Forall clean_sentence l -> sentences_of (sentence_text l) = l.
Proof.
  induction l as [|x l IH]; [reflexivity|]. intros Hl.
  inversion Hl as [|x' l' Hx Hrest]; subst.
  destruct l as [|y l].
  - cbn [sentence_text].
    rewrite (sentences_of_sentence x EmptyString Hx eq_refl). reflexivity.
  - change (sentence_text (x :: y :: l))
      with (x ++ String "." (String " " (sentence_text (y :: l)))).
    rewrite (sentences_of_sentence x
               (String " " (sentence_text (y :: l))) Hx eq_refl).
    rewrite sentences_of_space, (IH Hrest). reflexivity.
Qed.

Lemma has_char_append (c : ascii) (a b : string) :
  Str.has_char c (a ++ b) = Str.has_char c a || Str.has_char c b.
Proof.
  induction a as [|d a IH]; cbn [append Str.has_char]; [reflexivity|].
  rewrite IH. apply orb_assoc.
Qed.

Lemma search_has_char (c : ascii) (set x : string) :
  Str.has_char c set = true -> Str.search_class set x = false ->
  Str.has_char c x = false.
Proof.
  intros Hc. induction x as [|d x IH]; cbn [Str.search_class Str.has_char];
    [reflexivity|].
  intros H. apply orb_false_iff in H. destruct H as [Hd Hx].
  rewrite (IH Hx), orb_false_r. apply Ascii.eqb_neq. intros ->. congruence.
Qed.

Lemma sentence_text_marks (c : ascii) (l : list string) :
  Str.has_char c ".!?" = true -> Ascii.eqb c "."%char = false ->
  Ascii.eqb c " "%char = false ->
  Forall clean_sentence l -> Str.has_char c (sentence_text l) = false.
Proof.
  intros Hset Hdot Hsp. induction l as [|x l IH]; [reflexivity|]. intros Hl.
  inversion Hl as [|x' l' Hx Hrest]; subst.
  destruct Hx as (_ & _ & _ & Hno).
  pose proof (search_has_char c _ x Hset Hno) as Hcx.
  destruct l as [|y l].
  - cbn [sentence_text]. rewrite has_char_append, Hcx.
    cbn [Str.has_char]. rewrite Hdot. reflexivity.
  - change (sentence_text (x :: y :: l))
      with (x ++ String "." (String " " (sentence_text (y :: l)))).
    rewrite has_char_append, Hcx. cbn [Str.has_char].
    rewrite Hdot, Hsp, (IH Hrest). reflexivity.
Qed.

Lemma postprocess_nonempty (c : ascii) (s : string) (m : Z) :
  postprocess_summary (String c s) m
  = match limit_sentences m (sentences_of (squeeze (String c s))) with
    | [] => squeeze (String c s)
    | x :: l => Str.join ". " (x :: l) ++ "."
    end.
Proof.
  unfold postprocess_summary. cbn [Str.truthy negb].
  destruct (limit_sentences m (sentences_of (squeeze (String c s))));
    reflexivity.
Qed.

(** X12. With a limit that is not negative, a summary with at least one
    sentence comes back as at most that many sentences, each one stripped,
    single-spaced and free of [.], [!] and [?], each followed by a full
    stop and separated by one space; the result holds no [!] and no [?].
    A summary without a sentence comes back with its whitespace squeezed. *)
Theorem postprocess_summary_shape (summary : string) (m : Z) :
  0 <= m ->
  (postprocess_summary summary m = squeeze summary
   /\ limit_sentences m (sentences_of (squeeze summary)) = [])
  \/ (exists l,
        l <> []
        /\ Z.of_nat (List.length l) <= m
        /\ Forall clean_sentence l
        /\ postprocess_summary summary m = sentence_text l
        /\ Str.has_char "!"%char (postprocess_summary summary m) = false
        /\ Str.has_char "?"%char (postprocess_summary summary m) = false).
Proof.
  intros Hm. unfold postprocess_summary.
  destruct summary as [|c s].
  { left. split; [reflexivity|].
    assert (He : sentences_of (squeeze EmptyString) = []) by reflexivity.
    rewrite He, limit_firstn by exact Hm. apply firstn_nil. }
  cbn [Str.truthy negb]. set (t := squeeze (String c s)).
  destruct (squeeze_spaced (String c s)) as [Hsp _]. fold t in Hsp.
  destruct (limit_facts m (sentences_of t) Hm (sentences_clean t Hsp))
    as [Hclean Hlen].
  destruct (limit_sentences m (sentences_of t)) as [|x l] eqn:Hl.
  - left. split; reflexivity.
  - right. exists (x :: l).
    rewrite (sentence_text_join (x :: l)) by discriminate.
    repeat split; auto; try discriminate.
    + apply sentence_text_marks; auto.
    + apply sentence_text_marks; auto.
Qed.

(** X13. With a limit that is not negative, postprocessing a
    postprocessed summary changes nothing. *)
Theorem postprocess_summary_idempotent (summary : string) (m : Z) :
  0 <= m ->
  postprocess_summary (postprocess_summary summary m) m
  = postprocess_summary summary m.
Proof.
  intros Hm. destruct summary as [|c s]; [reflexivity|].
  rewrite (postprocess_nonempty c s m). set (t := squeeze (String c s)).
  destruct (squeeze_spaced (String c s)) as [Hsp Hstrip].
  fold t in Hsp, Hstrip.
  destruct (limit_facts m (sentences_of t) Hm (sentences_clean t Hsp))
    as [Hclean Hlen].
  destruct (limit_sentences m (sentences_of t)) as [|x l] eqn:Hl.
  - destruct t as [|c' t'] eqn:Ht; [reflexivity|].
    rewrite postprocess_nonempty, (squeeze_fixed _ Hsp Hstrip), Hl.
    reflexivity.
  - rewrite (sentence_text_join (x :: l)) by discriminate.
    destruct (sentence_text_spaced (x :: l) Hclean ltac:(discriminate))
      as [Hrs Hrc].
    assert (Hrstrip : Str.strip (sentence_text (x :: l))
                      = sentence_text (x :: l)).
    { unfold Str.strip. rewrite (clean_lstrip _ Hrc).
      rewrite <- (sentence_text_join (x :: l)) by discriminate.
      apply rstrip_end. reflexivity. }
    assert (Hfix : forall r,
              r = sentence_text (x :: l) -> postprocess_summary r m = r).
    { intros r Hr. destruct r as [|c' r'].
      - inversion Hclean as [|x' l' Hx _]; subst.
        destruct Hx as (Hne & _). destruct x; [congruence|].
        destruct l; discriminate.
      - rewrite postprocess_nonempty, Hr.
        rewrite (squeeze_fixed _ Hrs Hrstrip), (sentences_of_text _ Hclean).
        rewrite (limit_short m (x :: l) Hlen).
        apply (sentence_text_join (x :: l)). discriminate. }
    apply Hfix. reflexivity.
Qed.

End Summaries.

(** X12 and X13 at a summary of six sentences and a limit of four. *)
Lemma postprocess_summary_shape_witness :
  exists l,
    l <> [] /\ Z.of_nat (List.length l) <= 4
    /\ postprocess_summary "Hello world! How are you?  Fine. A. B. C." 4
       = sentence_text l.
Proof.
  destruct (postprocess_summary_shape
              "Hello world! How are you?  Fine. A. B. C." 4 ltac:(lia))
    as [[_ H]|(l & H1 & H2 & _ & H4 & _)].
  - vm_compute in H. discriminate H.
  - exists l. auto.
Defined.

Lemma postprocess_summary_idempotent_witness :
  postprocess_summary
    (postprocess_summary "Hello world! How are you?  Fine. A. B. C." 4) 4
  = "Hello world. How are you. Fine. A.".
Proof.
  rewrite (postprocess_summary_idempotent _ 4 ltac:(lia)).
  vm_compute. reflexivity.
Defined.

(** ** The articles table *)

Section Storage.
Context (summ : option (string -> result string))
        (scrape : string -> Z -> result (list article)).

Local Abbreviation svc := (sqlite_services summ scrape).

Lemma max_id_ge (l : list Viewer.row) (r : Viewer.row) :
  In r l -> Viewer.id r <= Sqlite.max_id l.
Proof.
  induction l as [|x l IH]; cbn [In Sqlite.max_id]; [tauto|].
  intros [<-|H]; [lia|]. specialize (IH H). lia.
Qed.

Lemma next_id_fresh (d : Sqlite.db) (r : Viewer.row) :
  In r (Sqlite.rows d) -> Viewer.id r < Sqlite.next_id d.
Proof. intros H. apply max_id_ge in H. unfold Sqlite.next_id. lia. Qed.

Lemma find_last (f : Viewer.row -> bool) (l : list Viewer.row)
  (x : Viewer.row) :
  List.find f (l ++ [x])
  = match List.find f l with
    | Some y => Some y
    | None => if f x then Some x else None
    end.
Proof.
  induction l as [|y l IH]; cbn [app List.find]; [reflexivity|].
  destruct (f y); [reflexivity|exact IH].
Qed.

Lemma find_none (f : Viewer.row -> bool) (l : list Viewer.row) :
  (forall r, In r l -> f r = false) -> List.find f l = None.
Proof.
  induction l as [|y l IH]; cbn [List.find]; [reflexivity|].
  intros H. rewrite (H y (or_introl eq_refl)). apply IH.
  intros r Hr. apply H. right. exact Hr.
Qed.

Lemma length_insert_desc (r : Viewer.row) (l : list Viewer.row) :
  List.length (Viewer.insert_desc r l) = S (List.length l).
Proof.
  induction l as [|x l IH]; cbn [Viewer.insert_desc List.length];
    [reflexivity|].
  destruct (String.leb _ _); cbn [List.length]; congruence.
Qed.

Lemma length_order_desc (l : list Viewer.row) :
  List.length (Viewer.order_desc l) = List.length l.
Proof.
  induction l as [|x l IH]; cbn [Viewer.order_desc List.length];
    [reflexivity|].
  rewrite length_insert_desc. congruence.
Qed.

(** The row an article becomes. *)
Lemma store_article_sqlite (w : @world svc) (data : article) :
  @store_article svc w data
  = if Sqlite.readonly (db w)
    then (Raise OperationalError, logger ERROR "Error storing article: " w)
    else
      match Sqlite.refuses (db w)
              (title data, author data, content data,
               get_default (summary data), source_url data) with
      | Some e =>
          if is_Exception e
          then (Raise e, logger ERROR "Error storing article: " w)
          else (Raise e, w)
      | None =>
          let article_id := Sqlite.next_id (db w) in
          (Return article_id,
           logger INFO "Stored article with ID: "
             (@Build_world svc
                {| Sqlite.rows :=
                           Sqlite.rows (db w)
                           ++ [{| Viewer.id := article_id;
                                  Viewer.title := title data;
                                  Viewer.author := Some (author data);
                                  Viewer.content := content data;
                                  Viewer.summary :=
                                    Some (get_default (summary data));
                                  Viewer.source_url := source_url data;
                                  Viewer.created_at :=
                                    Sqlite.clock (db w) article_id |}];
                   Sqlite.sequence := article_id;
                   Sqlite.readonly := Sqlite.readonly (db w);
                   Sqlite.clock := Sqlite.clock (db w);
                   Sqlite.refuses := Sqlite.refuses (db w) |}
                (log w)))
      end.
Proof.
  unfold store_article. cbn [sqlite_insert sqlite_services Sqlite.insert].
  destruct (Sqlite.readonly (db w)); [reflexivity|].
  destruct (Sqlite.refuses (db w) _); reflexivity.
Qed.

(** X14. Storing an article and reading it back gives the article: the
    new id is greater than every id of the table, the row under it holds
    the title, author, content, summary (empty when the dictionary has
    none) and URL that were stored, every other id reads as before, and
    the listing of all articles has one more entry. *)
Theorem store_then_get (w w' : @world svc) (data : article) (article_id : Z) :
  @store_article svc w data = (Return article_id, w') ->
  get_summary_by_id (db w') article_id
  = Some {| Viewer.id := article_id;
            Viewer.title := title data;
            Viewer.author := Some (author data);
            Viewer.content := content data;
            Viewer.summary := Some (get_default (summary data));
            Viewer.source_url := source_url data;
            Viewer.created_at := Sqlite.clock (db w) article_id |}
  /\ get_article_by_id (db w') article_id
     = get_summary_by_id (db w') article_id
  /\ (forall r, In r (Sqlite.rows (db w)) -> Viewer.id r < article_id)
  /\ (forall j, j <> article_id ->
        get_summary_by_id (db w') j = get_summary_by_id (db w) j)
  /\ List.length (get_all_articles (db w'))
     = S (List.length (get_all_articles (db w))).
Proof.
  rewrite store_article_sqlite.
  destruct (Sqlite.readonly (db w)); [discriminate|].
  destruct (Sqlite.refuses (db w) _) as [e|];
    [destruct (is_Exception e); discriminate|].
  cbv zeta. intros H. injection H as <- <-.
  unfold get_article_by_id, get_summary_by_id, Sqlite.select_by_id,
    get_all_articles.
  cbn [db logger Sqlite.rows].
  assert (Hfresh : forall r, In r (Sqlite.rows (db w)) ->
                             Viewer.id r < Sqlite.next_id (db w))
    by (intros r; apply next_id_fresh).
  repeat split.
  - rewrite find_last, find_none.
    + cbn [Viewer.id]. rewrite Z.eqb_refl. reflexivity.
    + intros r Hr. apply Z.eqb_neq. specialize (Hfresh r Hr). lia.
  - exact Hfresh.
  - intros j Hj. rewrite find_last.
    destruct (List.find _ (Sqlite.rows (db w))); [reflexivity|].
    cbn [Viewer.id]. apply Z.eqb_neq in Hj. rewrite Z.eqb_sym, Hj.
    reflexivity.
  - rewrite !length_map, !length_order_desc, length_app. cbn [List.length].
    lia.
Qed.

Lemma summarize_keeps (lib : Library) (w w1 : @world svc) (a : article)
  (res : result article) :
  @summarize svc w a = (res, w1) ->
  db w1 = db w
  /\ forall a1, res = Return a1 ->
       title a1 = title a /\ author a1 = author a
       /\ content a1 = content a /\ source_url a1 = source_url a
       /\ exists s, summary a1 = Some s.
Proof.
  unfold summarize. destruct (@summarizer svc) as [f|].
  - destruct (Str.truthy (content a)).
    + destruct (f (content a)) as [s|e].
      * intros H. injection H as <- <-. split; [reflexivity|].
        intros a1 H. injection H as <-. cbn. eauto 10.
      * destruct (is_Exception e); intros H; injection H as <- <-;
          (split; [reflexivity|]); intros a1 H; [|discriminate].
        injection H as <-. cbn. eauto 10.
    + intros H. injection H as <- <-. split; [reflexivity|].
      intros a1 H. injection H as <-. cbn. eauto 10.
  - intros H. injection H as <- <-. split; [reflexivity|].
    intros a1 H. injection H as <-. cbn. eauto 10.
Qed.

Lemma process_article_sqlite (lib : Library) (w w1 : @world svc)
  (a : article) (res : result Z) :
  @process_article lib svc w a = (res, w1) ->
  match res with
  | Return article_id =>
      exists r,
        Sqlite.rows (db w1) = (Sqlite.rows (db w) ++ [r])%list
        /\ Sqlite.readonly (db w1) = Sqlite.readonly (db w)
        /\ Sqlite.readonly (db w) = false
        /\ Viewer.id r = article_id
        /\ Viewer.title r = title a
        /\ Viewer.author r = Some (author a)
        /\ Viewer.content r = preprocess_text (content a)
        /\ Viewer.source_url r = source_url a
        /\ exists s, Viewer.summary r = Some s
  | Raise e => db w1 = db w
  end.
Proof.
  unfold process_article.
  destruct (@summarize svc w (set_content a (preprocess_text (content a))))
    as [[a1|e] w0] eqn:Hsum.
  - destruct (summarize_keeps lib _ _ _ _ Hsum) as [Hdb Ha1].
    destruct (Ha1 a1 eq_refl) as (Ht & Hau & Hc & Hu & s & Hs).
    rewrite store_article_sqlite.
    destruct (Sqlite.readonly (db w0)) eqn:Hro;
      [|destruct (Sqlite.refuses (db w0) _) as [e|];
        [destruct (is_Exception e)|]].
    + intros H. injection H as <- <-. cbn [db logger]. exact Hdb.
    + intros H. injection H as <- <-. cbn [db logger]. exact Hdb.
    + intros H. injection H as <- <-. exact Hdb.
    + cbv zeta. intros H. injection H as <- <-. cbn [db logger Sqlite.rows
        Sqlite.readonly]. rewrite Hdb in *. eexists. split; [reflexivity|].
      cbn [Viewer.id Viewer.title Viewer.author Viewer.content
           Viewer.source_url Viewer.summary].
      rewrite Ht, Hau, Hc, Hu, Hs. cbn [title author content source_url
        set_content get_default]. repeat split; auto. eauto.
  - intros H. injection H as <- <-.
    apply (summarize_keeps lib _ _ _ _ Hsum).
Qed.

Lemma process_loop_sqlite (lib : Library) (articles : list article)
  (w w' : @world svc) (ids0 ids : list Z) :
  @process_loop lib svc articles w ids0 = (Return ids, w') ->
  exists added,
    Sqlite.rows (db w') = (Sqlite.rows (db w) ++ added)%list
    /\ ids = (ids0 ++ map Viewer.id added)%list
    /\ (List.length added <= List.length articles)%nat
    /\ Forall (fun r =>
                 exists a, In a articles
                           /\ Viewer.title r = title a
                           /\ Viewer.author r = Some (author a)
                           /\ Viewer.content r = preprocess_text (content a)
                           /\ Viewer.source_url r = source_url a
                           /\ exists s, Viewer.summary r = Some s)
         added.
Proof.
  revert w ids0. induction articles as [|a rest IH]; intros w ids0;
    cbn [process_loop].
  - intros H. injection H as <- <-. exists []. rewrite !app_nil_r.
    repeat split; auto.
  - destruct (@process_article lib svc w a) as [[article_id|e] w1] eqn:Hpa;
      apply process_article_sqlite in Hpa.
    + destruct Hpa as (r & Hrows & _ & _ & Hid & Hr).
      intros H. destruct (IH _ _ H) as (added & Hrows' & Hids & Hlen & Hall).
      exists (r :: added). rewrite Hrows', Hrows, <- app_assoc.
      split; [reflexivity|]. split.
      { rewrite Hids, <- app_assoc. cbn [map app]. rewrite Hid. reflexivity. }
      split; [cbn [List.length]; lia|].
      constructor.
      * exists a. split; [left; reflexivity|exact Hr].
      * eapply Forall_impl; [|exact Hall].
        intros r' (a' & Hin & Hrest). exists a'. split; [right|]; assumption.
    + destruct (is_Exception e); [|discriminate].
      intros H. destruct (IH _ _ H) as (added & Hrows' & Hids & Hlen & Hall).
      exists added. cbn [db logger] in Hrows'. rewrite Hpa in Hrows'.
      split; [exact Hrows'|]. split; [exact Hids|].
      split; [cbn [List.length]; lia|].
      eapply Forall_impl; [|exact Hall].
      intros r' (a' & Hin & Hrest). exists a'. split; [right|]; assumption.
Qed.

(** X16. When the workflow returns, the table has grown by one row per
    id returned, in the order of the ids; there are no more of them than
    articles scraped; and each new row holds the title, author and URL of
    a scraped article, its content normalised, and a summary. *)
Theorem process_articles_accounting (lib : Library) (source : string)
  (limit : Z) (w w' : @world svc) (ids : list Z) :
  @process_articles lib svc source limit w = (Return ids, w') ->
  exists articles added,
    (scrape source limit = Return articles \/ articles = [])
    /\ Sqlite.rows (db w') = (Sqlite.rows (db w) ++ added)%list
    /\ ids = map Viewer.id added
    /\ (List.length ids <= List.length articles)%nat
    /\ Forall (fun r =>
                 exists a, In a articles
                           /\ Viewer.title r = title a
                           /\ Viewer.author r = Some (author a)
                           /\ Viewer.content r = preprocess_text (content a)
                           /\ Viewer.source_url r = source_url a
                           /\ exists s, Viewer.summary r = Some s)
         added.
Proof.
  unfold process_articles. cbn [scrape_articles sqlite_services].
  destruct (scrape source limit) as [articles|e] eqn:Hs.
  - intros H. apply process_loop_sqlite in H.
    destruct H as (added & Hrows & Hids & Hlen & Hall).
    exists articles, added. cbn [db logger app] in *. subst ids.
    rewrite length_map. auto.
  - destruct (is_Exception e); [|discriminate].
    intros H. injection H as <- <-. exists [], []. cbn [db logger].
    rewrite app_nil_r. repeat split; auto.
Qed.

Lemma process_loop_readonly (lib : Library) (articles : list article)
  (w w' : @world svc) (ids0 : list Z) (res : result (list Z)) :
  Sqlite.readonly (db w) = true ->
  @process_loop lib svc articles w ids0 = (res, w') ->
  db w' = db w
  /\ (res = Return ids0 \/ exists e, res = Raise e /\ is_Exception e = false).
Proof.
  revert w. induction articles as [|a rest IH]; intros w Hro;
    cbn [process_loop].
  - intros H. injection H as <- <-. auto.
  - destruct (@process_article lib svc w a) as [[article_id|e] w1] eqn:Hpa;
      apply process_article_sqlite in Hpa.
    + destruct Hpa as (r & _ & _ & Hrw & _). congruence.
    + destruct (is_Exception e) eqn:He.
      * intros H. apply IH in H; [|cbn [db logger]; rewrite Hpa; exact Hro].
        cbn [db logger] in H. rewrite Hpa in H. exact H.
      * intros H. injection H as <- <-. split; [exact Hpa|]. right. eauto.
Qed.

(** X15. A database that cannot be written is never changed: storing
    raises and leaves it as it was, and the workflow leaves it as it was
    and returns no id. *)
Theorem readonly_database_unchanged (lib : Library) (w : @world svc) :
  Sqlite.readonly (db w) = true ->
  (forall data,
     @store_article svc w data
     = (Raise OperationalError, logger ERROR "Error storing article: " w))
  /\ (forall source limit res w',
        @process_articles lib svc source limit w = (res, w') ->
        db w' = db w
        /\ (res = Return []
            \/ exists e, res = Raise e /\ is_Exception e = false)).
Proof.
  intros Hro. split.
  - intros data. rewrite store_article_sqlite, Hro. reflexivity.
  - intros source limit res w'. unfold process_articles.
    cbn [scrape_articles sqlite_services].
    destruct (scrape source limit) as [articles|e].
    + intros H. apply process_loop_readonly in H; [|exact Hro].
      exact H.
    + destruct (is_Exception e) eqn:He; intros H; injection H as <- <-.
      * auto.
      * split; [reflexivity|]. right. eauto.
Qed.

End Storage.

Section StorageNoSummarizer.
Context (scrape : string -> Z -> result (list article)).

Local Abbreviation svc := (sqlite_services None scrape).

Lemma process_loop_no_summarizer (lib : Library) (articles : list article)
  (w w' : @world svc) (ids0 ids : list Z) :
  @process_loop lib svc articles w ids0 = (Return ids, w') ->
  exists added,
    Sqlite.rows (db w') = (Sqlite.rows (db w) ++ added)%list
    /\ ids = (ids0 ++ map Viewer.id added)%list
    /\ Forall (fun r => Viewer.summary r = Some "No summary available") added.
Proof.
  revert w ids0. induction articles as [|a rest IH]; intros w ids0;
    cbn [process_loop].
  - intros H. injection H as <- <-. exists []. rewrite !app_nil_r. auto.
  - unfold process_article at 1. unfold summarize.
    cbn [summarizer sqlite_services].
    rewrite store_article_sqlite.
    destruct (Sqlite.readonly (db w));
      [|destruct (Sqlite.refuses (db w) _) as [e|];
        [destruct (is_Exception e) eqn:He; [rewrite He|]|]];
      cbv beta iota zeta.
    + cbn [is_Exception]. intros H. apply IH in H.
      cbn [db logger] in H. exact H.
    + intros H. apply IH in H. cbn [db logger] in H. exact H.
    + rewrite He. discriminate.
    + intros H. apply IH in H. cbn [db logger Sqlite.rows] in H.
      destruct H as (added & Hrows & Hids & Hall).
      eexists (_ :: added). rewrite Hrows, Hids, <- !app_assoc.
      cbn [map app Viewer.id]. repeat split. constructor; [|exact Hall].
      reflexivity.
Qed.

(** X17. Without a summariser every row the workflow stores carries the
    summary [No summary available]: when the workflow returns, the rows
    it added are the rows of the ids it returns, and each has that
    summary. *)
Theorem process_articles_no_summarizer (lib : Library) (source : string)
  (limit : Z) (w w' : @world svc) (ids : list Z) :
  @process_articles lib svc source limit w = (Return ids, w') ->
  exists added,
    Sqlite.rows (db w') = (Sqlite.rows (db w) ++ added)%list
    /\ ids = map Viewer.id added
    /\ Forall (fun r => Viewer.summary r = Some "No summary available") added.
Proof.
  unfold process_articles. cbn [scrape_articles sqlite_services].
  destruct (scrape source limit) as [articles|e].
  - intros H. apply process_loop_no_summarizer in H.
    cbn [app db logger] in H. exact H.
  - destruct (is_Exception e); [|discriminate].
    intros H. injection H as <- <-. exists []. cbn [db logger map].
    rewrite app_nil_r. auto.
Qed.

End StorageNoSummarizer.

(** X14 at an empty table: the budget record is read back under id 1. *)
Lemma store_then_get_witness :
  get_summary_by_id
    (db (snd (@store_article sample_services fresh_world
                Samples.budget_to_store))) 1
  = Some {| Viewer.id := 1;
            Viewer.title := "Local Council Approves Budget";
            Viewer.author := Some "Jane Doe";
            Viewer.content := Str.lower Samples.prose;
            Viewer.summary := Some "No summary available";
            Viewer.source_url := "https://example.com/budget";
            Viewer.created_at := "2024-01-01 00:00:00" |}.
Proof.
  refine (proj1 (store_then_get None Samples.one_article fresh_world _
                   Samples.budget_to_store 1 _)).
  vm_compute. reflexivity.
Defined.

(** X15 at an empty table that cannot be written. *)
Lemma readonly_database_unchanged_witness :
  @store_article sample_services locked_world Samples.budget_to_store
  = (Raise OperationalError,
     logger ERROR "Error storing article: " locked_world).
Proof.
  apply (proj1 (readonly_database_unchanged None Samples.one_article
                  fragment_library locked_world eq_refl)).
Defined.

(** X16 and X17 at an empty table and a scrape of one article. *)
Lemma process_articles_accounting_witness :
  exists (articles : list article) (added : list Viewer.row),
    Sqlite.rows
      (db (snd (@process_articles fragment_library sample_services
                  "https://example.com/budget" 5 fresh_world)))
    = (Sqlite.rows (db fresh_world) ++ added)%list
    /\ [1] = map Viewer.id added
    /\ (List.length [1%Z] <= List.length articles)%nat.
Proof.
  destruct (process_articles_accounting None Samples.one_article
              fragment_library "https://example.com/budget" 5 fresh_world
              (snd (@process_articles fragment_library sample_services
                      "https://example.com/budget" 5 fresh_world))
              [1])
    as (articles & added & _ & H1 & H2 & H3 & _).
  - vm_compute. reflexivity.
  - exists articles, added. auto.
Defined.

Lemma process_articles_no_summarizer_witness :
  exists added : list Viewer.row,
    Sqlite.rows
      (db (snd (@process_articles fragment_library sample_services
                  "https://example.com/budget" 5 fresh_world)))
    = (Sqlite.rows (db fresh_world) ++ added)%list
    /\ [1] = map Viewer.id added
    /\ Forall (fun r => Viewer.summary r = Some "No summary available") added.
Proof.
  apply (process_articles_no_summarizer Samples.one_article fragment_library
           "https://example.com/budget" 5 fresh_world
           (snd (@process_articles fragment_library sample_services
                   "https://example.com/budget" 5 fresh_world))
           [1]).
  vm_compute. reflexivity.
Defined.

(** ** Routing a source *)

Section Routing.
Context (lib : Library) (net : Network) (adapters : Adapters).

Lemma scrape_multiple_urls_returns (urls : list string) (k : Z) :
  1 <= k -> scrape_multiple_urls urls k = Returns (successes urls).
Proof.
  intros Hk. unfold scrape_multiple_urls.
  destruct (k <? 0) eqn:Hneg; [apply Z.ltb_lt in Hneg; lia|].
  rewrite (run_completes lib net k urls).
  - rewrite collect_results. reflexivity.
  - exact Hk.
  - cbn [init value tasks]. rewrite init_in_flight. lia.
  - cbn [init value]. lia.
  - apply init_follows.
  - cbn [init tasks]. rewrite init_in_flight, init_queued. lia.
Qed.

Lemma of_result_answers (r : result (list article)) :
  WebScraper.of_result r <> Hangs.
Proof. destruct r; discriminate. Qed.

Lemma route_answers (source : string) (limit : Z) :
  WebScraper.route source limit <> Hangs.
Proof.
  unfold WebScraper.route.
  destruct (String.eqb _ "quotes"); [apply of_result_answers|].
  destruct (String.eqb _ "hackernews"); [apply of_result_answers|].
  destruct (Str.startswith "reddit:" _); [apply of_result_answers|].
  destruct (_ || _ || _); [|discriminate].
  destruct (Str.has_char ","%char source).
  - rewrite scrape_multiple_urls_returns by lia. discriminate.
  - destruct (scrape_url source) as [[a|]|e]; discriminate.
Qed.

(** X18. Routing a source always answers, and what it raises is never an
    [Exception]: an [Exception] of a scraper becomes the empty list. *)
Theorem scrape_articles_answers (source : string) (limit : Z) :
  WebScraper.scrape_articles source limit <> Hangs
  /\ forall e, WebScraper.scrape_articles source limit = Raises e ->
               is_Exception e = false.
Proof.
  unfold WebScraper.scrape_articles.
  pose proof (route_answers source limit) as H.
  destruct (WebScraper.route source limit) as [l|e0|]; [| |congruence].
  - split; [discriminate|]. intros e He. discriminate.
  - destruct (is_Exception e0) eqn:He0.
    + split; [discriminate|]. intros e He. discriminate.
    + split; [discriminate|]. intros e He. injection He as <-. exact He0.
Qed.

Lemma comma_lower (d : ascii) :
  Ascii.eqb ","%char (Str.lower_char d) = Ascii.eqb ","%char d.
Proof. destruct d as [[] [] [] [] [] [] [] []]; reflexivity. Qed.

Lemma has_comma_lower (s : string) :
  Str.has_char ","%char (Str.lower s) = Str.has_char ","%char s.
Proof.
  induction s as [|d s IH]; cbn [Str.lower Str.has_char]; [reflexivity|].
  rewrite comma_lower, IH. reflexivity.
Qed.

(** X19. A source with a comma that looks like URLs is split at the
    commas, each piece is stripped, the first [limit] pieces are scraped
    with five slots, and the answer is the records of the pieces that
    succeeded, in their order. *)
Theorem scrape_articles_url_list (source : string) (limit : Z) :
  Str.has_char ","%char source = true ->
  Str.startswith "reddit:" (Str.lower source) = false ->
  Str.startswith "http://" (Str.lower source)
  || Str.startswith "https://" (Str.lower source)
  || Str.has_char "."%char source = true ->
  WebScraper.scrape_articles source limit
  = Returns (successes
               (list_slice_to limit
                  (map Str.strip (Py.split_on ","%char source)))).
Proof.
  intros Hcomma Hreddit Hurl.
  assert (Hlow : Str.has_char ","%char (Str.lower source) = true)
    by (rewrite has_comma_lower; exact Hcomma).
  unfold WebScraper.scrape_articles, WebScraper.route.
  destruct (String.eqb (Str.lower source) "quotes") eqn:Hq.
  { apply String.eqb_eq in Hq. rewrite Hq in Hlow. discriminate Hlow. }
  destruct (String.eqb (Str.lower source) "hackernews") eqn:Hh.
  { apply String.eqb_eq in Hh. rewrite Hh in Hlow. discriminate Hlow. }
  rewrite Hreddit, Hurl, Hcomma.
  rewrite scrape_multiple_urls_returns by lia. reflexivity.
Qed.

(** X20. The named sources are matched without regard to case, and a
    subreddit is passed on in lower case: a source that in lower case is
    [quotes], [hackernews] or starts with [reddit:] is answered like its
    lower-case form. *)
Theorem scrape_articles_named_case (source : string) (limit : Z) :
  String.eqb (Str.lower source) "quotes"
  || String.eqb (Str.lower source) "hackernews"
  || Str.startswith "reddit:" (Str.lower source) = true ->
  WebScraper.scrape_articles source limit
  = WebScraper.scrape_articles (Str.lower source) limit.
Proof.
  intros H. unfold WebScraper.scrape_articles, WebScraper.route.
  rewrite lower_idem.
  destruct (String.eqb (Str.lower source) "quotes"); [reflexivity|].
  destruct (String.eqb (Str.lower source) "hackernews"); [reflexivity|].
  destruct (Str.startswith "reddit:" (Str.lower source)); [reflexivity|].
  discriminate H.
Qed.

End Routing.

(** X19 at two URLs, the second of which times out. *)
Lemma scrape_articles_url_list_witness :
  @WebScraper.scrape_articles fragment_library Samples.demo_network
    silent_adapters "example.com/budget , example.com/slow" 5
  = Returns [Samples.budget_record].
Proof.
  rewrite (scrape_articles_url_list fragment_library Samples.demo_network
             silent_adapters "example.com/budget , example.com/slow" 5
             eq_refl eq_refl eq_refl).
  vm_compute. reflexivity.
Defined.

(** X20 at a subreddit written with capitals. *)
Lemma scrape_articles_named_case_witness :
  @WebScraper.scrape_articles fragment_library Samples.demo_network
    silent_adapters "Reddit:News" 5
  = @WebScraper.scrape_articles fragment_library Samples.demo_network
      silent_adapters "reddit:news" 5.
Proof.
  exact (scrape_articles_named_case fragment_library Samples.demo_network
           silent_adapters "Reddit:News" 5 eq_refl).
Defined.

(** ** More on searching *)

Section SearchFacts.

Lemma all_columns (c : Viewer.column) : In c (Viewer.searched "all").
Proof. destruct c; cbn; auto. Qed.

Lemma search_returns (table : list Viewer.row) (query field : string)
  (rows : list Viewer.row) (st : list Viewer.statement) :
  Viewer.search_articles table query field = (Return rows, st) ->
  Viewer.recognised field = true
  /\ rows = Viewer.execute table
              (map (fun c => (c, Viewer.pattern_of query))
                 (Viewer.searched field)).
Proof.
  destruct (Viewer.recognised field) eqn:Hrec.
  - rewrite (search_recognised table query field Hrec). cbv zeta.
    intros H. injection H as <- _. auto.
  - rewrite (search_unrecognised table query field Hrec). discriminate.
Qed.

(** X21. Whatever a search of one field returns, the search of all
    fields returns too. *)
Theorem search_all_covers (table : list Viewer.row) (query field : string)
  (rows rows_all : list Viewer.row) (st st_all : list Viewer.statement) :
  Viewer.search_articles table query field = (Return rows, st) ->
  Viewer.search_articles table query "all" = (Return rows_all, st_all) ->
  forall r, In r rows -> In r rows_all.
Proof.
  intros H Hall r Hr.
  apply search_returns in H. destruct H as [_ ->].
  apply search_returns in Hall. destruct Hall as [_ ->].
  apply in_execute in Hr. destruct Hr as [Hin Hm].
  apply in_execute. split; [exact Hin|].
  apply where_matches_columns in Hm. destruct Hm as (c & v & _ & Hv & Hl).
  apply where_matches_columns. exists c, v.
  split; [apply all_columns|auto].
Qed.

Lemma like_everything (v : string) : Viewer.like (Viewer.pattern_of "") v = true.
Proof.
  change (Viewer.pattern_of "") with "%%".
  rewrite like_percent, like_any. reflexivity.
Qed.

(** X22. The empty query returns every row in which a searched field is
    not NULL: all rows for the title and the content. *)
Theorem search_empty_query (table : list Viewer.row) (field : string)
  (rows : list Viewer.row) (st : list Viewer.statement) :
  Viewer.search_articles table "" field = (Return rows, st) ->
  forall r,
    In r rows <->
    In r table
    /\ exists c v, In c (Viewer.searched field)
                   /\ Viewer.column_value c r = Some v.
Proof.
  intros H r. apply search_returns in H. destruct H as [_ ->].
  rewrite in_execute, where_matches_columns. split.
  - intros (Hin & c & v & Hc & Hv & _). eauto.
  - intros (Hin & c & v & Hc & Hv). split; [exact Hin|].
    exists c, v. repeat split; auto. apply like_everything.
Qed.

End SearchFacts.

(** X21 and X22 at the sample row. *)
Lemma search_all_covers_witness :
  In Samples.row_abc [Samples.row_abc].
Proof.
  refine (search_all_covers [Samples.row_abc] "b" "title"
            [Samples.row_abc] [Samples.row_abc] _ _ _ _ Samples.row_abc _).
  - vm_compute. reflexivity.
  - vm_compute. reflexivity.
  - left. reflexivity.
Defined.

Lemma search_empty_query_witness :
  In Samples.row_abc [Samples.row_abc]
  /\ exists c v, In c (Viewer.searched "title")
                 /\ Viewer.column_value c Samples.row_abc = Some v.
Proof.
  refine (proj1 (search_empty_query [Samples.row_abc] "title"
                   [Samples.row_abc] _ _ Samples.row_abc) _).
  - vm_compute. reflexivity.
  - left. reflexivity.
Defined.

(** ** The quotes scraper *)

Section QuotesFacts.
Context (lib : Library) (net : Network).

Lemma quote_articles_shape (quotes : list node) :
  (List.length (Quotes.quote_articles quotes) <= List.length quotes)%nat
  /\ Forall (fun a => source_url a = Quotes.site
                      /\ title a = "Quote by " ++ author a
                      /\ summary a = None)
       (Quotes.quote_articles quotes).
Proof.
  induction quotes as [|q rest [IH1 IH2]]; cbn [Quotes.quote_articles].
  - split; [reflexivity|constructor].
  - destruct (Quotes.quote_article q) as [a|] eqn:Hq.
    + split; [cbn [List.length]; lia|]. constructor; [|exact IH2].
      unfold Quotes.quote_article in Hq.
      destruct (List.find (Quotes.has_class "span" "text") _);
        [|discriminate].
      destruct (List.find (Quotes.has_class "small" "author") _);
        [|discriminate].
      injection Hq as <-. cbn. auto.
    + split; [cbn [List.length]; lia|exact IH2].
Qed.

Lemma length_slice_to (A : Type) (n : Z) (l : list A) :
  0 <= n -> Z.of_nat (List.length (list_slice_to n l)) <= n.
Proof.
  intros Hn. unfold list_slice_to. apply Z.ltb_ge in Hn as Hn'.
  rewrite Hn', length_firstn. lia.
Qed.

(** X23. For a limit that is not negative the quotes scraper returns at
    most that many articles, each with the site as its source, the title
    [Quote by] and the author, and no summary; and what it raises is
    never an [Exception]. *)
Theorem scrape_quotes_bounded (limit : Z) :
  0 <= limit ->
  (forall l, Quotes.scrape_quotes_toscrape limit = Return l ->
     Z.of_nat (List.length l) <= limit
     /\ Forall (fun a => source_url a = Quotes.site
                         /\ title a = "Quote by " ++ author a
                         /\ summary a = None) l)
  /\ (forall e, Quotes.scrape_quotes_toscrape limit = Raise e ->
        is_Exception e = false).
Proof.
  intros Hlimit. unfold Quotes.scrape_quotes_toscrape, Quotes.quotes_except.
  assert (Hnil : 0 <= limit /\ Forall (fun a : article =>
                    source_url a = Quotes.site
                    /\ title a = "Quote by " ++ author a
                    /\ summary a = None) [])
    by (split; [lia|constructor]).
  destruct (session_get Quotes.site) as [resp|e0].
  - destruct (negb (status resp =? 200)).
    { split; [|discriminate]. intros l H. injection H as <-. exact Hnil. }
    destruct (text resp) as [html|e0].
    + split; [|discriminate]. intros l H. injection H as <-.
      destruct (quote_articles_shape
                  (list_slice_to limit
                     (filter (Quotes.has_class "div" "quote")
                        (Bs4.all_tags (BeautifulSoup html))))) as [H1 H2].
      split; [|exact H2].
      pose proof (length_slice_to node limit
                    (filter (Quotes.has_class "div" "quote")
                       (Bs4.all_tags (BeautifulSoup html))) Hlimit).
      lia.
    + destruct (is_Exception e0) eqn:He0.
      * split; [|discriminate]. intros l H. injection H as <-. exact Hnil.
      * split; [discriminate|]. intros e H. injection H as <-. exact He0.
  - destruct (is_Exception e0) eqn:He0.
    + split; [|discriminate]. intros l H. injection H as <-. exact Hnil.
    + split; [discriminate|]. intros e H. injection H as <-. exact He0.
Qed.

End QuotesFacts.

(** X23 at a page of three quotes, one of them unsigned, and a limit of
    two. *)
Lemma scrape_quotes_bounded_witness :
  exists l,
    @Quotes.scrape_quotes_toscrape fragment_library quotes_network 2
    = Return l
    /\ Z.of_nat (List.length l) <= 2
    /\ map title l = ["Quote by A. Writer"; "Quote by B. Reader"].
Proof.
  destruct (@Quotes.scrape_quotes_toscrape fragment_library quotes_network 2)
    as [l|e] eqn:Hl; [|vm_compute in Hl; discriminate Hl].
  exists l. split; [reflexivity|].
  destruct (proj1 (scrape_quotes_bounded fragment_library quotes_network 2
                     ltac:(lia)) l Hl) as [H _].
  split; [exact H|].
  vm_compute in Hl. injection Hl as <-. reflexivity.
Defined.

(** X10 at an empty batch under three slots. *)
Lemma scrape_multiple_urls_edges_witness :
  scrape_multiple_urls [] 3 = Returns [].
Proof.
  apply (proj1 (scrape_multiple_urls_edges fragment_library
                  Samples.demo_network) 3).
  lia.
Defined.

(** X18 at a URL whose fetch is cancelled: what comes out is the
    cancellation, which is no [Exception]. *)
Lemma scrape_articles_answers_witness :
  @WebScraper.scrape_articles fragment_library Samples.demo_network
    silent_adapters "example.com/cancelled" 5 = Raises CancelledError
  /\ is_Exception CancelledError = false.
Proof.
  assert (H : @WebScraper.scrape_articles fragment_library
                Samples.demo_network silent_adapters
                "example.com/cancelled" 5 = Raises CancelledError)
    by (vm_compute; reflexivity).
  split; [exact H|].
  exact (proj2 (scrape_articles_answers fragment_library
                  Samples.demo_network silent_adapters
                  "example.com/cancelled" 5) CancelledError H).
Defined.
